(** * RSK Attestation Copilot: query layer, orchestrator and tool handlers

    A shallow embedding of
      - [src/services/graphqlService.ts]     (module [GraphQLService]),
      - [src/services/attestationService.ts] (module [AttestationService]),
      - [src/tools/handlers.ts]              (module [Handlers]),
      - [src/utils/config.ts]                ([getNetworkConfig], [getPrivateKey]),
      - the call handler of [src/server.ts]  (module [Server]),
      - the hackathon workflow example       (modules
        [HackathonAttestationWorkflow] and [HackathonDemo]),
    together with the part of the JavaScript platform these files rely on
    (module [JS]): IEEE doubles holding integers, truthiness, [parseInt],
    [BigInt], [Number] and exceptions.  A [string] holds the UTF-8 bytes of
    the JavaScript string it stands for.

    Asynchronous calls are sequential inside one operation, so [await] is
    modelled as plain sequencing.  The calls [devLog.*] only write to the
    console and are left out. *)

From Stdlib Require Import ZArith List String Ascii Bool Lia.
Import ListNotations.

Local Open Scope string_scope.
Local Open Scope Z_scope.

(* ===================================================================== *)
(** ** The JavaScript platform *)
(* ===================================================================== *)

Module JS.

(** A JavaScript [number] that holds an integer, an infinity or [NaN].
    Every number this program computes with is of that kind: timestamps,
    limits, HTTP status codes.  [-0] is identified with [0]; the two are
    equal for every comparison used here. *)
Inductive number : Type :=
| NaN
| PosInf
| NegInf
| Fin (z : Z).

(** [Number.MAX_SAFE_INTEGER], that is [2^53 - 1]. *)
Definition MAX_SAFE_INTEGER : Z := 9007199254740991.

(** Round a non-negative integer to the nearest double, ties to even;
    [None] when the result overflows to infinity. *)
Definition roundMagnitude (m : Z) : option Z :=
  if m <? 2 ^ 53 then Some m
  else
    let e := Z.log2 m - 52 in
    let q := m / 2 ^ e in
    let r := m mod 2 ^ e in
    let half := 2 ^ (e - 1) in
    let q' := if (half <? r) || ((r =? half) && Z.odd q) then q + 1 else q in
    let v := q' * 2 ^ e in
    if 2 ^ 1024 <=? v then None else Some v.

(** The double nearest to a mathematical integer (ECMAScript's 𝔽). *)
Definition toDouble (z : Z) : number :=
  match roundMagnitude (Z.abs z) with
  | Some v => Fin (Z.sgn z * v)
  | None => if z <? 0 then NegInf else PosInf
  end.

(** [Number(b)] for a bigint [b]. *)
Definition Number_of_bigint (b : Z) : number := toDouble b.

(** [a < b] on numbers. *)
Definition lt (a b : number) : bool :=
  match a, b with
  | NaN, _ | _, NaN => false
  | Fin x, Fin y => x <? y
  | NegInf, NegInf => false
  | NegInf, _ => true
  | _, NegInf => false
  | PosInf, _ => false
  | Fin _, PosInf => true
  end.

(** [a > b] on numbers. *)
Definition gt (a b : number) : bool := lt b a.

(** [a <= b] on numbers. *)
Definition le (a b : number) : bool :=
  match a, b with
  | NaN, _ | _, NaN => false
  | _, _ => negb (lt b a)
  end.

(** [a === b] on numbers. *)
Definition strictEq (a b : number) : bool :=
  match a, b with
  | Fin x, Fin y => x =? y
  | PosInf, PosInf => true
  | NegInf, NegInf => true
  | _, _ => false
  end.

(** [b <= n] for a bigint [b] and a number [n]: JavaScript compares the
    mathematical values. *)
Definition bigint_le (b : Z) (n : number) : bool :=
  match n with
  | NaN => false
  | PosInf => true
  | NegInf => false
  | Fin y => b <=? y
  end.

Definition isNaN (a : number) : bool :=
  match a with NaN => true | _ => false end.

(** Truthiness of an optional string ([None] is [undefined]). *)
Definition truthy_string (s : option string) : bool :=
  match s with
  | Some (String _ _) => true
  | _ => false
  end.

(** Truthiness of an optional number. *)
Definition truthy_number (n : option number) : bool :=
  match n with
  | Some (Fin z) => negb (z =? 0)
  | Some PosInf | Some NegInf => true
  | Some NaN | None => false
  end.

(** [s || d] for an optional string. *)
Definition string_or (s : option string) (d : string) : string :=
  match s with
  | Some (String c r) => String c r
  | _ => d
  end.

(** [n || d] for an optional number. *)
Definition number_or (n : option number) (d : number) : number :=
  match n with
  | Some x => if truthy_number n then x else d
  | None => d
  end.

(** The code of a byte of a string. *)
Definition byte (c : ascii) : Z := Z.of_N (N_of_ascii c).

(** White space skipped by [parseInt] and [BigInt]: the white space and
    line terminator code points of ECMAScript, matched on their UTF-8
    bytes.  One byte: TAB, LF, VT, FF, CR and the space. *)
Definition isWhiteSpace (c : ascii) : bool :=
  let n := byte c in
  ((9 <=? n) && (n <=? 13)) || (n =? 32).

(** Two bytes: U+00A0, the no-break space. *)
Definition isWhiteSpace2 (c1 c2 : ascii) : bool :=
  (byte c1 =? 194) && (byte c2 =? 160).

(** Three bytes: U+1680, U+2000 to U+200A, the line and paragraph
    separators U+2028 and U+2029, U+202F, U+205F, U+3000, and the byte
    order mark U+FEFF. *)
Definition isWhiteSpace3 (c1 c2 c3 : ascii) : bool :=
  let b1 := byte c1 in
  let b2 := byte c2 in
  let b3 := byte c3 in
  ((b1 =? 225) && (b2 =? 154) && (b3 =? 128))
  || ((b1 =? 226) && (b2 =? 128)
      && (((128 <=? b3) && (b3 <=? 138))
          || (b3 =? 168) || (b3 =? 169) || (b3 =? 175)))
  || ((b1 =? 226) && (b2 =? 129) && (b3 =? 159))
  || ((b1 =? 227) && (b2 =? 128) && (b3 =? 128))
  || ((b1 =? 239) && (b2 =? 187) && (b3 =? 191)).

Definition digitValue (c : ascii) : option Z :=
  let n := byte c in
  if (48 <=? n) && (n <=? 57) then Some (n - 48) else None.

(** Drop the white space a string starts with. *)
Fixpoint trimStart (s : string) : string :=
  match s with
  | String c1 r1 =>
      if isWhiteSpace c1 then trimStart r1
      else
        match r1 with
        | String c2 r2 =>
            if isWhiteSpace2 c1 c2 then trimStart r2
            else
              match r2 with
              | String c3 r3 =>
                  if isWhiteSpace3 c1 c2 c3 then trimStart r3 else s
              | EmptyString => s
              end
        | EmptyString => s
        end
  | EmptyString => s
  end.

(** The longest prefix of decimal digits, as digit values. *)
Fixpoint digitPrefix (s : string) : list Z :=
  match s with
  | String c r =>
      match digitValue c with
      | Some d => d :: digitPrefix r
      | None => []
      end
  | EmptyString => []
  end.

Definition digitsValue (ds : list Z) : Z :=
  fold_left (fun acc d => 10 * acc + d) ds 0.

(** Strip an optional sign; the boolean tells whether it was a minus. *)
Definition stripSign (s : string) : bool * string :=
  match s with
  | String "-" r => (true, r)
  | String "+" r => (false, r)
  | _ => (false, s)
  end.

(** [parseInt(s, 10)]: leading white space, an optional sign, then the
    longest run of digits; whatever follows is ignored, and no digit at all
    gives [NaN].  The value is rounded to a double (exactly; an engine may
    approximate beyond twenty digits, which moves no value across
    [2^53]). *)
Definition parseInt (s : string) : number :=
  let (neg, body) := stripSign (trimStart s) in
  match digitPrefix body with
  | [] => NaN
  | ds => toDouble (if neg then - digitsValue ds else digitsValue ds)
  end.

(** Decimal digits of a non-negative integer, most significant first. *)
Fixpoint decimalDigits (fuel : nat) (n : Z) : list Z :=
  match fuel with
  | O => []
  | S f => if n <? 10 then [n] else (decimalDigits f (n / 10) ++ [n mod 10])%list
  end.

Definition digitChar (d : Z) : ascii := ascii_of_N (Z.to_N (48 + d)).

Definition digitsString (ds : list Z) : string :=
  string_of_list_ascii (map digitChar ds).

(** [String(n)] for an integer of the plain decimal range: the text a
    ledger timestamp has on the wire, and an HTTP status in a message. *)
Definition decimalString (n : Z) : string :=
  if n <? 0
  then "-" ++ digitsString (decimalDigits (S (Z.to_nat (Z.log2 (- n)))) (- n))
  else digitsString (decimalDigits (S (Z.to_nat (Z.log2 n))) n).

(** [s.includes(sub)]. *)
Fixpoint includes (sub s : string) : bool :=
  prefix sub s ||
  match s with
  | String _ r => includes sub r
  | EmptyString => false
  end.

(** [xs.join(sep)]. *)
Fixpoint join (sep : string) (xs : list string) : string :=
  match xs with
  | [] => ""
  | [x] => x
  | x :: r => x ++ sep ++ join sep r
  end.

(** A thrown value: an [Error] object with its message, or anything else. *)
Inductive thrown : Type :=
| ErrorObj (message : string)
| NonError.

(** The result of evaluating an expression that may throw. *)
Inductive outcome (A : Type) : Type :=
| Ok (a : A)
| Throw (e : thrown).
Arguments Ok {A} a.
Arguments Throw {A} e.

(** [error instanceof Error ? error.message : fallback]. *)
Definition errorMessage (e : thrown) (fallback : string) : string :=
  match e with
  | ErrorObj m => m
  | NonError => fallback
  end.

(** The value of a digit in a radix up to 36, letters in either case. *)
Definition radixDigit (radix : Z) (c : ascii) : option Z :=
  let n := byte c in
  let v :=
    if (48 <=? n) && (n <=? 57) then n - 48
    else if (97 <=? n) && (n <=? 122) then n - 87
    else if (65 <=? n) && (n <=? 90) then n - 55
    else radix in
  if v <? radix then Some v else None.

(** The value of a string made of digits of the radix only. *)
Fixpoint allDigits (radix : Z) (s : string) (acc : Z) : option Z :=
  match s with
  | EmptyString => Some acc
  | String c r =>
      match radixDigit radix c with
      | Some d => allDigits radix r (radix * acc + d)
      | None => None
      end
  end.

(** The same, for at least one digit. *)
Definition someDigits (radix : Z) (s : string) : option Z :=
  match s with
  | EmptyString => None
  | _ => allDigits radix s 0
  end.

(** Drop the white space a string ends with: the string is cut where
    only white space is left. *)
Fixpoint trimEnd (s : string) : string :=
  match s with
  | EmptyString => EmptyString
  | String c r =>
      match trimStart s with
      | EmptyString => EmptyString
      | _ => String c (trimEnd r)
      end
  end.

(** The radix a literal prefix [0x], [0o] or [0b] announces (either
    case). *)
Definition radixOfPrefix (c : ascii) : option Z :=
  match c with
  | "x"%char | "X"%char => Some 16
  | "o"%char | "O"%char => Some 8
  | "b"%char | "B"%char => Some 2
  | _ => None
  end.

(** The integer a string denotes for [BigInt] (ECMAScript's
    StringToBigInt): white space around is dropped; the empty string is
    [0]; a literal with a radix prefix is unsigned; a decimal literal may
    carry a sign; anything else denotes nothing. *)
Definition StringToBigInt (s : string) : option Z :=
  let t := trimEnd (trimStart s) in
  let decimal :=
    let (neg, body) := stripSign t in
    match someDigits 10 body with
    | Some v => Some (if neg then - v else v)
    | None => None
    end in
  match t with
  | EmptyString => Some 0
  | String "0" (String c r) =>
      match radixOfPrefix c with
      | Some radix => someDigits radix r
      | None => decimal
      end
  | _ => decimal
  end.

(** [BigInt(s)] for a string: its integer, or a [SyntaxError]. *)
Definition BigInt_of_string (s : string) : outcome Z :=
  match StringToBigInt s with
  | Some v => Ok v
  | None => Throw (ErrorObj ("Cannot convert " ++ s ++ " to a BigInt"))
  end.

(** [BigInt(n)] for a number: an integer converts, the rest is a
    [RangeError]. *)
Definition BigInt_of_number (n : number) : outcome Z :=
  match n with
  | Fin z => Ok z
  | NaN => Throw (ErrorObj "The number NaN cannot be converted to a BigInt because it is not an integer")
  | PosInf => Throw (ErrorObj "The number Infinity cannot be converted to a BigInt because it is not an integer")
  | NegInf => Throw (ErrorObj "The number -Infinity cannot be converted to a BigInt because it is not an integer")
  end.

End JS.


(* ===================================================================== *)
(** ** Data model ([src/types/attestation.ts], [src/types/eas.ts]) *)
(* ===================================================================== *)

Inductive Network : Type := testnet | mainnet.

Module NetworkConfig.
Record t : Type := mk {
  name : Network;
  rpcUrl : string;
  rasContract : string;
  schemaRegistry : string
}.
End NetworkConfig.

(** The record the services hand out: timestamps are JavaScript numbers. *)
Module AttestationData.
Record t : Type := mk {
  uid : string;
  schema : string;
  recipient : string;
  attester : string;
  revocable : bool;
  refUID : string;
  data : string;
  time : JS.number;
  expirationTime : JS.number;
  revocationTime : JS.number
}.
End AttestationData.

(** The record the ledger returns: timestamps are bigints. *)
Module EASAttestation.
Record t : Type := mk {
  uid : string;
  schema : string;
  recipient : string;
  attester : string;
  revocable : bool;
  refUID : string;
  data : string;
  time : Z;
  expirationTime : Z;
  revocationTime : Z
}.
End EASAttestation.

(** The record the index returns: timestamps are strings; [schema_id] is
    [schema.id]. *)
Module GraphQLAttestation.
Record t : Type := mk {
  id : string;
  attester : string;
  recipient : string;
  revoked : bool;
  revocable : bool;
  refUID : string;
  data : string;
  timeCreated : string;
  expirationTime : string;
  revocationTime : string;
  schema_id : string
}.
End GraphQLAttestation.

(** The all-zero identifier the ledger returns for "no such record". *)
Definition ZERO_UID : string :=
  "0x0000000000000000000000000000000000000000000000000000000000000000".

Definition ZERO_ADDRESS : string :=
  "0x0000000000000000000000000000000000000000".

Module IssueAttestationInput.
Record t : Type := mk {
  network : Network;
  recipient : string;
  schema : string;
  data : string;
  expirationTime : option JS.number;
  revocable : option bool;
  refUID : option string;
  value : option string
}.
End IssueAttestationInput.

Module VerifyAttestationInput.
Record t : Type := mk {
  network : Network;
  uid : string
}.
End VerifyAttestationInput.

Module ListAttestationsInput.
Record t : Type := mk {
  network : Network;
  recipient : option string;
  attester : option string;
  schema : option string;
  limit : option JS.number
}.
End ListAttestationsInput.

Module CreateSchemaInput.
Record t : Type := mk {
  network : Network;
  schema : string;
  resolverAddress : option string;
  revocable : bool
}.
End CreateSchemaInput.

Module RevokeAttestationInput.
Record t : Type := mk {
  network : Network;
  uid : string
}.
End RevokeAttestationInput.

(* ===================================================================== *)
(** ** The outside world: ledger SDK, index service, environment *)
(* ===================================================================== *)

(** A submitted transaction.  [wait] is the confirmation; the two
    derivation methods are optional members ([None]: the SDK object has no
    such method), and when present they resolve to an identifier (which
    may be missing or empty) or reject. *)
Module EASTransaction.
Record t : Type := mk {
  hash : string;
  wait : JS.outcome unit;
  getAttestationUID : option (JS.outcome (option string));
  getSchemaUID : option (JS.outcome (option string))
}.
End EASTransaction.

Module AttestationRequest.
Record t : Type := mk {
  schema : string;
  recipient : string;
  expirationTime : Z;
  revocable : bool;
  refUID : string;
  data : string;
  value : Z
}.
End AttestationRequest.

Module RevocationRequest.
Record t : Type := mk {
  schema : string;
  uid : string;
  value : Z
}.
End RevocationRequest.

Module EASSchemaRegistry.
Record t : Type := mk {
  register : string -> string -> bool -> JS.outcome EASTransaction.t
}.
End EASSchemaRegistry.

(** The ledger SDK object, as the answers it gives.  [getAttestation]
    may resolve to nothing ([None]) or to a record, zero-filled when the
    ledger has none. *)
Module EAS.
Record t : Type := mk {
  attest : AttestationRequest.t -> JS.outcome EASTransaction.t;
  getAttestation : string -> JS.outcome (option EASAttestation.t);
  revoke : RevocationRequest.t -> JS.outcome EASTransaction.t;
  getSchemaRegistry : JS.outcome EASSchemaRegistry.t
}.
End EAS.

(** Variables of the list query, as serialised into the request. *)
Module Variables.
Record t : Type := mk {
  recipient : option string;
  attester : option string;
  schema : option string;
  limit : JS.number
}.
End Variables.

(** The JSON body of a request to the index. *)
Inductive RequestBody : Type :=
| ListQuery (query : string) (variables : Variables.t)
| UIDQuery (query : string) (uid : string).

(** A member of a parsed JSON object whose property the code reads
    without a test: it may be missing, [null], or hold a value.  The other
    members are only tested for truthiness, where missing and [null] agree,
    and are options. *)
Inductive member (A : Type) : Type :=
| Missing
| Null
| Present (a : A).
Arguments Missing {A}.
Arguments Null {A}.
Arguments Present {A} a.

(** The [data] member of a response; either query reads its own field. *)
Module ResponseData.
Record t : Type := mk {
  attestations : member (list GraphQLAttestation.t);
  attestation : option GraphQLAttestation.t
}.
End ResponseData.

(** A parsed response body; [errors] holds the messages of the entries. *)
Module GraphQLResponse.
Record t : Type := mk {
  data : option ResponseData.t;
  errors : option (list string)
}.
End GraphQLResponse.

Module HttpResponse.
Record t : Type := mk {
  ok : bool;
  status : Z;
  statusText : string;
  json : JS.outcome GraphQLResponse.t
}.
End HttpResponse.

(** [process.env], for the variables the program reads. *)
Module Env.
Record t : Type := mk {
  PRIVATE_KEY : option string;
  RSK_RPC_URL_TESTNET : option string;
  RSK_RPC_URL_MAINNET : option string;
  RAS_CONTRACT_TESTNET : option string;
  RAS_CONTRACT_MAINNET : option string;
  SCHEMA_REGISTRY_TESTNET : option string;
  SCHEMA_REGISTRY_MAINNET : option string;
  GRAPHQL_ENDPOINT_TESTNET : option string;
  GRAPHQL_ENDPOINT_MAINNET : option string
}.
End Env.

(** Everything a call depends on outside the program.  [connect] stands
    for building the provider, the wallet and the SDK object from a
    configuration and a private key.  [fetch endpoint body timeout] is what
    [await fetch(endpoint, {method: 'POST', body, signal})] gives when the
    signal belongs to a controller that a timer aborts [timeout]
    milliseconds after the call: the response once its status and headers
    have arrived, or a rejection (network failure, abort).  [now] is what
    [Date.now()] returns, in milliseconds. *)
Module Platform.
Record t : Type := mk {
  env : Env.t;
  connect : NetworkConfig.t -> string -> JS.outcome EAS.t;
  fetch : string -> RequestBody -> Z -> JS.outcome HttpResponse.t;
  now : Z
}.
End Platform.

(** The calls a program makes to the outside, in order. *)
Inductive Call : Type :=
| CallAttest (r : AttestationRequest.t)
| CallGetAttestation (uid : string)
| CallRevoke (r : RevocationRequest.t)
| CallGetSchemaRegistry
| CallRegister (schema resolver : string) (revocable : bool)
| CallWait
| CallGetAttestationUID
| CallGetSchemaUID
| CallFetch (endpoint : string) (body : RequestBody).

(** A computation that may throw and that records its outside calls. *)
Module Eff.

Definition M (A : Type) : Type := list Call -> JS.outcome A * list Call.

Definition ret {A} (a : A) : M A := fun l => (JS.Ok a, l).

Definition throw {A} (e : JS.thrown) : M A := fun l => (JS.Throw e, l).

Definition bind {A B} (m : M A) (k : A -> M B) : M B :=
  fun l =>
    match m l with
    | (JS.Ok a, l') => k a l'
    | (JS.Throw e, l') => (JS.Throw e, l')
    end.

(** [try { m } catch (e) { h e }]. *)
Definition tryCatch {A} (m : M A) (h : JS.thrown -> M A) : M A :=
  fun l =>
    match m l with
    | (JS.Ok a, l') => (JS.Ok a, l')
    | (JS.Throw e, l') => h e l'
    end.

(** An outside call: it is recorded, and its answer is the result. *)
Definition call {A} (c : Call) (answer : JS.outcome A) : M A :=
  fun l => (answer, (l ++ [c])%list).

(** A pure step that may throw. *)
Definition lift {A} (r : JS.outcome A) : M A := fun l => (r, l).

(** [xs.map(f)] where [f] may throw: elements in order, the first throw
    ends the traversal. *)
Fixpoint mapM {A B} (f : A -> JS.outcome B) (xs : list A) : JS.outcome (list B) :=
  match xs with
  | [] => JS.Ok []
  | x :: r =>
      match f x with
      | JS.Throw e => JS.Throw e
      | JS.Ok y =>
          match mapM f r with
          | JS.Throw e => JS.Throw e
          | JS.Ok ys => JS.Ok (y :: ys)
          end
      end
  end.

(** Run from an empty record of calls. *)
Definition run {A} (m : M A) : JS.outcome A * list Call := m [].

End Eff.

Declare Scope eff_scope.
Delimit Scope eff_scope with eff.
Notation "x <- m ;; k" := (Eff.bind m (fun x => k))
  (at level 61, m at next level, right associativity) : eff_scope.
Notation "m ;;; k" := (Eff.bind m (fun _ => k))
  (at level 61, right associativity) : eff_scope.
Local Open Scope eff_scope.

(* ===================================================================== *)
(** ** Configuration ([src/utils/config.ts]) *)
(* ===================================================================== *)

Definition getNetworkConfig (env : Env.t) (network : Network) : NetworkConfig.t :=
  match network with
  | testnet =>
      {| NetworkConfig.name := testnet;
         NetworkConfig.rpcUrl :=
           JS.string_or (Env.RSK_RPC_URL_TESTNET env) "https://rpc.testnet.rootstock.io";
         NetworkConfig.rasContract :=
           JS.string_or (Env.RAS_CONTRACT_TESTNET env) "0xc300aeEadd60999933468738c9F5d7e9c0671e1C";
         NetworkConfig.schemaRegistry :=
           JS.string_or (Env.SCHEMA_REGISTRY_TESTNET env) "0x679c62956cD2801ABaBF80e9D430F18859eea2D5" |}
  | mainnet =>
      {| NetworkConfig.name := mainnet;
         NetworkConfig.rpcUrl :=
           JS.string_or (Env.RSK_RPC_URL_MAINNET env) "https://rpc.mainnet.rootstock.io";
         NetworkConfig.rasContract :=
           JS.string_or (Env.RAS_CONTRACT_MAINNET env) "0x54c0726E9D2D57Bc37aD52C7E219a3229E0ee963";
         NetworkConfig.schemaRegistry :=
           JS.string_or (Env.SCHEMA_REGISTRY_MAINNET env) "0xef29675d82Cc5967069D6D9c17F2719F67728F5b" |}
  end.

Definition getPrivateKey (env : Env.t) : JS.outcome string :=
  if JS.truthy_string (Env.PRIVATE_KEY env)
  then JS.Ok (JS.string_or (Env.PRIVATE_KEY env) "")
  else JS.Throw (JS.ErrorObj "PRIVATE_KEY environment variable not set").

(* ===================================================================== *)
(** ** The index query client ([src/services/graphqlService.ts]) *)
(* ===================================================================== *)

Module GraphQLService.

(** The filters argument of [queryAttestations]. *)
Module Filters.
Record t : Type := mk {
  recipient : option string;
  attester : option string;
  schema : option string;
  limit : option JS.number
}.
End Filters.

(** The service object: its configuration, and the platform it runs on. *)
Record t : Type := mk {
  config : NetworkConfig.t;
  platform : Platform.t
}.

Definition getGraphQLEndpoint (this : t) : string :=
  match NetworkConfig.name (config this) with
  | testnet =>
      JS.string_or (Env.GRAPHQL_ENDPOINT_TESTNET (Platform.env (platform this)))
        "https://easscan-testnet.rootstock.io/graphql"
  | mainnet =>
      JS.string_or (Env.GRAPHQL_ENDPOINT_MAINNET (Platform.env (platform this)))
        "https://easscan.rootstock.io/graphql"
  end.

(** The text of the list query up to the first interpolation. *)
Definition queryPrologue : string := "
        query GetAttestations($recipient: String, $attester: String, $schema: String, $limit: Int) {
          attestations(
            where: {
              ".

(** The text between two interpolations. *)
Definition querySeparator : string := "
              ".

(** The text of the list query after the last interpolation. *)
Definition queryEpilogue : string := "
            }
            first: $limit
            orderBy: timeCreated
            orderDirection: desc
          ) {
            id
            attester
            recipient
            revoked
            revocable
            refUID
            data
            timeCreated
            expirationTime
            revocationTime
            schema {
              id
            }
          }
        }
      ".

(** [filter ? clause : ''], the interpolated piece of a filter. *)
Definition clause (filter : option string) (text : string) : string :=
  if JS.truthy_string filter then text else "".

(** The template literal of [queryAttestations]. *)
Definition listQuery (filters : Filters.t) : string :=
  queryPrologue
  ++ clause (Filters.recipient filters) "recipient: $recipient,"
  ++ querySeparator
  ++ clause (Filters.attester filters) "attester: $attester,"
  ++ querySeparator
  ++ clause (Filters.schema filters) "schemaId: $schema,"
  ++ queryEpilogue.

Definition listVariables (filters : Filters.t) : Variables.t :=
  {| Variables.recipient := Filters.recipient filters;
     Variables.attester := Filters.attester filters;
     Variables.schema := Filters.schema filters;
     Variables.limit := JS.number_or (Filters.limit filters) (JS.Fin 10) |}.

(** The template literal of [queryAttestationsByUID]. *)
Definition uidQuery : string := "
        query GetAttestation($uid: String!) {
          attestation(id: $uid) {
            id
            attester
            recipient
            revoked
            revocable
            refUID
            data
            timeCreated
            expirationTime
            revocationTime
            schema {
              id
            }
          }
        }
      ".

(** [x <= Number.MAX_SAFE_INTEGER ? x : Number.MAX_SAFE_INTEGER]. *)
Definition clamp (x : JS.number) : JS.number :=
  if JS.le x (JS.Fin JS.MAX_SAFE_INTEGER) then x else JS.Fin JS.MAX_SAFE_INTEGER.

(** The conversion of one index record; both query methods contain this
    same code.  A timestamp that [parseInt] cannot read throws. *)
Definition toAttestationData (gqlAttestation : GraphQLAttestation.t)
  : JS.outcome AttestationData.t :=
  let timeCreated := JS.parseInt (GraphQLAttestation.timeCreated gqlAttestation) in
  let expirationTime := JS.parseInt (GraphQLAttestation.expirationTime gqlAttestation) in
  let revocationTime := JS.parseInt (GraphQLAttestation.revocationTime gqlAttestation) in
  if JS.isNaN timeCreated || JS.isNaN expirationTime || JS.isNaN revocationTime
  then JS.Throw (JS.ErrorObj
         ("Invalid time value in attestation data for UID "
          ++ GraphQLAttestation.id gqlAttestation))
  else JS.Ok
    {| AttestationData.uid := GraphQLAttestation.id gqlAttestation;
       AttestationData.schema := GraphQLAttestation.schema_id gqlAttestation;
       AttestationData.recipient := GraphQLAttestation.recipient gqlAttestation;
       AttestationData.attester := GraphQLAttestation.attester gqlAttestation;
       AttestationData.revocable := GraphQLAttestation.revocable gqlAttestation;
       AttestationData.refUID := GraphQLAttestation.refUID gqlAttestation;
       AttestationData.data := GraphQLAttestation.data gqlAttestation;
       AttestationData.time := clamp timeCreated;
       AttestationData.expirationTime := clamp expirationTime;
       AttestationData.revocationTime := clamp revocationTime |}.

(** [if (!httpResponse.ok) throw new Error(`HTTP ...`)]. *)
Definition checkStatus (httpResponse : HttpResponse.t) : JS.outcome unit :=
  if HttpResponse.ok httpResponse then JS.Ok tt
  else JS.Throw (JS.ErrorObj
         ("HTTP " ++ JS.decimalString (HttpResponse.status httpResponse)
          ++ ": " ++ HttpResponse.statusText httpResponse)).

(** The body of [queryAttestations] after the response has arrived. *)
Definition readList (httpResponse : HttpResponse.t)
  : JS.outcome (list AttestationData.t) :=
  match checkStatus httpResponse with
  | JS.Throw e => JS.Throw e
  | JS.Ok _ =>
      match HttpResponse.json httpResponse with
      | JS.Throw e => JS.Throw e
      | JS.Ok response =>
          match GraphQLResponse.errors response with
          | Some errors =>
              JS.Throw (JS.ErrorObj ("GraphQL errors: " ++ JS.join ", " errors))
          | None =>
              match GraphQLResponse.data response with
              | None => JS.Throw (JS.ErrorObj "No data returned from GraphQL query")
              | Some data =>
                  match ResponseData.attestations data with
                  | Missing =>
                      JS.Throw (JS.ErrorObj
                        "Cannot read properties of undefined (reading 'map')")
                  | Null =>
                      JS.Throw (JS.ErrorObj
                        "Cannot read properties of null (reading 'map')")
                  | Present attestations => Eff.mapM toAttestationData attestations
                  end
              end
          end
      end
  end.

(** [queryAttestations].  The timer of [setTimeout(() =>
    controller.abort(), 30000)] is the last argument of [fetch]; it is
    cleared as soon as [fetch] settles, before the body is read. *)
Definition queryAttestations (this : t) (filters : Filters.t)
  : Eff.M (list AttestationData.t) :=
  Eff.tryCatch
    (let endpoint := getGraphQLEndpoint this in
     let query := listQuery filters in
     let variables := listVariables filters in
     httpResponse <- Eff.call (CallFetch endpoint (ListQuery query variables))
                       (Platform.fetch (platform this) endpoint
                          (ListQuery query variables) 30000) ;;
     Eff.lift (readList httpResponse))
    (fun error =>
       Eff.throw (JS.ErrorObj
         ("GraphQL query failed: " ++ JS.errorMessage error "Unknown GraphQL error"))).

(** The body of [queryAttestationsByUID] after the response has arrived. *)
Definition readOne (httpResponse : HttpResponse.t)
  : JS.outcome (option AttestationData.t) :=
  match checkStatus httpResponse with
  | JS.Throw e => JS.Throw e
  | JS.Ok _ =>
      match HttpResponse.json httpResponse with
      | JS.Throw e => JS.Throw e
      | JS.Ok response =>
          match GraphQLResponse.data response with
          | None => JS.Ok None
          | Some data =>
              match ResponseData.attestation data with
              | None => JS.Ok None
              | Some gqlAttestation =>
                  match toAttestationData gqlAttestation with
                  | JS.Throw e => JS.Throw e
                  | JS.Ok a => JS.Ok (Some a)
                  end
              end
          end
      end
  end.

(** [queryAttestationsByUID], with the same timer. *)
Definition queryAttestationsByUID (this : t) (uid : string)
  : Eff.M (option AttestationData.t) :=
  Eff.tryCatch
    (let endpoint := getGraphQLEndpoint this in
     let query := uidQuery in
     httpResponse <- Eff.call (CallFetch endpoint (UIDQuery query uid))
                       (Platform.fetch (platform this) endpoint
                          (UIDQuery query uid) 30000) ;;
     Eff.lift (readOne httpResponse))
    (fun error =>
       Eff.throw (JS.ErrorObj
         ("GraphQL attestation query failed: "
          ++ JS.errorMessage error "Unknown GraphQL error"))).

End GraphQLService.

(* ===================================================================== *)
(** ** The orchestrator ([src/services/attestationService.ts]) *)
(* ===================================================================== *)

Module AttestationService.

(** What the write operations return. *)
Module Issued.
Record t : Type := mk {
  uid : string;
  txHash : string
}.
End Issued.

Module Revoked.
Record t : Type := mk {
  txHash : string
}.
End Revoked.

Record t : Type := mk {
  eas : EAS.t;
  config : NetworkConfig.t;
  graphqlService : GraphQLService.t
}.

(** [new AttestationService(network)]. *)
Definition new (P : Platform.t) (network : Network) : Eff.M t :=
  let config := getNetworkConfig (Platform.env P) network in
  privateKey <- Eff.lift (getPrivateKey (Platform.env P)) ;;
  eas <- Eff.lift (Platform.connect P config privateKey) ;;
  Eff.ret {| eas := eas;
             config := config;
             graphqlService := GraphQLService.mk config P |}.

(** [await tx.getAttestationUID?.()] and [await tx.getSchemaUID?.()]: an
    absent method gives [undefined] without any call. *)
Definition optionalCall (c : Call) (method : option (JS.outcome (option string)))
  : Eff.M (option string) :=
  match method with
  | None => Eff.ret None
  | Some answer => Eff.call c answer
  end.

(** [BigInt(input.value || 0)]. *)
Definition valueToBigInt (value : option string) : JS.outcome Z :=
  if JS.truthy_string value
  then JS.BigInt_of_string (JS.string_or value "")
  else JS.BigInt_of_number (JS.Fin 0).

(** The object literal [attestation] of [issueAttestation]; the two
    [BigInt] conversions may throw. *)
Definition attestationOf (input : IssueAttestationInput.t)
  : JS.outcome AttestationRequest.t :=
  match JS.BigInt_of_number
          (JS.number_or (IssueAttestationInput.expirationTime input) (JS.Fin 0)) with
  | JS.Throw e => JS.Throw e
  | JS.Ok expirationTime =>
      match valueToBigInt (IssueAttestationInput.value input) with
      | JS.Throw e => JS.Throw e
      | JS.Ok value =>
          JS.Ok
            {| AttestationRequest.schema := IssueAttestationInput.schema input;
               AttestationRequest.recipient := IssueAttestationInput.recipient input;
               AttestationRequest.expirationTime := expirationTime;
               AttestationRequest.revocable :=
                 match IssueAttestationInput.revocable input with
                 | Some b => b
                 | None => true
                 end;
               AttestationRequest.refUID :=
                 JS.string_or (IssueAttestationInput.refUID input) ZERO_UID;
               AttestationRequest.data := IssueAttestationInput.data input;
               AttestationRequest.value := value |}
      end
  end.

Definition issueAttestation (this : t) (input : IssueAttestationInput.t)
  : Eff.M Issued.t :=
  Eff.tryCatch
    (attestation <- Eff.lift (attestationOf input) ;;
     tx <- Eff.call (CallAttest attestation) (EAS.attest (eas this) attestation) ;;
     let txHash := JS.string_or (Some (EASTransaction.hash tx)) "unknown" in
     Eff.call CallWait (EASTransaction.wait tx) ;;;
     derived <- optionalCall CallGetAttestationUID (EASTransaction.getAttestationUID tx) ;;
     let uid := JS.string_or derived "unknown" in
     Eff.ret {| Issued.uid := uid; Issued.txHash := txHash |})
    (fun error =>
       Eff.throw (JS.ErrorObj
         ("Failed to issue attestation: "
          ++ JS.errorMessage error "Unknown error occurred"))).

(** [x <= Number.MAX_SAFE_INTEGER ? Number(x) : Number.MAX_SAFE_INTEGER]
    for a bigint [x]. *)
Definition clamp (x : Z) : JS.number :=
  if JS.bigint_le x (JS.Fin JS.MAX_SAFE_INTEGER)
  then JS.Number_of_bigint x
  else JS.Fin JS.MAX_SAFE_INTEGER.

Definition verifyAttestation (this : t) (input : VerifyAttestationInput.t)
  : Eff.M (option AttestationData.t) :=
  Eff.tryCatch
    (found <- Eff.call (CallGetAttestation (VerifyAttestationInput.uid input))
                (EAS.getAttestation (eas this) (VerifyAttestationInput.uid input)) ;;
     match found with
     | None => Eff.ret None
     | Some attestation =>
         if (EASAttestation.uid attestation =? ZERO_UID)%string
         then Eff.ret None
         else
           Eff.ret (Some
             {| AttestationData.uid := EASAttestation.uid attestation;
                AttestationData.schema := EASAttestation.schema attestation;
                AttestationData.recipient := EASAttestation.recipient attestation;
                AttestationData.attester := EASAttestation.attester attestation;
                AttestationData.revocable := EASAttestation.revocable attestation;
                AttestationData.refUID := EASAttestation.refUID attestation;
                AttestationData.data := EASAttestation.data attestation;
                AttestationData.time := clamp (EASAttestation.time attestation);
                AttestationData.expirationTime :=
                  clamp (EASAttestation.expirationTime attestation);
                AttestationData.revocationTime :=
                  clamp (EASAttestation.revocationTime attestation) |})
     end)
    (fun error =>
       Eff.throw (JS.ErrorObj
         ("Failed to verify attestation: "
          ++ JS.errorMessage error "Unknown error occurred"))).

Definition listAttestations (this : t) (input : ListAttestationsInput.t)
  : Eff.M (list AttestationData.t) :=
  Eff.tryCatch
    (GraphQLService.queryAttestations (graphqlService this)
       {| GraphQLService.Filters.recipient := ListAttestationsInput.recipient input;
          GraphQLService.Filters.attester := ListAttestationsInput.attester input;
          GraphQLService.Filters.schema := ListAttestationsInput.schema input;
          GraphQLService.Filters.limit := ListAttestationsInput.limit input |})
    (fun error =>
       Eff.throw (JS.ErrorObj
         ("Failed to list attestations: "
          ++ JS.errorMessage error "Unknown error occurred"))).

Definition createSchema (this : t) (input : CreateSchemaInput.t)
  : Eff.M Issued.t :=
  Eff.tryCatch
    (schemaRegistry <- Eff.call CallGetSchemaRegistry (EAS.getSchemaRegistry (eas this)) ;;
     let resolver := JS.string_or (CreateSchemaInput.resolverAddress input) ZERO_ADDRESS in
     tx <- Eff.call
             (CallRegister (CreateSchemaInput.schema input) resolver
                (CreateSchemaInput.revocable input))
             (EASSchemaRegistry.register schemaRegistry
                (CreateSchemaInput.schema input) resolver
                (CreateSchemaInput.revocable input)) ;;
     let schemaTxHash := JS.string_or (Some (EASTransaction.hash tx)) "unknown" in
     Eff.call CallWait (EASTransaction.wait tx) ;;;
     derived <- optionalCall CallGetSchemaUID (EASTransaction.getSchemaUID tx) ;;
     let uid := JS.string_or derived "unknown" in
     Eff.ret {| Issued.uid := uid; Issued.txHash := schemaTxHash |})
    (fun error =>
       Eff.throw (JS.ErrorObj
         ("Failed to create schema: "
          ++ JS.errorMessage error "Unknown error occurred"))).

Definition revokeAttestation (this : t) (input : RevokeAttestationInput.t)
  : Eff.M Revoked.t :=
  Eff.tryCatch
    (found <- Eff.call (CallGetAttestation (RevokeAttestationInput.uid input))
                (EAS.getAttestation (eas this) (RevokeAttestationInput.uid input)) ;;
     match found with
     | None =>
         Eff.throw (JS.ErrorObj
           ("Attestation " ++ RevokeAttestationInput.uid input ++ " not found"))
     | Some attestation =>
         if (EASAttestation.uid attestation =? ZERO_UID)%string
         then
           Eff.throw (JS.ErrorObj
             ("Attestation " ++ RevokeAttestationInput.uid input ++ " not found"))
         else
           let request :=
             {| RevocationRequest.schema := EASAttestation.schema attestation;
                RevocationRequest.uid := RevokeAttestationInput.uid input;
                RevocationRequest.value := 0 |} in
           tx <- Eff.call (CallRevoke request) (EAS.revoke (eas this) request) ;;
           let revokeTxHash := JS.string_or (Some (EASTransaction.hash tx)) "unknown" in
           Eff.call CallWait (EASTransaction.wait tx) ;;;
           Eff.ret {| Revoked.txHash := revokeTxHash |}
     end)
    (fun error =>
       Eff.throw (JS.ErrorObj
         ("Failed to revoke attestation: "
          ++ JS.errorMessage error "Unknown error occurred"))).

End AttestationService.

(* ===================================================================== *)
(** ** The tool handlers ([src/tools/handlers.ts]) *)
(* ===================================================================== *)

Module Handlers.

(** The uniform result shape; [data = None] is [data: null]. *)
Record Result (D : Type) : Type := mkResult {
  success : bool;
  message : string;
  data : option D
}.
Arguments mkResult {D} _ _ _.
Arguments success {D} _.
Arguments message {D} _.
Arguments data {D} _.

(** The record of [handleVerifyAttestation]: the attestation spread out,
    with the three derived flags. *)
Module Verified.
Record t : Type := mk {
  attestation : AttestationData.t;
  isValid : bool;
  isRevoked : bool;
  isExpired : bool
}.
End Verified.

Module IssuedData.
Record t : Type := mk {
  uid : string;
  txHash : string;
  network : Network;
  recipient : string;
  schema : string
}.
End IssuedData.

Module ListedData.
Record t : Type := mk {
  attestations : list AttestationData.t;
  count : Z;
  network : Network
}.
End ListedData.

Module SchemaData.
Record t : Type := mk {
  uid : string;
  txHash : string;
  network : Network;
  schema : string;
  revocable : bool
}.
End SchemaData.

Module RevokedData.
Record t : Type := mk {
  uid : string;
  txHash : string;
  network : Network
}.
End RevokedData.

(** The [catch] block every handler ends with. *)
Definition failure {D} (what : string) (error : JS.thrown) : Eff.M (Result D) :=
  Eff.ret (mkResult false
             (what ++ JS.errorMessage error "Unknown error occurred") None).

(** [Math.floor(Date.now() / 1000)]. *)
Definition nowSeconds (P : Platform.t) : JS.number :=
  JS.Fin (Platform.now P / 1000).

Definition handleIssueAttestation (P : Platform.t) (args : IssueAttestationInput.t)
  : Eff.M (Result IssuedData.t) :=
  Eff.tryCatch
    (service <- AttestationService.new P (IssueAttestationInput.network args) ;;
     result <- AttestationService.issueAttestation service args ;;
     Eff.ret (mkResult true "Attestation issued successfully"
       (Some {| IssuedData.uid := AttestationService.Issued.uid result;
                IssuedData.txHash := AttestationService.Issued.txHash result;
                IssuedData.network := IssueAttestationInput.network args;
                IssuedData.recipient := IssueAttestationInput.recipient args;
                IssuedData.schema := IssueAttestationInput.schema args |})))
    (failure "Failed to issue attestation: ").

Definition handleVerifyAttestation (P : Platform.t) (args : VerifyAttestationInput.t)
  : Eff.M (Result Verified.t) :=
  Eff.tryCatch
    (service <- AttestationService.new P (VerifyAttestationInput.network args) ;;
     found <- AttestationService.verifyAttestation service args ;;
     match found with
     | None => Eff.ret (mkResult false "Attestation not found" None)
     | Some attestation =>
         let isValid :=
           JS.strictEq (AttestationData.revocationTime attestation) (JS.Fin 0) in
         let isExpired :=
           JS.gt (AttestationData.expirationTime attestation) (JS.Fin 0)
           && JS.lt (AttestationData.expirationTime attestation) (nowSeconds P) in
         Eff.ret (mkResult true
           ("Attestation " ++
            (if isValid && negb isExpired then "is valid" else "is invalid/expired"))
           (Some {| Verified.attestation := attestation;
                    Verified.isValid := isValid && negb isExpired;
                    Verified.isRevoked :=
                      JS.gt (AttestationData.revocationTime attestation) (JS.Fin 0);
                    Verified.isExpired := isExpired |}))
     end)
    (failure "Failed to verify attestation: ").

Definition handleListAttestations (P : Platform.t) (args : ListAttestationsInput.t)
  : Eff.M (Result ListedData.t) :=
  Eff.tryCatch
    (service <- AttestationService.new P (ListAttestationsInput.network args) ;;
     attestations <- AttestationService.listAttestations service args ;;
     Eff.ret (mkResult true
       ("Found " ++ JS.decimalString (Z.of_nat (List.length attestations))
        ++ " attestations")
       (Some {| ListedData.attestations := attestations;
                ListedData.count := Z.of_nat (List.length attestations);
                ListedData.network := ListAttestationsInput.network args |})))
    (failure "Failed to list attestations: ").

Definition handleCreateSchema (P : Platform.t) (args : CreateSchemaInput.t)
  : Eff.M (Result SchemaData.t) :=
  Eff.tryCatch
    (service <- AttestationService.new P (CreateSchemaInput.network args) ;;
     result <- AttestationService.createSchema service args ;;
     Eff.ret (mkResult true "Schema created successfully"
       (Some {| SchemaData.uid := AttestationService.Issued.uid result;
                SchemaData.txHash := AttestationService.Issued.txHash result;
                SchemaData.network := CreateSchemaInput.network args;
                SchemaData.schema := CreateSchemaInput.schema args;
                SchemaData.revocable := CreateSchemaInput.revocable args |})))
    (failure "Failed to create schema: ").

Definition handleRevokeAttestation (P : Platform.t) (args : RevokeAttestationInput.t)
  : Eff.M (Result RevokedData.t) :=
  Eff.tryCatch
    (service <- AttestationService.new P (RevokeAttestationInput.network args) ;;
     result <- AttestationService.revokeAttestation service args ;;
     Eff.ret (mkResult true "Attestation revoked successfully"
       (Some {| RevokedData.uid := RevokeAttestationInput.uid args;
                RevokedData.txHash := AttestationService.Revoked.txHash result;
                RevokedData.network := RevokeAttestationInput.network args |})))
    (failure "Failed to revoke attestation: ").

End Handlers.

(* ===================================================================== *)
(** ** The normalisation policy, as the specification words it *)
(* ===================================================================== *)

Module Spec.

(** "If the input is less than or equal to the platform's maximum safe
    integer, return it unchanged; otherwise return the maximum safe
    integer." *)
Definition normalize (t : Z) : Z :=
  if t <=? JS.MAX_SAFE_INTEGER then t else JS.MAX_SAFE_INTEGER.

End Spec.

(* ===================================================================== *)
(** ** Vocabulary of the statements *)
(* ===================================================================== *)

Definition isDigit (d : Z) : Prop := 0 <= d <= 9.

(** The point read found nothing: no record, or the zero-filled one. *)
Definition pointReadAbsent (found : option EASAttestation.t) : bool :=
  match found with
  | None => true
  | Some attestation => (EASAttestation.uid attestation =? ZERO_UID)%string
  end.

(** The integer a text starts with: after leading white space and an
    optional sign, the value of its longest run of decimal digits,
    whatever follows the run; [None] when no digit stands there. *)
Definition leadingInteger (s : string) : option Z :=
  let (minus, rest) := JS.stripSign (JS.trimStart s) in
  match JS.digitPrefix rest with
  | [] => None
  | ds => Some (if minus then - JS.digitsValue ds else JS.digitsValue ds)
  end.

(** U+00A0, U+FEFF and U+2028 in UTF-8. *)
Definition noBreakSpace : string :=
  String (ascii_of_nat 194) (String (ascii_of_nat 160) "").

Definition byteOrderMark : string :=
  String (ascii_of_nat 239) (String (ascii_of_nat 187) (String (ascii_of_nat 191) "")).

Definition lineSeparator : string :=
  String (ascii_of_nat 226) (String (ascii_of_nat 128) (String (ascii_of_nat 168) "")).

(** The text is a decimal integer and nothing else: an optional sign and
    at least one digit. *)
Definition isIntegerText (s : string) : bool :=
  match JS.someDigits 10 (snd (JS.stripSign s)) with
  | Some _ => true
  | None => false
  end.

(** The text starts with an integer. *)
Definition startsWithInteger (s : string) : bool :=
  match leadingInteger s with
  | Some _ => true
  | None => false
  end.

(** One of the three timestamps of an index record does not start with an
    integer. *)
Definition lacksInteger (g : GraphQLAttestation.t) : bool :=
  negb (startsWithInteger (GraphQLAttestation.timeCreated g))
  || negb (startsWithInteger (GraphQLAttestation.expirationTime g))
  || negb (startsWithInteger (GraphQLAttestation.revocationTime g)).

(** The returned record [a] carries the identifier of the index record
    [g], and each of its timestamps is the integer the text in [g] starts
    with, as a double, saturated at the maximum safe integer. *)
Definition readsLeadingIntegers (g : GraphQLAttestation.t) (a : AttestationData.t)
  : Prop :=
  AttestationData.uid a = GraphQLAttestation.id g /\
  exists t e r,
    leadingInteger (GraphQLAttestation.timeCreated g) = Some t /\
    leadingInteger (GraphQLAttestation.expirationTime g) = Some e /\
    leadingInteger (GraphQLAttestation.revocationTime g) = Some r /\
    AttestationData.time a = GraphQLService.clamp (JS.toDouble t) /\
    AttestationData.expirationTime a = GraphQLService.clamp (JS.toDouble e) /\
    AttestationData.revocationTime a = GraphQLService.clamp (JS.toDouble r).

(** The three timestamps of an index record are the decimal texts of the
    non-negative ledger values [ts]. *)
Definition wireTimes (g : GraphQLAttestation.t) (ts : Z * Z * Z) : Prop :=
  let '(t, e, r) := ts in
  0 <= t /\ 0 <= e /\ 0 <= r /\
  GraphQLAttestation.timeCreated g = JS.decimalString t /\
  GraphQLAttestation.expirationTime g = JS.decimalString e /\
  GraphQLAttestation.revocationTime g = JS.decimalString r.

(** The three timestamps of a returned record are the normalised [ts]. *)
Definition normalizedTimes (a : AttestationData.t) (ts : Z * Z * Z) : Prop :=
  let '(t, e, r) := ts in
  AttestationData.time a = JS.Fin (Spec.normalize t) /\
  AttestationData.expirationTime a = JS.Fin (Spec.normalize e) /\
  AttestationData.revocationTime a = JS.Fin (Spec.normalize r).

(** A successful response carrying the parsed body [response]. *)
Definition okResponse (response : GraphQLResponse.t) : HttpResponse.t :=
  {| HttpResponse.ok := true;
     HttpResponse.status := 200;
     HttpResponse.statusText := "OK";
     HttpResponse.json := JS.Ok response |}.

(** The response has a success status and its body, free of error entries,
    carries the list [records]. *)
Definition carriesList (http : HttpResponse.t) (records : list GraphQLAttestation.t)
  : Prop :=
  HttpResponse.ok http = true /\
  exists response d,
    HttpResponse.json http = JS.Ok response /\
    GraphQLResponse.errors response = None /\
    GraphQLResponse.data response = Some d /\
    ResponseData.attestations d = Present records.

(** The response has a success status and its body carries the single
    record [g]. *)
Definition carriesOne (http : HttpResponse.t) (g : GraphQLAttestation.t) : Prop :=
  HttpResponse.ok http = true /\
  exists response d,
    HttpResponse.json http = JS.Ok response /\
    GraphQLResponse.data response = Some d /\
    ResponseData.attestation d = Some g.

(** The response has a success status and its body parses but carries no
    single record: [data] is missing, or [data.attestation] is. *)
Definition carriesNoRecord (http : HttpResponse.t) : Prop :=
  HttpResponse.ok http = true /\
  exists response,
    HttpResponse.json http = JS.Ok response /\
    (GraphQLResponse.data response = None \/
     exists d, GraphQLResponse.data response = Some d /\
               ResponseData.attestation d = None).

(** The request [queryAttestations] sends for [filters]. *)
Definition listRequest (filters : GraphQLService.Filters.t) : RequestBody :=
  ListQuery (GraphQLService.listQuery filters) (GraphQLService.listVariables filters).

(** The answer of the index to the list query of [this] for [filters]. *)
Definition listAnswer (this : GraphQLService.t) (filters : GraphQLService.Filters.t)
  : JS.outcome HttpResponse.t :=
  Platform.fetch (GraphQLService.platform this)
    (GraphQLService.getGraphQLEndpoint this) (listRequest filters) 30000.

(** The answer of the index to the single-record query of [this] for [uid]. *)
Definition uidAnswer (this : GraphQLService.t) (uid : string)
  : JS.outcome HttpResponse.t :=
  Platform.fetch (GraphQLService.platform this)
    (GraphQLService.getGraphQLEndpoint this)
    (UIDQuery GraphQLService.uidQuery uid) 30000.

(** A transport without any deadline: how long the response to a request
    takes to arrive, in milliseconds, what arrives then (a response, or the
    rejection of a failed connection), and the error the platform rejects
    an aborted request with. *)
Module Transport.
Record t : Type := mk {
  latency : string -> RequestBody -> Z;
  answer : string -> RequestBody -> JS.outcome HttpResponse.t;
  abortError : JS.thrown
}.
End Transport.

(** [fetch] over a transport: the request is aborted when the answer has
    not arrived by the time the timer fires. *)
Definition fetchOver (T : Transport.t) (endpoint : string) (body : RequestBody)
  (timeout : Z) : JS.outcome HttpResponse.t :=
  if timeout <=? Transport.latency T endpoint body
  then JS.Throw (Transport.abortError T)
  else Transport.answer T endpoint body.

(** The platform's [fetch] is [fetch] over the transport [T]. *)
Definition honoursSignal (P : Platform.t) (T : Transport.t) : Prop :=
  forall endpoint body timeout,
    Platform.fetch P endpoint body timeout = fetchOver T endpoint body timeout.

(** What a query method makes of a failure [e]: [catch (error)] wraps its
    message behind the prefix of the method. *)
Definition wrapped (prefix : string) (e : JS.thrown) : JS.thrown :=
  JS.ErrorObj (prefix ++ JS.errorMessage e "Unknown GraphQL error").

(** A derivation that gives no identifier: the method is absent, or it
    resolves to nothing or to the empty string. *)
Definition derivesNothing (method : option (JS.outcome (option string))) : Prop :=
  method = None \/
  exists r, method = Some (JS.Ok r) /\ JS.truthy_string r = false.

(** No call to [revoke] among [calls]. *)
Definition noRevoke (calls : list Call) : Prop :=
  forall r, ~ In (CallRevoke r) calls.

(* ===================================================================== *)
(** ** Sample data, after the mocks of the test suite *)
(* ===================================================================== *)

Module Sample.

Definition env : Env.t :=
  {| Env.PRIVATE_KEY := Some "0xtestkey";
     Env.RSK_RPC_URL_TESTNET := None;
     Env.RSK_RPC_URL_MAINNET := None;
     Env.RAS_CONTRACT_TESTNET := None;
     Env.RAS_CONTRACT_MAINNET := None;
     Env.SCHEMA_REGISTRY_TESTNET := None;
     Env.SCHEMA_REGISTRY_MAINNET := None;
     Env.GRAPHQL_ENDPOINT_TESTNET := None;
     Env.GRAPHQL_ENDPOINT_MAINNET := None |}.

(** The record of the mocked [getAttestation], with given expiration and
    revocation times. *)
Definition ledgerRecord (expirationTime revocationTime : Z) : EASAttestation.t :=
  {| EASAttestation.uid := "0xmockattestationuid";
     EASAttestation.schema := "0xmockschema";
     EASAttestation.recipient := "0x1234567890123456789012345678901234567890";
     EASAttestation.attester := "0x0987654321098765432109876543210987654321";
     EASAttestation.revocable := true;
     EASAttestation.refUID := ZERO_UID;
     EASAttestation.data := "0xmockdata";
     EASAttestation.time := 1640995200;
     EASAttestation.expirationTime := expirationTime;
     EASAttestation.revocationTime := revocationTime |}.

(** What the ledger returns for an identifier it does not know. *)
Definition zeroRecord : EASAttestation.t :=
  {| EASAttestation.uid := ZERO_UID;
     EASAttestation.schema := ZERO_UID;
     EASAttestation.recipient := ZERO_ADDRESS;
     EASAttestation.attester := ZERO_ADDRESS;
     EASAttestation.revocable := false;
     EASAttestation.refUID := ZERO_UID;
     EASAttestation.data := "0x";
     EASAttestation.time := 0;
     EASAttestation.expirationTime := 0;
     EASAttestation.revocationTime := 0 |}.

(** A confirmed transaction with the given derivation methods. *)
Definition transaction (derive : option (JS.outcome (option string)))
  : EASTransaction.t :=
  {| EASTransaction.hash := "0xmocktxhash";
     EASTransaction.wait := JS.Ok tt;
     EASTransaction.getAttestationUID := derive;
     EASTransaction.getSchemaUID := derive |}.

Definition eas (found : option EASAttestation.t) (tx : EASTransaction.t) : EAS.t :=
  {| EAS.attest := fun _ => JS.Ok tx;
     EAS.getAttestation := fun _ => JS.Ok found;
     EAS.revoke := fun _ => JS.Ok tx;
     EAS.getSchemaRegistry :=
       JS.Ok {| EASSchemaRegistry.register := fun _ _ _ => JS.Ok tx |} |}.

Definition platform (sdk : EAS.t) (response : JS.outcome HttpResponse.t) (now : Z)
  : Platform.t :=
  {| Platform.env := env;
     Platform.connect := fun _ _ => JS.Ok sdk;
     Platform.fetch := fun _ _ _ => response;
     Platform.now := now |}.

(** The index service object on a platform that answers [response]. *)
Definition index (response : JS.outcome HttpResponse.t) : GraphQLService.t :=
  GraphQLService.mk (getNetworkConfig env testnet)
    (platform (eas None (transaction None)) response 0).

(** The index service object on a platform whose [fetch] goes over the
    transport [T]. *)
Definition indexOver (T : Transport.t) : GraphQLService.t :=
  GraphQLService.mk (getNetworkConfig env testnet)
    {| Platform.env := env;
       Platform.connect := fun _ _ => JS.Ok (eas None (transaction None));
       Platform.fetch := fetchOver T;
       Platform.now := 0 |}.

(** A transport that answers every request after [latency] milliseconds
    with [answer], on a platform whose abort error has the message of
    Node. *)
Definition transport (latency : Z) (answer : JS.outcome HttpResponse.t)
  : Transport.t :=
  {| Transport.latency := fun _ _ => latency;
     Transport.answer := fun _ _ => answer;
     Transport.abortError := JS.ErrorObj "This operation was aborted" |}.

(** The orchestrator on a ledger that answers [found] and [tx]. *)
Definition service (found : option EASAttestation.t) (tx : EASTransaction.t)
  (response : JS.outcome HttpResponse.t) : AttestationService.t :=
  {| AttestationService.eas := eas found tx;
     AttestationService.config := getNetworkConfig env testnet;
     AttestationService.graphqlService := index response |}.

(** An index record with the given identifier and timestamps. *)
Definition indexRecord (id timeCreated expirationTime revocationTime : string)
  : GraphQLAttestation.t :=
  {| GraphQLAttestation.id := id;
     GraphQLAttestation.attester := "0x0987654321098765432109876543210987654321";
     GraphQLAttestation.recipient := "0x1234567890123456789012345678901234567890";
     GraphQLAttestation.revoked := false;
     GraphQLAttestation.revocable := true;
     GraphQLAttestation.refUID := ZERO_UID;
     GraphQLAttestation.data := "0xmockdata";
     GraphQLAttestation.timeCreated := timeCreated;
     GraphQLAttestation.expirationTime := expirationTime;
     GraphQLAttestation.revocationTime := revocationTime;
     GraphQLAttestation.schema_id := "0xmockschema" |}.

(** A response body with a list of records and no error entry. *)
Definition listBody (records : list GraphQLAttestation.t) : GraphQLResponse.t :=
  {| GraphQLResponse.data :=
       Some {| ResponseData.attestations := Present records;
               ResponseData.attestation := None |};
     GraphQLResponse.errors := None |}.

(** A response body with one record (or [null]) and no error entry. *)
Definition oneBody (record : option GraphQLAttestation.t) : GraphQLResponse.t :=
  {| GraphQLResponse.data :=
       Some {| ResponseData.attestations := Missing;
               ResponseData.attestation := record |};
     GraphQLResponse.errors := None |}.

(** A response body without the [data] member. *)
Definition emptyBody (errors : option (list string)) : GraphQLResponse.t :=
  {| GraphQLResponse.data := None; GraphQLResponse.errors := errors |}.

Definition verifyInput : VerifyAttestationInput.t :=
  {| VerifyAttestationInput.network := testnet;
     VerifyAttestationInput.uid := "0xmockattestationuid" |}.

Definition revokeInput : RevokeAttestationInput.t :=
  {| RevokeAttestationInput.network := testnet;
     RevokeAttestationInput.uid := "0xnonexistent" |}.

Definition issueInput : IssueAttestationInput.t :=
  {| IssueAttestationInput.network := testnet;
     IssueAttestationInput.recipient := "0x1234567890123456789012345678901234567890";
     IssueAttestationInput.schema := "0xmockschema";
     IssueAttestationInput.data := "0xmockdata";
     IssueAttestationInput.expirationTime := None;
     IssueAttestationInput.revocable := None;
     IssueAttestationInput.refUID := None;
     IssueAttestationInput.value := None |}.

Definition schemaInput : CreateSchemaInput.t :=
  {| CreateSchemaInput.network := testnet;
     CreateSchemaInput.schema := "string name,uint256 age";
     CreateSchemaInput.resolverAddress := None;
     CreateSchemaInput.revocable := true |}.

Definition filters (recipient : option string) (limit : option JS.number)
  : GraphQLService.Filters.t :=
  {| GraphQLService.Filters.recipient := recipient;
     GraphQLService.Filters.attester := None;
     GraphQLService.Filters.schema := None;
     GraphQLService.Filters.limit := limit |}.

Definition listInput (limit : option JS.number) : ListAttestationsInput.t :=
  {| ListAttestationsInput.network := testnet;
     ListAttestationsInput.recipient :=
       Some "0x1234567890123456789012345678901234567890";
     ListAttestationsInput.attester := None;
     ListAttestationsInput.schema := None;
     ListAttestationsInput.limit := limit |}.

End Sample.

(* ===================================================================== *)
(** ** The hackathon workflow example, a caller of the orchestrator *)
(* ===================================================================== *)

Module HackathonAttestationWorkflow.

Module Config.
Record t : Type := mk {
  projectSchema : string;
  approvalSchema : string;
  network : Network
}.
End Config.

Module Status.
Record t : Type := mk {
  hasSubmission : bool;
  isApproved : bool;
  submissionUID : option string;
  approvalUID : option string
}.
End Status.

Record t : Type := mk {
  attestationService : AttestationService.t;
  config : Config.t
}.

(** [new HackathonAttestationWorkflow(config)]. *)
Definition new (P : Platform.t) (config : Config.t) : Eff.M t :=
  service <- AttestationService.new P (Config.network config) ;;
  Eff.ret {| attestationService := service; config := config |}.

Definition updateSchemas (this : t) (projectSchema approvalSchema : string) : t :=
  {| attestationService := attestationService this;
     config := {| Config.projectSchema := projectSchema;
                  Config.approvalSchema := approvalSchema;
                  Config.network := Config.network (config this) |} |}.

Definition createProjectSubmissionSchema (this : t) : Eff.M string :=
  let schemaDefinition :=
    "string projectName,string submitterAddress,string repositoryUrl,string description,uint256 submissionTime" in
  result <- AttestationService.createSchema (attestationService this)
              {| CreateSchemaInput.network := Config.network (config this);
                 CreateSchemaInput.schema := schemaDefinition;
                 CreateSchemaInput.resolverAddress := None;
                 CreateSchemaInput.revocable := false |} ;;
  Eff.ret (AttestationService.Issued.uid result).

Definition createApprovalSchema (this : t) : Eff.M string :=
  let schemaDefinition :=
    "string projectId,bool approved,string reviewerAddress,string comments,uint256 reviewTime" in
  result <- AttestationService.createSchema (attestationService this)
              {| CreateSchemaInput.network := Config.network (config this);
                 CreateSchemaInput.schema := schemaDefinition;
                 CreateSchemaInput.resolverAddress := None;
                 CreateSchemaInput.revocable := true |} ;;
  Eff.ret (AttestationService.Issued.uid result).

(** The list request of [verifyProjectStatus]. *)
Definition statusInput (this : t) (submitterAddress : string) : ListAttestationsInput.t :=
  {| ListAttestationsInput.network := Config.network (config this);
     ListAttestationsInput.recipient := Some submitterAddress;
     ListAttestationsInput.attester := None;
     ListAttestationsInput.schema := None;
     ListAttestationsInput.limit := Some (JS.Fin 100) |}.

Definition verifyProjectStatus (this : t) (submitterAddress : string)
  : Eff.M Status.t :=
  Eff.tryCatch
    (attestations <- AttestationService.listAttestations (attestationService this)
                       (statusInput this submitterAddress) ;;
     let submissionAttestation :=
       find (fun a => (AttestationData.schema a =? Config.projectSchema (config this))%string)
            attestations in
     let approvalAttestation :=
       find (fun a => (AttestationData.schema a =? Config.approvalSchema (config this))%string)
            attestations in
     Eff.ret
       {| Status.hasSubmission :=
            match submissionAttestation with Some _ => true | None => false end;
          Status.isApproved :=
            match approvalAttestation with
            | Some a => JS.strictEq (AttestationData.revocationTime a) (JS.Fin 0)
            | None => false
            end;
          Status.submissionUID := option_map AttestationData.uid submissionAttestation;
          Status.approvalUID := option_map AttestationData.uid approvalAttestation |})
    (fun error =>
       Eff.ret {| Status.hasSubmission := false;
                  Status.isApproved := false;
                  Status.submissionUID := None;
                  Status.approvalUID := None |}).

End HackathonAttestationWorkflow.

(* ===================================================================== *)
(** ** The hackathon workflow example: attesting a project *)
(* ===================================================================== *)

(** An item given to the SDK's schema encoder. *)
Module SchemaItem.
Inductive itemValue : Type :=
| VString (s : string)
| VBool (b : bool)
| VNumber (n : JS.number).
Record t : Type := mk {
  name : string;
  value : itemValue;
  type : string
}.
End SchemaItem.

(** The SDK's encoder: [new SchemaEncoder(schema).encodeData(items)], after
    the module has been imported; any of the three steps may throw. *)
Definition SchemaEncoder : Type :=
  string -> list SchemaItem.t -> JS.outcome string.

Module HackathonProject.
Record t : Type := mk {
  id : string;
  name : string;
  submitter : string;
  repositoryUrl : string;
  description : string;
  approved : bool;
  reviewedBy : string
}.
End HackathonProject.

Module HackathonDemo.

Import HackathonAttestationWorkflow.

Definition projectDefinition : string :=
  "string projectName,string submitterAddress,string repositoryUrl,string description,uint256 submissionTime".

Definition approvalDefinition : string :=
  "string projectId,bool approved,string reviewerAddress,string comments,uint256 reviewTime".

(** The items encoded by [attestProjectSubmission]. *)
Definition submissionItems (P : Platform.t) (project : HackathonProject.t)
  : list SchemaItem.t :=
  [ SchemaItem.mk "projectName"
      (SchemaItem.VString (HackathonProject.name project)) "string";
    SchemaItem.mk "submitterAddress"
      (SchemaItem.VString (HackathonProject.submitter project)) "string";
    SchemaItem.mk "repositoryUrl"
      (SchemaItem.VString (HackathonProject.repositoryUrl project)) "string";
    SchemaItem.mk "description"
      (SchemaItem.VString (HackathonProject.description project)) "string";
    SchemaItem.mk "submissionTime"
      (SchemaItem.VNumber (Handlers.nowSeconds P)) "uint256" ].

(** The items encoded by [attestProjectApproval]. *)
Definition approvalItems (P : Platform.t) (project : HackathonProject.t)
  : list SchemaItem.t :=
  [ SchemaItem.mk "projectId"
      (SchemaItem.VString (HackathonProject.id project)) "string";
    SchemaItem.mk "approved"
      (SchemaItem.VBool (HackathonProject.approved project)) "bool";
    SchemaItem.mk "reviewerAddress"
      (SchemaItem.VString (HackathonProject.reviewedBy project)) "string";
    SchemaItem.mk "comments"
      (SchemaItem.VString
         (if HackathonProject.approved project
          then "Project approved for hackathon"
          else "Project needs revision")) "string";
    SchemaItem.mk "reviewTime"
      (SchemaItem.VNumber (Handlers.nowSeconds P)) "uint256" ].

Definition attestProjectSubmission (encoder : SchemaEncoder) (P : Platform.t)
  (this : t) (project : HackathonProject.t) : Eff.M string :=
  encodedData <- Eff.lift (encoder projectDefinition (submissionItems P project)) ;;
  result <- AttestationService.issueAttestation (attestationService this)
              {| IssueAttestationInput.network := Config.network (config this);
                 IssueAttestationInput.recipient := HackathonProject.submitter project;
                 IssueAttestationInput.schema := Config.projectSchema (config this);
                 IssueAttestationInput.data := encodedData;
                 IssueAttestationInput.expirationTime := None;
                 IssueAttestationInput.revocable := Some false;
                 IssueAttestationInput.refUID := None;
                 IssueAttestationInput.value := None |} ;;
  Eff.ret (AttestationService.Issued.uid result).

Definition attestProjectApproval (encoder : SchemaEncoder) (P : Platform.t)
  (this : t) (project : HackathonProject.t) (projectAttestationUID : string)
  : Eff.M string :=
  encodedData <- Eff.lift (encoder approvalDefinition (approvalItems P project)) ;;
  result <- AttestationService.issueAttestation (attestationService this)
              {| IssueAttestationInput.network := Config.network (config this);
                 IssueAttestationInput.recipient := HackathonProject.submitter project;
                 IssueAttestationInput.schema := Config.approvalSchema (config this);
                 IssueAttestationInput.data := encodedData;
                 IssueAttestationInput.expirationTime := None;
                 IssueAttestationInput.revocable := Some true;
                 IssueAttestationInput.refUID := Some projectAttestationUID;
                 IssueAttestationInput.value := None |} ;;
  Eff.ret (AttestationService.Issued.uid result).

(** The project of the demo. *)
Definition demoProject : HackathonProject.t :=
  {| HackathonProject.id := "hack2025-001";
     HackathonProject.name := "DeFi Yield Optimizer";
     HackathonProject.submitter := "0x1234567890123456789012345678901234567890";
     HackathonProject.repositoryUrl :=
       "https://github.com/submitter/defi-yield-optimizer";
     HackathonProject.description :=
       "An automated yield optimization protocol for RSK DeFi";
     HackathonProject.approved := true;
     HackathonProject.reviewedBy := "0x0987654321098765432109876543210987654321" |}.

Module Outcome.
Record t : Type := mk {
  projectSchemaUID : string;
  approvalSchemaUID : string;
  submissionUID : string;
  approvalUID : string
}.
End Outcome.

(** [runHackathonDemo]; its [catch] block rethrows the error as it is. *)
Definition runHackathonDemo (encoder : SchemaEncoder) (P : Platform.t)
  : Eff.M Outcome.t :=
  Eff.tryCatch
    (tempWorkflow <- new P (Config.mk "" "" testnet) ;;
     projectSchemaUID <- createProjectSubmissionSchema tempWorkflow ;;
     approvalSchemaUID <- createApprovalSchema tempWorkflow ;;
     workflow <- new P (Config.mk projectSchemaUID approvalSchemaUID testnet) ;;
     submissionUID <- attestProjectSubmission encoder P workflow demoProject ;;
     approvalUID <- attestProjectApproval encoder P workflow demoProject submissionUID ;;
     Eff.ret {| Outcome.projectSchemaUID := projectSchemaUID;
                Outcome.approvalSchemaUID := approvalSchemaUID;
                Outcome.submissionUID := submissionUID;
                Outcome.approvalUID := approvalUID |})
    (fun error => Eff.throw error).

End HackathonDemo.

(** The request [attestProjectSubmission] submits for encoded [data]. *)
Definition submissionRequest (this : HackathonAttestationWorkflow.t)
  (project : HackathonProject.t) (data : string) : AttestationRequest.t :=
  {| AttestationRequest.schema :=
       HackathonAttestationWorkflow.Config.projectSchema
         (HackathonAttestationWorkflow.config this);
     AttestationRequest.recipient := HackathonProject.submitter project;
     AttestationRequest.expirationTime := 0;
     AttestationRequest.revocable := false;
     AttestationRequest.refUID := ZERO_UID;
     AttestationRequest.data := data;
     AttestationRequest.value := 0 |}.

(** The request [attestProjectApproval] submits for encoded [data]: it
    refers to [uid], or to the all-zero identifier when [uid] is empty. *)
Definition approvalRequest (this : HackathonAttestationWorkflow.t)
  (project : HackathonProject.t) (uid data : string) : AttestationRequest.t :=
  {| AttestationRequest.schema :=
       HackathonAttestationWorkflow.Config.approvalSchema
         (HackathonAttestationWorkflow.config this);
     AttestationRequest.recipient := HackathonProject.submitter project;
     AttestationRequest.expirationTime := 0;
     AttestationRequest.revocable := true;
     AttestationRequest.refUID :=
       match uid with
       | EmptyString => ZERO_UID
       | _ => uid
       end;
     AttestationRequest.data := data;
     AttestationRequest.value := 0 |}.

(** An encoder that answers the same bytes for every input. *)
Definition sampleEncoder : SchemaEncoder := fun _ _ => JS.Ok "0xencoded".

(** The ledger never offers a derivation method on a transaction. *)
Definition withoutDerivation (sdk : EAS.t) : Prop :=
  (forall request tx,
     EAS.attest sdk request = JS.Ok tx -> EASTransaction.getAttestationUID tx = None) /\
  (forall registry schema resolver revocable tx,
     EAS.getSchemaRegistry sdk = JS.Ok registry ->
     EASSchemaRegistry.register registry schema resolver revocable = JS.Ok tx ->
     EASTransaction.getSchemaUID tx = None).

(** Every submission to the ledger is accepted and confirmed. *)
Definition alwaysConfirms (sdk : EAS.t) : Prop :=
  (forall request, exists tx,
     EAS.attest sdk request = JS.Ok tx /\ EASTransaction.wait tx = JS.Ok tt) /\
  (exists registry,
     EAS.getSchemaRegistry sdk = JS.Ok registry /\
     forall schema resolver revocable, exists tx,
       EASSchemaRegistry.register registry schema resolver revocable = JS.Ok tx /\
       EASTransaction.wait tx = JS.Ok tt).

(* ===================================================================== *)
(** ** The tool server ([src/server.ts]), its call handler *)
(* ===================================================================== *)

Module Server.

(** The value handed to [JSON.stringify(_, null, 2)] to make the text of
    the single content item: the result of a handler, or the failure
    envelope of the [catch] block. *)
Inductive ToolOutput : Type :=
| IssueOutput (result : Handlers.Result Handlers.IssuedData.t)
| VerifyOutput (result : Handlers.Result Handlers.Verified.t)
| ListOutput (result : Handlers.Result Handlers.ListedData.t)
| SchemaOutput (result : Handlers.Result Handlers.SchemaData.t)
| RevokeOutput (result : Handlers.Result Handlers.RevokedData.t)
| FailureOutput (message : string).

(** The answer to a tool call; [isError = false] is the member left out. *)
Record CallToolResult : Type := mkCallToolResult {
  content : ToolOutput;
  isError : bool
}.

(** The five input schemas, as their [parse]: validation belongs to the
    schema library, and a rejected input throws. *)
Record Schemas (Args : Type) : Type := mkSchemas {
  IssueAttestationSchema : Args -> JS.outcome IssueAttestationInput.t;
  VerifyAttestationSchema : Args -> JS.outcome VerifyAttestationInput.t;
  ListAttestationsSchema : Args -> JS.outcome ListAttestationsInput.t;
  CreateSchemaSchema : Args -> JS.outcome CreateSchemaInput.t;
  RevokeAttestationSchema : Args -> JS.outcome RevokeAttestationInput.t
}.
Arguments IssueAttestationSchema {Args} _ _.
Arguments VerifyAttestationSchema {Args} _ _.
Arguments ListAttestationsSchema {Args} _ _.
Arguments CreateSchemaSchema {Args} _ _.
Arguments RevokeAttestationSchema {Args} _ _.

(** The handler of [CallToolRequestSchema]. *)
Definition callTool {Args} (schemas : Schemas Args) (P : Platform.t)
  (name : string) (args : Args) : Eff.M CallToolResult :=
  Eff.tryCatch
    (if (name =? "issue-attestation")%string then
       parsedArgs <- Eff.lift (IssueAttestationSchema schemas args) ;;
       result <- Handlers.handleIssueAttestation P parsedArgs ;;
       Eff.ret (mkCallToolResult (IssueOutput result) false)
     else if (name =? "verify-attestation")%string then
       parsedArgs <- Eff.lift (VerifyAttestationSchema schemas args) ;;
       result <- Handlers.handleVerifyAttestation P parsedArgs ;;
       Eff.ret (mkCallToolResult (VerifyOutput result) false)
     else if (name =? "list-attestations")%string then
       parsedArgs <- Eff.lift (ListAttestationsSchema schemas args) ;;
       result <- Handlers.handleListAttestations P parsedArgs ;;
       Eff.ret (mkCallToolResult (ListOutput result) false)
     else if (name =? "create-schema")%string then
       parsedArgs <- Eff.lift (CreateSchemaSchema schemas args) ;;
       result <- Handlers.handleCreateSchema P parsedArgs ;;
       Eff.ret (mkCallToolResult (SchemaOutput result) false)
     else if (name =? "revoke-attestation")%string then
       parsedArgs <- Eff.lift (RevokeAttestationSchema schemas args) ;;
       result <- Handlers.handleRevokeAttestation P parsedArgs ;;
       Eff.ret (mkCallToolResult (RevokeOutput result) false)
     else
       Eff.throw (JS.ErrorObj ("Unknown tool: " ++ name)))
    (fun error =>
       Eff.ret (mkCallToolResult
         (FailureOutput
            ("Tool execution failed: "
             ++ JS.errorMessage error "Unknown error occurred"))
         true)).

(** The names of the five tools. *)
Definition toolNames : list string :=
  ["issue-attestation"; "verify-attestation"; "list-attestations";
   "create-schema"; "revoke-attestation"].

End Server.

(** Schemas that accept an input already of the right shape for the tool
    it is given to, and reject everything else. *)
Inductive SampleArgs : Type :=
| RevokeArgs (input : RevokeAttestationInput.t)
| VerifyArgs (input : VerifyAttestationInput.t)
| OtherArgs.

Definition sampleSchemas : Server.Schemas SampleArgs :=
  {| Server.IssueAttestationSchema := fun _ => JS.Throw (JS.ErrorObj "Required");
     Server.VerifyAttestationSchema := fun a =>
       match a with
       | VerifyArgs i => JS.Ok i
       | _ => JS.Throw (JS.ErrorObj "Required")
       end;
     Server.ListAttestationsSchema := fun _ => JS.Throw (JS.ErrorObj "Required");
     Server.CreateSchemaSchema := fun _ => JS.Throw (JS.ErrorObj "Required");
     Server.RevokeAttestationSchema := fun a =>
       match a with
       | RevokeArgs i => JS.Ok i
       | _ => JS.Throw (JS.ErrorObj "Required")
       end |}.

(* ===================================================================== *)
(** ** Further vocabulary *)
(* ===================================================================== *)

(** The same platform with the clock at [now]. *)
Definition setNow (P : Platform.t) (now : Z) : Platform.t :=
  {| Platform.env := Platform.env P;
     Platform.connect := Platform.connect P;
     Platform.fetch := Platform.fetch P;
     Platform.now := now |}.

(** A call that submits a transaction to the ledger. *)
Definition isWrite (c : Call) : bool :=
  match c with
  | CallAttest _ | CallRevoke _ | CallRegister _ _ _ => true
  | _ => false
  end.

(** The transactions submitted among [calls]. *)
Definition writes (calls : list Call) : list Call := filter isWrite calls.

(** A returned record carries the fields of the index record [g]. *)
Definition sameIndexRecord (g : GraphQLAttestation.t) (a : AttestationData.t) : Prop :=
  AttestationData.uid a = GraphQLAttestation.id g /\
  AttestationData.schema a = GraphQLAttestation.schema_id g /\
  AttestationData.recipient a = GraphQLAttestation.recipient g /\
  AttestationData.attester a = GraphQLAttestation.attester g /\
  AttestationData.revocable a = GraphQLAttestation.revocable g /\
  AttestationData.refUID a = GraphQLAttestation.refUID g /\
  AttestationData.data a = GraphQLAttestation.data g.

(** A returned record carries the fields of the ledger record [e]. *)
Definition sameLedgerRecord (e : EASAttestation.t) (a : AttestationData.t) : Prop :=
  AttestationData.uid a = EASAttestation.uid e /\
  AttestationData.schema a = EASAttestation.schema e /\
  AttestationData.recipient a = EASAttestation.recipient e /\
  AttestationData.attester a = EASAttestation.attester e /\
  AttestationData.revocable a = EASAttestation.revocable e /\
  AttestationData.refUID a = EASAttestation.refUID e /\
  AttestationData.data a = EASAttestation.data e.

(** A timestamp a service may return: a number, at most
    [Number.MAX_SAFE_INTEGER]. *)
Definition boundedTime (x : JS.number) : Prop :=
  JS.isNaN x = false /\ JS.le x (JS.Fin JS.MAX_SAFE_INTEGER) = true.

Definition boundedTimes (a : AttestationData.t) : Prop :=
  boundedTime (AttestationData.time a) /\
  boundedTime (AttestationData.expirationTime a) /\
  boundedTime (AttestationData.revocationTime a).

(** The result of a handler is the uniform failure shape, or a success with
    data. *)
Definition wellShaped {D} (r : Handlers.Result D) : Prop :=
  (Handlers.success r = false /\ Handlers.data r = None) \/
  (Handlers.success r = true /\ exists d, Handlers.data r = Some d).

(** The sample platform with [PRIVATE_KEY] set to [key]. *)
Definition withKey (P : Platform.t) (key : option string) : Platform.t :=
  {| Platform.env :=
       {| Env.PRIVATE_KEY := key;
          Env.RSK_RPC_URL_TESTNET := Env.RSK_RPC_URL_TESTNET (Platform.env P);
          Env.RSK_RPC_URL_MAINNET := Env.RSK_RPC_URL_MAINNET (Platform.env P);
          Env.RAS_CONTRACT_TESTNET := Env.RAS_CONTRACT_TESTNET (Platform.env P);
          Env.RAS_CONTRACT_MAINNET := Env.RAS_CONTRACT_MAINNET (Platform.env P);
          Env.SCHEMA_REGISTRY_TESTNET := Env.SCHEMA_REGISTRY_TESTNET (Platform.env P);
          Env.SCHEMA_REGISTRY_MAINNET := Env.SCHEMA_REGISTRY_MAINNET (Platform.env P);
          Env.GRAPHQL_ENDPOINT_TESTNET := Env.GRAPHQL_ENDPOINT_TESTNET (Platform.env P);
          Env.GRAPHQL_ENDPOINT_MAINNET := Env.GRAPHQL_ENDPOINT_MAINNET (Platform.env P) |};
     Platform.connect := Platform.connect P;
     Platform.fetch := Platform.fetch P;
     Platform.now := Platform.now P |}.

(** A sample platform: the mocked ledger with the mocked record, an index
    that answers an empty list, the clock in November 2023. *)
Definition samplePlatform : Platform.t :=
  Sample.platform
    (Sample.eas (Some (Sample.ledgerRecord 0 0))
       (Sample.transaction (Some (JS.Ok (Some "0xmockattestationuid")))))
    (JS.Ok (okResponse (Sample.listBody [])))
    1700000000000.

(** A ledger every call to which rejects with [e]. *)
Definition failingEAS (e : JS.thrown) : EAS.t :=
  {| EAS.attest := fun _ => JS.Throw e;
     EAS.getAttestation := fun _ => JS.Throw e;
     EAS.revoke := fun _ => JS.Throw e;
     EAS.getSchemaRegistry := JS.Throw e |}.

(** An index record of the given schema, identifier and revocation time. *)
Definition indexRecordOf (schema id revocationTime : string) : GraphQLAttestation.t :=
  {| GraphQLAttestation.id := id;
     GraphQLAttestation.attester := "0x0987654321098765432109876543210987654321";
     GraphQLAttestation.recipient := "0x1234567890123456789012345678901234567890";
     GraphQLAttestation.revoked := false;
     GraphQLAttestation.revocable := true;
     GraphQLAttestation.refUID := ZERO_UID;
     GraphQLAttestation.data := "0xmockdata";
     GraphQLAttestation.timeCreated := "1700000000";
     GraphQLAttestation.expirationTime := "0";
     GraphQLAttestation.revocationTime := revocationTime;
     GraphQLAttestation.schema_id := schema |}.

(** A workflow whose index lists a revoked approval, newer than a standing
    approval and than the submission. *)
Definition sampleWorkflow : HackathonAttestationWorkflow.t :=
  HackathonAttestationWorkflow.mk
    (Sample.service None (Sample.transaction None)
       (JS.Ok (okResponse (Sample.listBody
          [indexRecordOf "0xapprovalschema" "0xnewerapproval" "1700000500";
           indexRecordOf "0xapprovalschema" "0xolderapproval" "0";
           indexRecordOf "0xprojectschema" "0xsubmission" "0"]))))
    (HackathonAttestationWorkflow.Config.mk "0xprojectschema" "0xapprovalschema"
       testnet).

(** The index endpoint of a network: the environment's, when set and not
    empty, else the public one. *)
Definition endpointOf (env : Env.t) (network : Network) : string :=
  match network with
  | testnet =>
      match Env.GRAPHQL_ENDPOINT_TESTNET env with
      | Some (String c r) => String c r
      | _ => "https://easscan-testnet.rootstock.io/graphql"
      end
  | mainnet =>
      match Env.GRAPHQL_ENDPOINT_MAINNET env with
      | Some (String c r) => String c r
      | _ => "https://easscan.rootstock.io/graphql"
      end
  end.

(* ===================================================================== *)
(** ** Facts about the platform model *)
(* ===================================================================== *)

Section Doubles.

Lemma MAX_SAFE_INTEGER_eq : JS.MAX_SAFE_INTEGER = 2 ^ 53 - 1.
Proof. reflexivity. Qed.

Lemma roundMagnitude_small (m : Z) :
  m < 2 ^ 53 -> JS.roundMagnitude m = Some m.
Proof.
  intros H. unfold JS.roundMagnitude.
  destruct (Z.ltb_spec m (2 ^ 53)); [reflexivity | lia].
Qed.

Lemma roundMagnitude_large (m v : Z) :
  2 ^ 53 <= m -> JS.roundMagnitude m = Some v -> 2 ^ 53 <= v.
Proof.
  intros Hm. unfold JS.roundMagnitude.
  destruct (Z.ltb_spec m (2 ^ 53)); [lia |].
  set (e := Z.log2 m - 52).
  assert (Hlog : 53 <= Z.log2 m) by (apply Z.log2_le_pow2; lia).
  assert (He : 1 <= e) by (unfold e; lia).
  assert (Hpow : 0 < 2 ^ e) by (apply Z.pow_pos_nonneg; lia).
  assert (Hq : 2 ^ 52 <= m / 2 ^ e).
  { apply Z.div_le_lower_bound; [exact Hpow |].
    rewrite Z.mul_comm, <- Z.pow_add_r by lia.
    replace (52 + e) with (Z.log2 m) by (unfold e; lia).
    apply Z.log2_spec; lia. }
  assert (Hbig : 2 ^ 53 <= m / 2 ^ e * 2 ^ e).
  { change (2 ^ 53) with (2 ^ 52 * 2 ^ 1).
    apply Z.mul_le_mono_nonneg; try lia.
    apply Z.pow_le_mono_r; lia. }
  cbv zeta.
  destruct ((2 ^ (e - 1) <? m mod 2 ^ e)
            || ((m mod 2 ^ e =? 2 ^ (e - 1)) && Z.odd (m / 2 ^ e)));
    match goal with
    | |- context [Z.leb ?a ?b] => destruct (Z.leb a b)
    end;
    intros [= <-]; nia.
Qed.

Lemma toDouble_small (t : Z) :
  0 <= t -> t < 2 ^ 53 -> JS.toDouble t = JS.Fin t.
Proof.
  intros H0 H1. unfold JS.toDouble.
  rewrite Z.abs_eq by lia. rewrite roundMagnitude_small by lia.
  f_equal. destruct (Z.eq_dec t 0) as [-> | Hne]; [reflexivity |].
  rewrite Z.sgn_pos by lia. lia.
Qed.

Lemma toDouble_large (t : Z) :
  2 ^ 53 <= t ->
  JS.toDouble t = JS.PosInf \/ exists v, JS.toDouble t = JS.Fin v /\ 2 ^ 53 <= v.
Proof.
  intros H. unfold JS.toDouble.
  rewrite Z.abs_eq by lia.
  destruct (JS.roundMagnitude t) as [v |] eqn:E.
  - right. exists v. apply roundMagnitude_large in E; [| lia].
    rewrite Z.sgn_pos by lia. split; [f_equal; lia | lia].
  - left. destruct (Z.ltb_spec t 0); [lia | reflexivity].
Qed.

End Doubles.

Section ParsePrint.

Ltac digit_cases d H :=
  assert (d = 0 \/ d = 1 \/ d = 2 \/ d = 3 \/ d = 4 \/
          d = 5 \/ d = 6 \/ d = 7 \/ d = 8 \/ d = 9) as H
    by (unfold isDigit in *; lia);
  repeat (destruct H as [H | H]); subst d.

Lemma digitValue_digitChar (d : Z) :
  isDigit d -> JS.digitValue (JS.digitChar d) = Some d.
Proof. intros Hd. digit_cases d H; reflexivity. Qed.

(** No white space starts with the byte of a digit. *)
Lemma trimStart_digitChar (d : Z) (r : string) :
  isDigit d ->
  JS.trimStart (String (JS.digitChar d) r) = String (JS.digitChar d) r.
Proof.
  intros Hd. digit_cases d H; destruct r as [| c2 [| c3 r3]]; reflexivity.
Qed.

Lemma stripSign_digitChar (d : Z) (r : string) :
  isDigit d ->
  JS.stripSign (String (JS.digitChar d) r) = (false, String (JS.digitChar d) r).
Proof. intros Hd. digit_cases d H; reflexivity. Qed.

Lemma digitPrefix_digitsString (ds : list Z) :
  Forall isDigit ds -> JS.digitPrefix (JS.digitsString ds) = ds.
Proof.
  induction 1 as [| d ds Hd _ IH]; [reflexivity |].
  unfold JS.digitsString in *. cbn [map string_of_list_ascii JS.digitPrefix].
  rewrite digitValue_digitChar by assumption. now rewrite IH.
Qed.

Lemma digitsValue_snoc (ds : list Z) (d : Z) :
  JS.digitsValue (ds ++ [d]) = 10 * JS.digitsValue ds + d.
Proof. unfold JS.digitsValue. now rewrite fold_left_app. Qed.

Lemma decimalDigits_value (fuel : nat) :
  forall n, 0 <= n < 10 ^ Z.of_nat fuel ->
            JS.digitsValue (JS.decimalDigits fuel n) = n.
Proof.
  induction fuel as [| f IH]; intros n Hn.
  - change (10 ^ Z.of_nat 0) with 1 in Hn. unfold JS.digitsValue. cbn. lia.
  - cbn [JS.decimalDigits]. destruct (Z.ltb_spec n 10) as [Hlt | Hge].
    + unfold JS.digitsValue. cbn. lia.
    + rewrite digitsValue_snoc, IH.
      * pose proof (Z.div_mod n 10). lia.
      * rewrite Nat2Z.inj_succ, Z.pow_succ_r in Hn by lia.
        split; [apply Z.div_pos; lia |].
        apply Z.div_lt_upper_bound; lia.
Qed.

Lemma decimalDigits_digits (fuel : nat) :
  forall n, 0 <= n -> Forall isDigit (JS.decimalDigits fuel n).
Proof.
  induction fuel as [| f IH]; intros n Hn; cbn [JS.decimalDigits].
  - constructor.
  - destruct (Z.ltb_spec n 10).
    + repeat constructor; lia.
    + apply Forall_app. split.
      * apply IH. apply Z.div_pos; lia.
      * repeat constructor; pose proof (Z.mod_pos_bound n 10); lia.
Qed.

Lemma decimalDigits_head (fuel : nat) (n : Z) :
  exists d ds, JS.decimalDigits (S fuel) n = d :: ds.
Proof.
  cbn [JS.decimalDigits]. destruct (n <? 10); [eauto |].
  destruct (JS.decimalDigits fuel (n / 10)) as [| d ds]; cbn; eauto.
Qed.

Lemma fuel_enough (n : Z) :
  0 <= n -> n < 10 ^ Z.of_nat (S (Z.to_nat (Z.log2 n))).
Proof.
  intros Hn. rewrite Nat2Z.inj_succ, Z2Nat.id by apply Z.log2_nonneg.
  destruct (Z.eq_dec n 0) as [-> | Hne]; [cbn; lia |].
  apply Z.lt_le_trans with (2 ^ Z.succ (Z.log2 n)).
  - apply Z.log2_spec. lia.
  - apply Z.pow_le_mono_l. pose proof (Z.log2_nonneg n). lia.
Qed.

(** Parsing the decimal text of a non-negative integer gives the double
    nearest to it. *)
Lemma parseInt_decimalString (t : Z) :
  0 <= t -> JS.parseInt (JS.decimalString t) = JS.toDouble t.
Proof.
  intros Ht. unfold JS.decimalString.
  destruct (Z.ltb_spec t 0); [lia |].
  set (fuel := Z.to_nat (Z.log2 t)).
  pose proof (decimalDigits_digits (S fuel) t Ht) as Hds.
  pose proof (decimalDigits_value (S fuel) t (conj Ht (fuel_enough t Ht))) as Hv.
  destruct (decimalDigits_head fuel t) as (d & ds & E).
  rewrite E in Hds, Hv. pose proof (Forall_inv Hds) as Hd.
  rewrite E. unfold JS.parseInt.
  change (JS.digitsString (d :: ds))
    with (String (JS.digitChar d) (JS.digitsString ds)).
  rewrite trimStart_digitChar by assumption.
  rewrite stripSign_digitChar by assumption.
  change (String (JS.digitChar d) (JS.digitsString ds))
    with (JS.digitsString (d :: ds)).
  rewrite digitPrefix_digitsString by assumption.
  now rewrite Hv.
Qed.

End ParsePrint.
Example parseInt_plain : JS.parseInt "1640995200" = JS.Fin 1640995200.
Proof. reflexivity. Qed.
Example parseInt_prefix : JS.parseInt " 12abc" = JS.Fin 12.
Proof. reflexivity. Qed.
Example parseInt_empty : JS.parseInt "" = JS.NaN.
Proof. reflexivity. Qed.
Example parseInt_word : JS.parseInt "never" = JS.NaN.
Proof. reflexivity. Qed.
Example parseInt_no_break_space : JS.parseInt (noBreakSpace ++ "12") = JS.Fin 12.
Proof. reflexivity. Qed.
Example parseInt_byte_order_mark :
  JS.parseInt (byteOrderMark ++ lineSeparator ++ " 7") = JS.Fin 7.
Proof. reflexivity. Qed.
Example parseInt_hex : JS.parseInt "0xdeadbeef" = JS.Fin 0.
Proof. reflexivity. Qed.
Example BigInt_hex : JS.BigInt_of_string "0x1F" = JS.Ok 31.
Proof. reflexivity. Qed.
Example BigInt_binary : JS.BigInt_of_string " 0b101 " = JS.Ok 5.
Proof. reflexivity. Qed.
Example BigInt_octal : JS.BigInt_of_string "0o17" = JS.Ok 15.
Proof. reflexivity. Qed.
Example BigInt_signed : JS.BigInt_of_string "-0012" = JS.Ok (-12).
Proof. reflexivity. Qed.
Example BigInt_signed_hex :
  JS.BigInt_of_string "-0x10" = JS.Throw (JS.ErrorObj "Cannot convert -0x10 to a BigInt").
Proof. reflexivity. Qed.
Example BigInt_fraction :
  JS.BigInt_of_string "1.5" = JS.Throw (JS.ErrorObj "Cannot convert 1.5 to a BigInt").
Proof. reflexivity. Qed.
Example BigInt_blank : JS.BigInt_of_string "   " = JS.Ok 0.
Proof. reflexivity. Qed.
Example parseInt_rounds :
  JS.parseInt "9007199254740993" = JS.Fin 9007199254740992.
Proof. vm_compute. reflexivity. Qed.
Example decimalString_ex : JS.decimalString 1640995200 = "1640995200".
Proof. vm_compute. reflexivity. Qed.

(* ===================================================================== *)
(** ** Timestamp normalisation *)
(* ===================================================================== *)

Section Normalisation.

Lemma normalize_cases (t : Z) :
  (t <= JS.MAX_SAFE_INTEGER -> Spec.normalize t = t) /\
  (JS.MAX_SAFE_INTEGER < t -> Spec.normalize t = JS.MAX_SAFE_INTEGER).
Proof.
  unfold Spec.normalize.
  destruct (Z.leb_spec t JS.MAX_SAFE_INTEGER); split; intros; lia || reflexivity.
Qed.

(** The clamp of the point-read path is the policy. *)
Lemma ledger_clamp_normalizes (t : Z) :
  0 <= t -> AttestationService.clamp t = JS.Fin (Spec.normalize t).
Proof.
  intros Ht. unfold AttestationService.clamp, Spec.normalize, JS.bigint_le.
  destruct (Z.leb_spec t JS.MAX_SAFE_INTEGER) as [Hle | Hgt]; [| reflexivity].
  unfold JS.Number_of_bigint. apply toDouble_small; [exact Ht |].
  rewrite MAX_SAFE_INTEGER_eq in Hle. lia.
Qed.

(** The clamp of the index path, applied to the double nearest to [t], is
    the policy: rounding never brings a value above [2^53 - 1] back under
    it. *)
Lemma index_clamp_normalizes (t : Z) :
  0 <= t -> GraphQLService.clamp (JS.toDouble t) = JS.Fin (Spec.normalize t).
Proof.
  intros Ht. unfold GraphQLService.clamp, Spec.normalize.
  destruct (Z.leb_spec t JS.MAX_SAFE_INTEGER) as [Hle | Hgt].
  - rewrite MAX_SAFE_INTEGER_eq in Hle.
    rewrite toDouble_small by lia. cbn [JS.le JS.lt].
    destruct (Z.ltb_spec JS.MAX_SAFE_INTEGER t) as [Hlt | _]; [| reflexivity].
    rewrite MAX_SAFE_INTEGER_eq in Hlt. lia.
  - rewrite MAX_SAFE_INTEGER_eq in Hgt.
    destruct (toDouble_large t) as [-> | (v & -> & Hv)]; [lia | reflexivity |].
    cbn [JS.le JS.lt].
    destruct (Z.ltb_spec JS.MAX_SAFE_INTEGER v) as [_ | Hge]; [reflexivity |].
    rewrite MAX_SAFE_INTEGER_eq in Hge. lia.
Qed.

Lemma toAttestationData_wire (g : GraphQLAttestation.t) (ts : Z * Z * Z) :
  wireTimes g ts ->
  exists a, GraphQLService.toAttestationData g = JS.Ok a /\
            AttestationData.uid a = GraphQLAttestation.id g /\
            normalizedTimes a ts.
Proof.
  destruct ts as [[t e] r]. intros (Ht & He & Hr & Et & Ee & Er).
  unfold GraphQLService.toAttestationData.
  rewrite Et, Ee, Er, !parseInt_decimalString by assumption.
  assert (Hnan : forall x, 0 <= x -> JS.isNaN (JS.toDouble x) = false).
  { intros x Hx. destruct (Z.lt_ge_cases x (2 ^ 53)) as [Hs | Hl].
    - now rewrite toDouble_small.
    - destruct (toDouble_large x Hl) as [-> | (v & -> & _)]; reflexivity. }
  rewrite !Hnan by assumption. cbn [orb].
  eexists. split; [reflexivity |]. cbn.
  rewrite !index_clamp_normalizes by assumption. auto.
Qed.

Lemma mapM_wire (gs : list GraphQLAttestation.t) (tss : list (Z * Z * Z)) :
  Forall2 wireTimes gs tss ->
  exists rs, Eff.mapM GraphQLService.toAttestationData gs = JS.Ok rs /\
             Forall2 normalizedTimes rs tss.
Proof.
  induction 1 as [| g ts gs tss Hg _ (rs & Ers & Hrs)].
  - exists []. split; [reflexivity | constructor].
  - destruct (toAttestationData_wire g ts Hg) as (a & Ea & _ & Ha).
    exists (a :: rs). cbn [Eff.mapM]. rewrite Ea, Ers.
    split; [reflexivity | now constructor].
Qed.

End Normalisation.

Ltac run_eff :=
  unfold Eff.run, Eff.tryCatch, Eff.bind, Eff.call, Eff.lift, Eff.ret, Eff.throw.

(* ===================================================================== *)
(** ** How the two index queries run *)
(* ===================================================================== *)

Section IndexQueries.

(** [queryAttestations] makes one request, whatever comes of it, and its
    result is the reading of the response with the errors wrapped. *)
Lemma queryAttestations_run (this : GraphQLService.t)
  (filters : GraphQLService.Filters.t) (log : list Call) :
  GraphQLService.queryAttestations this filters log =
    (match listAnswer this filters with
     | JS.Ok http =>
         match GraphQLService.readList http with
         | JS.Ok rs => JS.Ok rs
         | JS.Throw e =>
             JS.Throw (JS.ErrorObj
               ("GraphQL query failed: " ++ JS.errorMessage e "Unknown GraphQL error"))
         end
     | JS.Throw e =>
         JS.Throw (JS.ErrorObj
           ("GraphQL query failed: " ++ JS.errorMessage e "Unknown GraphQL error"))
     end,
     (log ++ [CallFetch (GraphQLService.getGraphQLEndpoint this) (listRequest filters)])%list).
Proof.
  unfold GraphQLService.queryAttestations, listAnswer, listRequest. run_eff.
  destruct (Platform.fetch _ _ _) as [http | e]; [| reflexivity].
  destruct (GraphQLService.readList http); reflexivity.
Qed.

Lemma queryAttestationsByUID_run (this : GraphQLService.t) (uid : string)
  (log : list Call) :
  GraphQLService.queryAttestationsByUID this uid log =
    (match uidAnswer this uid with
     | JS.Ok http =>
         match GraphQLService.readOne http with
         | JS.Ok r => JS.Ok r
         | JS.Throw e =>
             JS.Throw (JS.ErrorObj
               ("GraphQL attestation query failed: "
                ++ JS.errorMessage e "Unknown GraphQL error"))
         end
     | JS.Throw e =>
         JS.Throw (JS.ErrorObj
           ("GraphQL attestation query failed: "
            ++ JS.errorMessage e "Unknown GraphQL error"))
     end,
     (log ++ [CallFetch (GraphQLService.getGraphQLEndpoint this)
                (UIDQuery GraphQLService.uidQuery uid)])%list).
Proof.
  unfold GraphQLService.queryAttestationsByUID, uidAnswer. run_eff.
  destruct (Platform.fetch _ _ _) as [http | e]; [| reflexivity].
  destruct (GraphQLService.readOne http); reflexivity.
Qed.

Lemma readList_carries (http : HttpResponse.t) (records : list GraphQLAttestation.t) :
  carriesList http records ->
  GraphQLService.readList http = Eff.mapM GraphQLService.toAttestationData records.
Proof.
  intros (Hok & response & d & Ejson & Eerr & Edata & Elist).
  unfold GraphQLService.readList, GraphQLService.checkStatus.
  now rewrite Hok, Ejson, Eerr, Edata, Elist.
Qed.

Lemma readOne_carries (http : HttpResponse.t) (g : GraphQLAttestation.t) :
  carriesOne http g ->
  GraphQLService.readOne http =
    match GraphQLService.toAttestationData g with
    | JS.Throw e => JS.Throw e
    | JS.Ok a => JS.Ok (Some a)
    end.
Proof.
  intros (Hok & response & d & Ejson & Edata & Eone).
  unfold GraphQLService.readOne, GraphQLService.checkStatus.
  now rewrite Hok, Ejson, Edata, Eone.
Qed.

Lemma readOne_noRecord (http : HttpResponse.t) :
  carriesNoRecord http -> GraphQLService.readOne http = JS.Ok None.
Proof.
  intros (Hok & response & Ejson & Hnone).
  unfold GraphQLService.readOne, GraphQLService.checkStatus.
  rewrite Hok, Ejson.
  destruct Hnone as [-> | (d & -> & ->)]; reflexivity.
Qed.

End IndexQueries.

Section Responses.

Lemma toDouble_number (z : Z) : JS.isNaN (JS.toDouble z) = false.
Proof.
  unfold JS.toDouble. destruct (JS.roundMagnitude _); [reflexivity |].
  destruct (z <? 0); reflexivity.
Qed.

(** [parseInt] reads the integer a text starts with, and gives [NaN] when
    there is none. *)
Lemma parseInt_leadingInteger (s : string) :
  JS.parseInt s =
    match leadingInteger s with
    | Some z => JS.toDouble z
    | None => JS.NaN
    end.
Proof.
  unfold JS.parseInt, leadingInteger.
  destruct (JS.stripSign (JS.trimStart s)) as [minus rest].
  destruct (JS.digitPrefix rest); reflexivity.
Qed.

Lemma isNaN_parseInt (s : string) :
  JS.isNaN (JS.parseInt s) = negb (startsWithInteger s).
Proof.
  rewrite parseInt_leadingInteger. unfold startsWithInteger.
  destruct (leadingInteger s); [apply toDouble_number | reflexivity].
Qed.

Lemma toAttestationData_lacks (g : GraphQLAttestation.t) :
  lacksInteger g = true ->
  GraphQLService.toAttestationData g =
    JS.Throw (JS.ErrorObj
      ("Invalid time value in attestation data for UID " ++ GraphQLAttestation.id g)).
Proof.
  unfold lacksInteger, GraphQLService.toAttestationData. cbv zeta.
  rewrite !isNaN_parseInt. now intros ->.
Qed.

Lemma toAttestationData_reads (g : GraphQLAttestation.t) :
  lacksInteger g = false ->
  exists a, GraphQLService.toAttestationData g = JS.Ok a /\ readsLeadingIntegers g a.
Proof.
  unfold lacksInteger, startsWithInteger. intros H.
  apply orb_false_elim in H. destruct H as [H Hr].
  apply orb_false_elim in H. destruct H as [Ht He].
  destruct (leadingInteger (GraphQLAttestation.timeCreated g)) as [t |] eqn:Et;
    [| discriminate].
  destruct (leadingInteger (GraphQLAttestation.expirationTime g)) as [e |] eqn:Ee;
    [| discriminate].
  destruct (leadingInteger (GraphQLAttestation.revocationTime g)) as [r |] eqn:Er;
    [| discriminate].
  unfold GraphQLService.toAttestationData. cbv zeta.
  rewrite !parseInt_leadingInteger, Et, Ee, Er, !toDouble_number. cbn [orb].
  eexists. split; [reflexivity |]. split; [reflexivity |].
  exists t, e, r. cbn. repeat split; assumption.
Qed.

(** The traversal stops at the first record with a timestamp that does not
    start with an integer. *)
Lemma mapM_first_lacking (before after : list GraphQLAttestation.t)
  (g : GraphQLAttestation.t) :
  Forall (fun x => lacksInteger x = false) before ->
  lacksInteger g = true ->
  Eff.mapM GraphQLService.toAttestationData (before ++ g :: after) =
    JS.Throw (JS.ErrorObj
      ("Invalid time value in attestation data for UID " ++ GraphQLAttestation.id g)).
Proof.
  intros Hbefore Hg. induction Hbefore as [| x before Hx _ IH]; cbn [app Eff.mapM].
  - now rewrite toAttestationData_lacks.
  - destruct (toAttestationData_reads x Hx) as (a & -> & _). now rewrite IH.
Qed.

Lemma mapM_some_lacking (gs : list GraphQLAttestation.t) :
  Exists (fun g => lacksInteger g = true) gs ->
  exists e, Eff.mapM GraphQLService.toAttestationData gs = JS.Throw e.
Proof.
  induction 1 as [g gs Hg | g gs _ (e & IH)]; cbn [Eff.mapM].
  - rewrite toAttestationData_lacks by assumption. eauto.
  - destruct (GraphQLService.toAttestationData g); [| eauto].
    rewrite IH. eauto.
Qed.

Lemma mapM_reads (gs : list GraphQLAttestation.t) :
  Forall (fun g => lacksInteger g = false) gs ->
  exists rs,
    Eff.mapM GraphQLService.toAttestationData gs = JS.Ok rs /\
    Forall2 readsLeadingIntegers gs rs.
Proof.
  induction 1 as [| g gs Hg _ (rs & IH & Hrs)]; cbn [Eff.mapM].
  - exists []. split; [reflexivity | constructor].
  - destruct (toAttestationData_reads g Hg) as (a & -> & Ha).
    rewrite IH. exists (a :: rs). split; [reflexivity | now constructor].
Qed.

Lemma reads_identifiers (gs : list GraphQLAttestation.t) (rs : list AttestationData.t) :
  Forall2 readsLeadingIntegers gs rs ->
  map AttestationData.uid rs = map GraphQLAttestation.id gs.
Proof.
  induction 1 as [| g a gs rs [Hid _] _ IH]; [reflexivity |].
  cbn [map]. now rewrite Hid, IH.
Qed.

End Responses.

(** C3.  A non-negative ledger timestamp at most [2^53 - 1] passes unchanged
    and a larger one becomes exactly [2^53 - 1], on the point-read path
    (bigint) and on the index path (decimal text); and the records returned
    by [verifyAttestation], [queryAttestations] and [queryAttestationsByUID]
    carry the three timestamps normalised that way. *)
Theorem timestamps_saturate :
  (forall t, 0 <= t ->
     (t <= JS.MAX_SAFE_INTEGER ->
        AttestationService.clamp t = JS.Fin t /\
        GraphQLService.clamp (JS.parseInt (JS.decimalString t)) = JS.Fin t) /\
     (JS.MAX_SAFE_INTEGER < t ->
        AttestationService.clamp t = JS.Fin JS.MAX_SAFE_INTEGER /\
        GraphQLService.clamp (JS.parseInt (JS.decimalString t))
          = JS.Fin JS.MAX_SAFE_INTEGER)) /\
  (forall service input attestation log,
     EAS.getAttestation (AttestationService.eas service)
       (VerifyAttestationInput.uid input) = JS.Ok (Some attestation) ->
     pointReadAbsent (Some attestation) = false ->
     0 <= EASAttestation.time attestation ->
     0 <= EASAttestation.expirationTime attestation ->
     0 <= EASAttestation.revocationTime attestation ->
     exists a,
       fst (AttestationService.verifyAttestation service input log) = JS.Ok (Some a) /\
       normalizedTimes a (EASAttestation.time attestation,
                          EASAttestation.expirationTime attestation,
                          EASAttestation.revocationTime attestation)) /\
  (forall this filters http records tss,
     listAnswer this filters = JS.Ok http ->
     carriesList http records ->
     Forall2 wireTimes records tss ->
     exists rs,
       fst (Eff.run (GraphQLService.queryAttestations this filters)) = JS.Ok rs /\
       Forall2 normalizedTimes rs tss) /\
  (forall this uid http record ts,
     uidAnswer this uid = JS.Ok http ->
     carriesOne http record ->
     wireTimes record ts ->
     exists a,
       fst (Eff.run (GraphQLService.queryAttestationsByUID this uid)) = JS.Ok (Some a) /\
       normalizedTimes a ts).
Proof.
  repeat split.
  - rewrite ledger_clamp_normalizes by assumption.
    f_equal. now apply normalize_cases.
  - rewrite parseInt_decimalString, index_clamp_normalizes by assumption.
    f_equal. now apply normalize_cases.
  - rewrite ledger_clamp_normalizes by assumption.
    f_equal. now apply normalize_cases.
  - rewrite parseInt_decimalString, index_clamp_normalizes by assumption.
    f_equal. now apply normalize_cases.
  - intros service input attestation log Eget Habs Ht He Hr.
    cbn [pointReadAbsent] in Habs.
    unfold AttestationService.verifyAttestation. run_eff.
    rewrite Eget, Habs. eexists. split; [reflexivity |].
    cbn. rewrite !ledger_clamp_normalizes by assumption. auto.
  - intros this filters http records tss Efetch Hcarries Hwire.
    destruct (mapM_wire records tss Hwire) as (rs & Ers & Hrs).
    exists rs. split; [| exact Hrs].
    unfold Eff.run. rewrite queryAttestations_run, Efetch.
    rewrite (readList_carries http records Hcarries), Ers. reflexivity.
  - intros this uid http record ts Efetch Hcarries Hwire.
    destruct (toAttestationData_wire record ts Hwire) as (a & Ea & _ & Ha).
    exists a. split; [| exact Ha].
    unfold Eff.run. rewrite queryAttestationsByUID_run, Efetch.
    rewrite (readOne_carries http record Hcarries), Ea. reflexivity.
Qed.

(** Witness of C3: a timestamp of 2022, one of [2^60] and one of [2^200]
    on each path. *)
Lemma timestamps_saturate_witness :
  (AttestationService.clamp 1640995200 = JS.Fin 1640995200 /\
   GraphQLService.clamp (JS.parseInt (JS.decimalString 1640995200))
     = JS.Fin 1640995200) /\
  (AttestationService.clamp (2 ^ 60) = JS.Fin JS.MAX_SAFE_INTEGER /\
   GraphQLService.clamp (JS.parseInt (JS.decimalString (2 ^ 60)))
     = JS.Fin JS.MAX_SAFE_INTEGER) /\
  (exists a,
     fst (AttestationService.verifyAttestation
            (Sample.service (Some (Sample.ledgerRecord (2 ^ 60) (2 ^ 200)))
               (Sample.transaction None) (JS.Throw JS.NonError))
            Sample.verifyInput []) = JS.Ok (Some a) /\
     normalizedTimes a (1640995200, 2 ^ 60, 2 ^ 200)) /\
  (exists rs,
     fst (Eff.run (GraphQLService.queryAttestations
            (Sample.index (JS.Ok (okResponse (Sample.listBody
               [Sample.indexRecord "0xmockattestationuid" "1640995200"
                  "1152921504606846976" "0"]))))
            (Sample.filters None None))) = JS.Ok rs /\
     Forall2 normalizedTimes rs [(1640995200, 2 ^ 60, 0)]) /\
  (exists a,
     fst (Eff.run (GraphQLService.queryAttestationsByUID
            (Sample.index (JS.Ok (okResponse (Sample.oneBody (Some
               (Sample.indexRecord "0xmockattestationuid" "1640995200"
                  "1152921504606846976" "0"))))))
            "0xmockattestationuid")) = JS.Ok (Some a) /\
     normalizedTimes a (1640995200, 2 ^ 60, 0)).
Proof.
  destruct timestamps_saturate as (Hclamp & Hread & Hlist & Hone).
  split; [| split; [| split; [| split]]].
  - apply (Hclamp 1640995200); [lia | vm_compute; discriminate].
  - apply (Hclamp (2 ^ 60)); [lia | vm_compute; reflexivity].
  - apply (Hread _ Sample.verifyInput (Sample.ledgerRecord (2 ^ 60) (2 ^ 200)));
      [reflexivity | reflexivity | cbn; lia | cbn; lia | cbn; lia].
  - eapply Hlist.
    + reflexivity.
    + split; [reflexivity | do 2 eexists; repeat split; reflexivity].
    + constructor; [| constructor].
      vm_compute. repeat split; try discriminate; reflexivity.
  - eapply Hone.
    + reflexivity.
    + split; [reflexivity | do 2 eexists; repeat split; reflexivity].
    + vm_compute. repeat split; try discriminate; reflexivity.
Defined.

(* ===================================================================== *)
(** ** Verification and the derived flags *)
(* ===================================================================== *)

(** C1.  When [verifyAttestation] finds a record, the handler returns it
    with [isValid = (revocationTime === 0) && !isExpired],
    [isRevoked = revocationTime > 0] and
    [isExpired = expirationTime > 0 && expirationTime < now], where [now]
    is [Date.now()] in whole seconds; a record with [revocationTime > 0] is
    reported revoked and not valid, whatever its expiration. *)
Theorem verify_derived_flags
  (P : Platform.t) (args : VerifyAttestationInput.t)
  (service : AttestationService.t) (a : AttestationData.t)
  (log log1 log2 : list Call) :
  AttestationService.new P (VerifyAttestationInput.network args) log
    = (JS.Ok service, log1) ->
  AttestationService.verifyAttestation service args log1 = (JS.Ok (Some a), log2) ->
  let now := JS.Fin (Platform.now P / 1000) in
  let revoked := JS.gt (AttestationData.revocationTime a) (JS.Fin 0) in
  let expired :=
    JS.gt (AttestationData.expirationTime a) (JS.Fin 0)
    && JS.lt (AttestationData.expirationTime a) now in
  let valid :=
    JS.strictEq (AttestationData.revocationTime a) (JS.Fin 0) && negb expired in
  (exists message,
     Handlers.handleVerifyAttestation P args log =
       (JS.Ok (Handlers.mkResult true message
          (Some {| Handlers.Verified.attestation := a;
                   Handlers.Verified.isValid := valid;
                   Handlers.Verified.isRevoked := revoked;
                   Handlers.Verified.isExpired := expired |})), log2))
  /\ (revoked = true -> valid = false).
Proof.
  intros Enew Everify now revoked expired valid. split.
  - unfold Handlers.handleVerifyAttestation. run_eff.
    rewrite Enew, Everify. eexists. reflexivity.
  - subst valid revoked. unfold JS.gt.
    destruct (AttestationData.revocationTime a) as [| | | z]; cbn;
      try discriminate; try reflexivity.
    intros Hz. destruct (Z.eqb_spec z 0) as [-> | _]; [discriminate | reflexivity].
Qed.

(** Witness of C1: the mocked record, revoked in 2022 and never expiring,
    verified at a later date. *)
Lemma verify_derived_flags_witness :
  exists message,
    Handlers.handleVerifyAttestation
      (Sample.platform
         (Sample.eas (Some (Sample.ledgerRecord 0 1641000000)) (Sample.transaction None))
         (JS.Throw JS.NonError) 1700000000000)
      Sample.verifyInput [] =
    (JS.Ok (Handlers.mkResult true message
       (Some {| Handlers.Verified.attestation :=
                  {| AttestationData.uid := "0xmockattestationuid";
                     AttestationData.schema := "0xmockschema";
                     AttestationData.recipient := "0x1234567890123456789012345678901234567890";
                     AttestationData.attester := "0x0987654321098765432109876543210987654321";
                     AttestationData.revocable := true;
                     AttestationData.refUID := ZERO_UID;
                     AttestationData.data := "0xmockdata";
                     AttestationData.time := JS.Fin 1640995200;
                     AttestationData.expirationTime := JS.Fin 0;
                     AttestationData.revocationTime := JS.Fin 1641000000 |};
                Handlers.Verified.isValid := false;
                Handlers.Verified.isRevoked := true;
                Handlers.Verified.isExpired := false |})),
     [CallGetAttestation "0xmockattestationuid"]).
Proof.
  refine (proj1 (verify_derived_flags _ Sample.verifyInput _ _ [] [] _ _ _)).
  - reflexivity.
  - vm_compute. reflexivity.
Defined.

(* ===================================================================== *)
(** ** Absent records *)
(* ===================================================================== *)

(** The absent case of [revokeAttestation]: the error, and the calls made. *)
Lemma revoke_absent_throws
  (service : AttestationService.t) (input : RevokeAttestationInput.t)
  (found : option EASAttestation.t) (log : list Call) :
  EAS.getAttestation (AttestationService.eas service)
    (RevokeAttestationInput.uid input) = JS.Ok found ->
  pointReadAbsent found = true ->
  AttestationService.revokeAttestation service input log =
    (JS.Throw (JS.ErrorObj
       ("Failed to revoke attestation: Attestation "
        ++ RevokeAttestationInput.uid input ++ " not found")),
     (log ++ [CallGetAttestation (RevokeAttestationInput.uid input)])%list).
Proof.
  intros Eget Habs.
  unfold AttestationService.revokeAttestation. run_eff. rewrite Eget.
  destruct found as [attestation |]; cbn [pointReadAbsent] in Habs.
  - rewrite Habs. reflexivity.
  - reflexivity.
Qed.

(** C4.  When the point read before a revocation finds no record or the
    zero-filled one, [revokeAttestation] throws an error that names the
    identifier, and the only outside call it has made is that read: no
    [revoke] is issued. *)
Theorem revoke_absent_not_found
  (service : AttestationService.t) (input : RevokeAttestationInput.t)
  (found : option EASAttestation.t) (log : list Call) :
  EAS.getAttestation (AttestationService.eas service)
    (RevokeAttestationInput.uid input) = JS.Ok found ->
  pointReadAbsent found = true ->
  AttestationService.revokeAttestation service input log =
    (JS.Throw (JS.ErrorObj
       ("Failed to revoke attestation: Attestation "
        ++ RevokeAttestationInput.uid input ++ " not found")),
     (log ++ [CallGetAttestation (RevokeAttestationInput.uid input)])%list)
  /\ (noRevoke log ->
      noRevoke (snd (AttestationService.revokeAttestation service input log))).
Proof.
  intros Eget Habs.
  pose proof (revoke_absent_throws service input found log Eget Habs) as E.
  split; [exact E |].
  rewrite E. cbn [snd]. intros Hlog r Hin.
  apply in_app_or in Hin. destruct Hin as [Hin | [Hin | []]].
  - exact (Hlog r Hin).
  - discriminate Hin.
Qed.

(** Witness of C4: the ledger answers the zero-filled record. *)
Lemma revoke_absent_not_found_witness :
  AttestationService.revokeAttestation
    (Sample.service (Some Sample.zeroRecord) (Sample.transaction None)
       (JS.Throw JS.NonError))
    Sample.revokeInput [] =
    (JS.Throw (JS.ErrorObj
       "Failed to revoke attestation: Attestation 0xnonexistent not found"),
     [CallGetAttestation "0xnonexistent"])
  /\ noRevoke (snd (AttestationService.revokeAttestation
       (Sample.service (Some Sample.zeroRecord) (Sample.transaction None)
          (JS.Throw JS.NonError))
       Sample.revokeInput [])).
Proof.
  destruct (revoke_absent_not_found
              (Sample.service (Some Sample.zeroRecord) (Sample.transaction None)
                 (JS.Throw JS.NonError))
              Sample.revokeInput (Some Sample.zeroRecord) [] eq_refl eq_refl)
    as [E Hno].
  split; [exact E |].
  apply Hno. intros r [].
Defined.

(** C2, as the code has it.  When the ledger point read finds no record or
    the zero-filled one, [verifyAttestation] returns the absent signal and
    [revokeAttestation] fails with "not found"; [verifyAttestation] never
    returns a record whose identifier is the all-zero one.
    [queryAttestationsByUID] returns the absent signal when the response
    carries no record.  The index queries do not look at identifiers: a
    record the index returns is passed on with the identifier it carries,
    by [queryAttestationsByUID] and, record by record, by
    [queryAttestations]. *)
Theorem point_reads_translate_sentinel :
  (forall service network uid found log,
     EAS.getAttestation (AttestationService.eas service) uid = JS.Ok found ->
     pointReadAbsent found = true ->
     AttestationService.verifyAttestation service
       (VerifyAttestationInput.mk network uid) log
       = (JS.Ok None, (log ++ [CallGetAttestation uid])%list) /\
     fst (AttestationService.revokeAttestation service
            (RevokeAttestationInput.mk network uid) log)
       = JS.Throw (JS.ErrorObj
           ("Failed to revoke attestation: Attestation " ++ uid ++ " not found"))) /\
  (forall service input log a,
     fst (AttestationService.verifyAttestation service input log) = JS.Ok (Some a) ->
     AttestationData.uid a <> ZERO_UID) /\
  (forall this uid http,
     uidAnswer this uid = JS.Ok http ->
     carriesNoRecord http ->
     fst (Eff.run (GraphQLService.queryAttestationsByUID this uid)) = JS.Ok None) /\
  (forall this uid http g,
     uidAnswer this uid = JS.Ok http ->
     carriesOne http g ->
     lacksInteger g = false ->
     exists a,
       fst (Eff.run (GraphQLService.queryAttestationsByUID this uid)) = JS.Ok (Some a) /\
       AttestationData.uid a = GraphQLAttestation.id g) /\
  (forall this filters http records,
     listAnswer this filters = JS.Ok http ->
     carriesList http records ->
     Forall (fun g => lacksInteger g = false) records ->
     exists rs,
       fst (Eff.run (GraphQLService.queryAttestations this filters)) = JS.Ok rs /\
       map AttestationData.uid rs = map GraphQLAttestation.id records).
Proof.
  split; [| split; [| split; [| split]]].
  - intros service network uid found log Eget Habs. split.
    + unfold AttestationService.verifyAttestation. run_eff.
      cbn [VerifyAttestationInput.uid]. rewrite Eget.
      destruct found as [attestation |]; cbn [pointReadAbsent] in Habs;
        [rewrite Habs |]; reflexivity.
    + now rewrite (revoke_absent_throws service
                     (RevokeAttestationInput.mk network uid) found log Eget Habs).
  - intros service input log a.
    unfold AttestationService.verifyAttestation. run_eff.
    destruct (EAS.getAttestation _ _) as [[attestation |] | e]; cbn;
      try discriminate.
    destruct (String.eqb_spec (EASAttestation.uid attestation) ZERO_UID) as [| Hne];
      cbn; [discriminate |].
    intros [= <-]. exact Hne.
  - intros this uid http Efetch Hnone.
    unfold Eff.run. rewrite queryAttestationsByUID_run, Efetch.
    now rewrite (readOne_noRecord http Hnone).
  - intros this uid http g Efetch Hcarries Hg.
    unfold Eff.run. rewrite queryAttestationsByUID_run, Efetch.
    rewrite (readOne_carries http g Hcarries).
    destruct (toAttestationData_reads g Hg) as (a & -> & Hid & _).
    exists a. split; [reflexivity | exact Hid].
  - intros this filters http records Efetch Hcarries Hall.
    unfold Eff.run. rewrite queryAttestations_run, Efetch.
    rewrite (readList_carries http records Hcarries).
    destruct (mapM_reads records Hall) as (rs & -> & Hrs).
    exists rs. split; [reflexivity | now apply reads_identifiers].
Qed.

(** Witness of C2: the ledger answers the zero-filled record; the index
    answers [attestation: null], a body holding nothing but error entries,
    and records of which one carries the all-zero identifier. *)
Lemma point_reads_translate_sentinel_witness :
  (AttestationService.verifyAttestation
     (Sample.service (Some Sample.zeroRecord) (Sample.transaction None)
        (JS.Throw JS.NonError))
     (VerifyAttestationInput.mk testnet "0xnonexistent") []
     = (JS.Ok None, [CallGetAttestation "0xnonexistent"]) /\
   fst (AttestationService.revokeAttestation
          (Sample.service (Some Sample.zeroRecord) (Sample.transaction None)
             (JS.Throw JS.NonError))
          (RevokeAttestationInput.mk testnet "0xnonexistent") [])
     = JS.Throw (JS.ErrorObj
         "Failed to revoke attestation: Attestation 0xnonexistent not found")) /\
  AttestationData.uid
    {| AttestationData.uid := "0xmockattestationuid";
       AttestationData.schema := "0xmockschema";
       AttestationData.recipient := "0x1234567890123456789012345678901234567890";
       AttestationData.attester := "0x0987654321098765432109876543210987654321";
       AttestationData.revocable := true;
       AttestationData.refUID := ZERO_UID;
       AttestationData.data := "0xmockdata";
       AttestationData.time := JS.Fin 1640995200;
       AttestationData.expirationTime := JS.Fin 0;
       AttestationData.revocationTime := JS.Fin 0 |} <> ZERO_UID /\
  fst (Eff.run (GraphQLService.queryAttestationsByUID
         (Sample.index (JS.Ok (okResponse (Sample.oneBody None))))
         "0xnonexistent")) = JS.Ok None /\
  fst (Eff.run (GraphQLService.queryAttestationsByUID
         (Sample.index (JS.Ok (okResponse (Sample.emptyBody (Some ["Rate limited"])))))
         "0xnonexistent")) = JS.Ok None /\
  (exists a,
     fst (Eff.run (GraphQLService.queryAttestationsByUID
            (Sample.index (JS.Ok (okResponse (Sample.oneBody
               (Some (Sample.indexRecord ZERO_UID "0" "0" "0"))))))
            ZERO_UID)) = JS.Ok (Some a) /\
     AttestationData.uid a = ZERO_UID) /\
  (exists rs,
     fst (Eff.run (GraphQLService.queryAttestations
            (Sample.index (JS.Ok (okResponse (Sample.listBody
               [Sample.indexRecord "0xfirst" "1640995200" "0" "0";
                Sample.indexRecord ZERO_UID "0" "0" "0"]))))
            (Sample.filters None None))) = JS.Ok rs /\
     map AttestationData.uid rs = ["0xfirst"; ZERO_UID]).
Proof.
  destruct point_reads_translate_sentinel
    as (Habsent & Hnever & Hnone & Hone & Hlist).
  split; [| split; [| split; [| split; [| split]]]].
  - apply (Habsent _ testnet "0xnonexistent" (Some Sample.zeroRecord) []);
      reflexivity.
  - apply (Hnever
             (Sample.service (Some (Sample.ledgerRecord 0 0)) (Sample.transaction None)
                (JS.Throw JS.NonError))
             Sample.verifyInput []).
    vm_compute. reflexivity.
  - eapply Hnone; [reflexivity |].
    split; [reflexivity |]. eexists. split; [reflexivity |].
    right. eexists. split; reflexivity.
  - eapply Hnone; [reflexivity |].
    split; [reflexivity |]. eexists. split; [reflexivity |].
    left. reflexivity.
  - eapply (Hone _ _ _ (Sample.indexRecord ZERO_UID "0" "0" "0")).
    + reflexivity.
    + split; [reflexivity | do 2 eexists; repeat split; reflexivity].
    + reflexivity.
  - eapply (Hlist _ _ _
             [Sample.indexRecord "0xfirst" "1640995200" "0" "0";
              Sample.indexRecord ZERO_UID "0" "0" "0"]).
    + reflexivity.
    + split; [reflexivity | do 2 eexists; repeat split; reflexivity].
    + repeat constructor.
Defined.

(** Counterexample to C2 as stated: an index response whose record carries
    the all-zero identifier is returned by [queryAttestationsByUID], and by
    [queryAttestations], as a record with that identifier. *)
Lemma index_surfaces_zero_uid :
  (exists a,
     fst (Eff.run (GraphQLService.queryAttestationsByUID
            (Sample.index (JS.Ok (okResponse (Sample.oneBody
               (Some (Sample.indexRecord ZERO_UID "0" "0" "0"))))))
            ZERO_UID)) = JS.Ok (Some a) /\
     AttestationData.uid a = ZERO_UID) /\
  (exists a,
     fst (Eff.run (GraphQLService.queryAttestations
            (Sample.index (JS.Ok (okResponse (Sample.listBody
               [Sample.indexRecord ZERO_UID "0" "0" "0"]))))
            (Sample.filters None None))) = JS.Ok [a] /\
     AttestationData.uid a = ZERO_UID).
Proof.
  split; eexists; split; vm_compute; reflexivity.
Qed.

(* ===================================================================== *)
(** ** The list query: clauses and limit *)
(* ===================================================================== *)



(** C10.  A limit of [0], like a missing limit, is replaced by [10] in the
    variables of the request sent to the index, on [queryAttestations] and
    through [listAttestations]. *)
Theorem zero_or_missing_limit_defaults_to_10 :
  (forall this filters,
     GraphQLService.Filters.limit filters = None \/
     GraphQLService.Filters.limit filters = Some (JS.Fin 0) ->
     exists endpoint query variables,
       snd (Eff.run (GraphQLService.queryAttestations this filters))
         = [CallFetch endpoint (ListQuery query variables)] /\
       Variables.limit variables = JS.Fin 10) /\
  (forall service input,
     ListAttestationsInput.limit input = None \/
     ListAttestationsInput.limit input = Some (JS.Fin 0) ->
     exists endpoint query variables,
       snd (Eff.run (AttestationService.listAttestations service input))
         = [CallFetch endpoint (ListQuery query variables)] /\
       Variables.limit variables = JS.Fin 10).
Proof.
  split.
  - intros this filters Hlimit. unfold Eff.run.
    rewrite queryAttestations_run. cbn [snd app]. unfold listRequest.
    do 3 eexists. split; [reflexivity |].
    unfold GraphQLService.listVariables. cbn [Variables.limit].
    destruct Hlimit as [-> | ->]; reflexivity.
  - intros service input Hlimit.
    unfold AttestationService.listAttestations, Eff.run, Eff.tryCatch.
    rewrite queryAttestations_run. unfold listRequest.
    do 3 eexists. split.
    + cbn beta iota.
      destruct (listAnswer _ _) as [http | e]; [| reflexivity].
      destruct (GraphQLService.readList http); reflexivity.
    + unfold GraphQLService.listVariables.
      cbn [Variables.limit GraphQLService.Filters.limit].
      destruct Hlimit as [-> | ->]; reflexivity.
Qed.

(** Witness of C10: an explicit limit of zero. *)
Lemma zero_or_missing_limit_defaults_to_10_witness :
  (exists endpoint query variables,
     snd (Eff.run (GraphQLService.queryAttestations
            (Sample.index (JS.Ok (okResponse (Sample.listBody []))))
            (Sample.filters None (Some (JS.Fin 0)))))
       = [CallFetch endpoint (ListQuery query variables)] /\
     Variables.limit variables = JS.Fin 10) /\
  (exists endpoint query variables,
     snd (Eff.run (AttestationService.listAttestations
            (Sample.service None (Sample.transaction None)
               (JS.Ok (okResponse (Sample.listBody []))))
            (Sample.listInput (Some (JS.Fin 0)))))
       = [CallFetch endpoint (ListQuery query variables)] /\
     Variables.limit variables = JS.Fin 10).
Proof.
  destruct zero_or_missing_limit_defaults_to_10 as (Hquery & Hlist).
  split.
  - apply Hquery. right. reflexivity.
  - apply Hlist. right. reflexivity.
Defined.

(* ===================================================================== *)
(** ** Responses of the index: corrupt timestamps *)
(* ===================================================================== *)




(* ===================================================================== *)
(** ** Responses of the index: error entries and a missing payload *)
(* ===================================================================== *)

(** C7, the code at the inputs where it departs from the rule its sibling
    applies.  For a successful response whose body holds error entries and
    no [data], and for one whose body holds nothing at all,
    [queryAttestationsByUID] returns the absent signal where
    [queryAttestations] fails with "GraphQL errors: ..." and "No data
    returned from GraphQL query"; for a body that holds error entries next
    to a record, it returns the record. *)
Lemma queryOne_skips_errors_and_missing_data :
  fst (Eff.run (GraphQLService.queryAttestationsByUID
         (Sample.index (JS.Ok (okResponse
            (Sample.emptyBody (Some ["Cannot query field"; "Rate limited"])))))
         "0xmockattestationuid")) = JS.Ok None /\
  fst (Eff.run (GraphQLService.queryAttestations
         (Sample.index (JS.Ok (okResponse
            (Sample.emptyBody (Some ["Cannot query field"; "Rate limited"])))))
         (Sample.filters None None))) =
    JS.Throw (JS.ErrorObj
      "GraphQL query failed: GraphQL errors: Cannot query field, Rate limited") /\
  fst (Eff.run (GraphQLService.queryAttestationsByUID
         (Sample.index (JS.Ok (okResponse (Sample.emptyBody None))))
         "0xmockattestationuid")) = JS.Ok None /\
  fst (Eff.run (GraphQLService.queryAttestations
         (Sample.index (JS.Ok (okResponse (Sample.emptyBody None))))
         (Sample.filters None None))) =
    JS.Throw (JS.ErrorObj
      "GraphQL query failed: No data returned from GraphQL query") /\
  (exists a,
     fst (Eff.run (GraphQLService.queryAttestationsByUID
            (Sample.index (JS.Ok (okResponse
               {| GraphQLResponse.data :=
                    Some {| ResponseData.attestations := Missing;
                            ResponseData.attestation :=
                              Some (Sample.indexRecord "0xmockattestationuid"
                                      "1640995200" "0" "0") |};
                  GraphQLResponse.errors := Some ["Partial failure"] |})))
            "0xmockattestationuid")) = JS.Ok (Some a)).
Proof.
  repeat split; try (vm_compute; reflexivity).
  eexists. vm_compute. reflexivity.
Qed.

(* ===================================================================== *)
(** ** The deadline of a request *)
(* ===================================================================== *)

Section Deadline.

Variable this : GraphQLService.t.
Variable T : Transport.t.
Hypothesis Hsignal : honoursSignal (GraphQLService.platform this) T.

Lemma listAnswer_over (filters : GraphQLService.Filters.t) :
  listAnswer this filters =
    fetchOver T (GraphQLService.getGraphQLEndpoint this) (listRequest filters) 30000.
Proof. unfold listAnswer. apply Hsignal. Qed.

Lemma uidAnswer_over (uid : string) :
  uidAnswer this uid =
    fetchOver T (GraphQLService.getGraphQLEndpoint this)
      (UIDQuery GraphQLService.uidQuery uid) 30000.
Proof. unfold uidAnswer. apply Hsignal. Qed.

End Deadline.

Lemma fetchOver_late (T : Transport.t) (endpoint : string) (body : RequestBody)
  (timeout : Z) :
  timeout <= Transport.latency T endpoint body ->
  fetchOver T endpoint body timeout = JS.Throw (Transport.abortError T).
Proof.
  intros H. unfold fetchOver.
  destruct (Z.leb_spec timeout (Transport.latency T endpoint body)); [reflexivity | lia].
Qed.

Lemma fetchOver_in_time (T : Transport.t) (endpoint : string) (body : RequestBody)
  (timeout : Z) :
  Transport.latency T endpoint body < timeout ->
  fetchOver T endpoint body timeout = Transport.answer T endpoint body.
Proof.
  intros H. unfold fetchOver.
  destruct (Z.leb_spec timeout (Transport.latency T endpoint body)); [lia | reflexivity].
Qed.




(* ===================================================================== *)
(** ** Writes: the derived identifier *)
(* ===================================================================== *)

(** C8, as the code has it.  After a confirmed write, a derivation that is
    absent or gives no identifier makes [issueAttestation] and
    [createSchema] return ["unknown"] with the transaction hash; a
    derivation that throws makes them fail with the wrapped error. *)
Theorem derivation_soft_failure :
  (forall this input request tx log,
     AttestationService.attestationOf input = JS.Ok request ->
     EAS.attest (AttestationService.eas this) request = JS.Ok tx ->
     EASTransaction.wait tx = JS.Ok tt ->
     (derivesNothing (EASTransaction.getAttestationUID tx) ->
      fst (AttestationService.issueAttestation this input log) =
        JS.Ok {| AttestationService.Issued.uid := "unknown";
                 AttestationService.Issued.txHash :=
                   JS.string_or (Some (EASTransaction.hash tx)) "unknown" |}) /\
     (forall e,
        EASTransaction.getAttestationUID tx = Some (JS.Throw e) ->
        fst (AttestationService.issueAttestation this input log) =
          JS.Throw (JS.ErrorObj
            ("Failed to issue attestation: "
             ++ JS.errorMessage e "Unknown error occurred")))) /\
  (forall this input registry tx log,
     EAS.getSchemaRegistry (AttestationService.eas this) = JS.Ok registry ->
     EASSchemaRegistry.register registry (CreateSchemaInput.schema input)
       (JS.string_or (CreateSchemaInput.resolverAddress input) ZERO_ADDRESS)
       (CreateSchemaInput.revocable input) = JS.Ok tx ->
     EASTransaction.wait tx = JS.Ok tt ->
     (derivesNothing (EASTransaction.getSchemaUID tx) ->
      fst (AttestationService.createSchema this input log) =
        JS.Ok {| AttestationService.Issued.uid := "unknown";
                 AttestationService.Issued.txHash :=
                   JS.string_or (Some (EASTransaction.hash tx)) "unknown" |}) /\
     (forall e,
        EASTransaction.getSchemaUID tx = Some (JS.Throw e) ->
        fst (AttestationService.createSchema this input log) =
          JS.Throw (JS.ErrorObj
            ("Failed to create schema: "
             ++ JS.errorMessage e "Unknown error occurred")))).
Proof.
  split.
  - intros this input request tx log Ereq Eattest Ewait. split.
    + intros Hnothing.
      unfold AttestationService.issueAttestation, AttestationService.optionalCall.
      run_eff. rewrite Ereq, Eattest, Ewait.
      destruct Hnothing as [-> | (r & -> & Hr)]; [reflexivity |].
      destruct r as [[| c r] |]; [reflexivity | discriminate | reflexivity].
    + intros e Ee.
      unfold AttestationService.issueAttestation, AttestationService.optionalCall.
      run_eff. now rewrite Ereq, Eattest, Ewait, Ee.
  - intros this input registry tx log Eregistry Eregister Ewait. split.
    + intros Hnothing.
      unfold AttestationService.createSchema, AttestationService.optionalCall.
      run_eff. rewrite Eregistry, Eregister, Ewait.
      destruct Hnothing as [-> | (r & -> & Hr)]; [reflexivity |].
      destruct r as [[| c r] |]; [reflexivity | discriminate | reflexivity].
    + intros e Ee.
      unfold AttestationService.createSchema, AttestationService.optionalCall.
      run_eff. now rewrite Eregistry, Eregister, Ewait, Ee.
Qed.

(** Witness of C8: the mocked transaction without derivation method, and
    one whose derivation rejects. *)
Lemma derivation_soft_failure_witness :
  (fst (AttestationService.issueAttestation
          (Sample.service None (Sample.transaction None) (JS.Throw JS.NonError))
          Sample.issueInput []) =
     JS.Ok {| AttestationService.Issued.uid := "unknown";
              AttestationService.Issued.txHash := "0xmocktxhash" |} /\
   fst (AttestationService.issueAttestation
          (Sample.service None
             (Sample.transaction (Some (JS.Throw (JS.ErrorObj "no logs"))))
             (JS.Throw JS.NonError))
          Sample.issueInput []) =
     JS.Throw (JS.ErrorObj "Failed to issue attestation: no logs")) /\
  (fst (AttestationService.createSchema
          (Sample.service None (Sample.transaction (Some (JS.Ok (Some ""))))
             (JS.Throw JS.NonError))
          Sample.schemaInput []) =
     JS.Ok {| AttestationService.Issued.uid := "unknown";
              AttestationService.Issued.txHash := "0xmocktxhash" |} /\
   fst (AttestationService.createSchema
          (Sample.service None
             (Sample.transaction (Some (JS.Throw (JS.ErrorObj "no logs"))))
             (JS.Throw JS.NonError))
          Sample.schemaInput []) =
     JS.Throw (JS.ErrorObj "Failed to create schema: no logs")).
Proof.
  destruct derivation_soft_failure as (Hissue & Hschema).
  split; split.
  - edestruct (fun request tx =>
                 Hissue (Sample.service None (Sample.transaction None)
                           (JS.Throw JS.NonError))
                   Sample.issueInput request tx []) as [Hsoft _];
      [reflexivity | reflexivity | reflexivity |].
    apply Hsoft. left. reflexivity.
  - edestruct (fun request tx =>
                 Hissue (Sample.service None
                           (Sample.transaction (Some (JS.Throw (JS.ErrorObj "no logs"))))
                           (JS.Throw JS.NonError))
                   Sample.issueInput request tx []) as [_ Hhard];
      [reflexivity | reflexivity | reflexivity |].
    apply (Hhard (JS.ErrorObj "no logs")). reflexivity.
  - edestruct (fun registry tx =>
                 Hschema (Sample.service None
                            (Sample.transaction (Some (JS.Ok (Some ""))))
                            (JS.Throw JS.NonError))
                   Sample.schemaInput registry tx []) as [Hsoft _];
      [reflexivity | reflexivity | reflexivity |].
    apply Hsoft. right. eexists. split; reflexivity.
  - edestruct (fun registry tx =>
                 Hschema (Sample.service None
                            (Sample.transaction (Some (JS.Throw (JS.ErrorObj "no logs"))))
                            (JS.Throw JS.NonError))
                   Sample.schemaInput registry tx []) as [_ Hhard];
      [reflexivity | reflexivity | reflexivity |].
    apply (Hhard (JS.ErrorObj "no logs")). reflexivity.
Defined.

(** Counterexample to C8 as stated: the write is confirmed and the
    derivation fails by throwing; the operation throws instead of returning
    ["unknown"]. *)
Lemma failed_derivation_throws :
  fst (AttestationService.issueAttestation
         (Sample.service None
            (Sample.transaction (Some (JS.Throw (JS.ErrorObj "no logs"))))
            (JS.Throw JS.NonError))
         Sample.issueInput []) =
    JS.Throw (JS.ErrorObj "Failed to issue attestation: no logs") /\
  fst (AttestationService.createSchema
         (Sample.service None
            (Sample.transaction (Some (JS.Throw (JS.ErrorObj "no logs"))))
            (JS.Throw JS.NonError))
         Sample.schemaInput []) =
    JS.Throw (JS.ErrorObj "Failed to create schema: no logs").
Proof. split; vm_compute; reflexivity. Qed.

(* ===================================================================== *)
(** ** The handlers as a boundary *)
(* ===================================================================== *)

Section HandlerBoundary.

(** A body closed by the handlers' [catch] block always returns. *)
Lemma caught_returns {D} (body : Eff.M (Handlers.Result D)) (what : string)
  (log : list Call) :
  (forall r l, body log = (JS.Ok r, l) -> wellShaped r) ->
  exists r l,
    Eff.tryCatch body (Handlers.failure what) log = (JS.Ok r, l) /\ wellShaped r.
Proof.
  intros Hbody. unfold Eff.tryCatch.
  destruct (body log) as [[r | e] l] eqn:E.
  - exists r, l. split; [reflexivity |]. exact (Hbody r l eq_refl).
  - eexists. eexists. split; [reflexivity |]. left. split; reflexivity.
Qed.

Lemma success_wellShaped {D} (m : string) (d : D) :
  wellShaped (Handlers.mkResult true m (Some d)).
Proof. right. split; [reflexivity |]. now exists d. Qed.

Lemma failure_wellShaped {D} (m : string) :
  wellShaped (@Handlers.mkResult D false m None).
Proof. left. split; reflexivity. Qed.

End HandlerBoundary.

Ltac handler_body :=
  intros r l; run_eff;
  repeat match goal with
         | |- context [match ?m ?x with _ => _ end] =>
             lazymatch type of (m x) with
             | (JS.outcome _ * list Call)%type => destruct (m x) as [[? | ?] ?]
             end
         | |- context [match ?o with Some _ => _ | None => _ end] =>
             destruct o
         end;
  intros E; inversion E; subst;
  first [apply success_wellShaped | apply failure_wellShaped].

(** Each of the five handlers returns, on every platform and input. *)
Lemma handlers_return (P : Platform.t) (log : list Call) :
  (forall args, exists r l,
     Handlers.handleIssueAttestation P args log = (JS.Ok r, l)) /\
  (forall args, exists r l,
     Handlers.handleVerifyAttestation P args log = (JS.Ok r, l)) /\
  (forall args, exists r l,
     Handlers.handleListAttestations P args log = (JS.Ok r, l)) /\
  (forall args, exists r l,
     Handlers.handleCreateSchema P args log = (JS.Ok r, l)) /\
  (forall args, exists r l,
     Handlers.handleRevokeAttestation P args log = (JS.Ok r, l)).
Proof.
  repeat split; intros args;
    unfold Handlers.handleIssueAttestation, Handlers.handleVerifyAttestation,
      Handlers.handleListAttestations, Handlers.handleCreateSchema,
      Handlers.handleRevokeAttestation;
    match goal with
    | |- exists r l, Eff.tryCatch ?body ?h log = _ =>
        unfold Eff.tryCatch; destruct (body log) as [[r | e] l];
        do 2 eexists; reflexivity
    end.
Qed.

(** X1.  No handler ever throws: on every platform, for every input, each of
    the five handlers returns a result that is either
    [{success: false, data: null}] or a success carrying data. *)
Theorem handlers_never_throw (P : Platform.t) (log : list Call) :
  (forall args, exists r l,
     Handlers.handleIssueAttestation P args log = (JS.Ok r, l) /\ wellShaped r) /\
  (forall args, exists r l,
     Handlers.handleVerifyAttestation P args log = (JS.Ok r, l) /\ wellShaped r) /\
  (forall args, exists r l,
     Handlers.handleListAttestations P args log = (JS.Ok r, l) /\ wellShaped r) /\
  (forall args, exists r l,
     Handlers.handleCreateSchema P args log = (JS.Ok r, l) /\ wellShaped r) /\
  (forall args, exists r l,
     Handlers.handleRevokeAttestation P args log = (JS.Ok r, l) /\ wellShaped r).
Proof.
  repeat split; intros args; apply caught_returns; handler_body.
Qed.

Section MissingKey.

Lemma new_without_key (P : Platform.t) (network : Network) (log : list Call) :
  JS.truthy_string (Env.PRIVATE_KEY (Platform.env P)) = false ->
  AttestationService.new P network log =
    (JS.Throw (JS.ErrorObj "PRIVATE_KEY environment variable not set"), log).
Proof.
  intros Hkey. unfold AttestationService.new, getPrivateKey. run_eff.
  now rewrite Hkey.
Qed.

End MissingKey.

(** X2.  When [PRIVATE_KEY] is unset or empty, every handler answers
    [{success: false, message: "Failed to ...: PRIVATE_KEY environment
    variable not set", data: null}] and nothing is sent to the ledger or to
    the index. *)
Theorem missing_private_key_blocks_every_tool (P : Platform.t) (log : list Call) :
  JS.truthy_string (Env.PRIVATE_KEY (Platform.env P)) = false ->
  (forall args,
     Handlers.handleIssueAttestation P args log =
       (JS.Ok (Handlers.mkResult false
          "Failed to issue attestation: PRIVATE_KEY environment variable not set"
          None), log)) /\
  (forall args,
     Handlers.handleVerifyAttestation P args log =
       (JS.Ok (Handlers.mkResult false
          "Failed to verify attestation: PRIVATE_KEY environment variable not set"
          None), log)) /\
  (forall args,
     Handlers.handleListAttestations P args log =
       (JS.Ok (Handlers.mkResult false
          "Failed to list attestations: PRIVATE_KEY environment variable not set"
          None), log)) /\
  (forall args,
     Handlers.handleCreateSchema P args log =
       (JS.Ok (Handlers.mkResult false
          "Failed to create schema: PRIVATE_KEY environment variable not set"
          None), log)) /\
  (forall args,
     Handlers.handleRevokeAttestation P args log =
       (JS.Ok (Handlers.mkResult false
          "Failed to revoke attestation: PRIVATE_KEY environment variable not set"
          None), log)).
Proof.
  intros Hkey. repeat split; intros args.
  - unfold Handlers.handleIssueAttestation, Eff.tryCatch, Eff.bind.
    now rewrite new_without_key.
  - unfold Handlers.handleVerifyAttestation, Eff.tryCatch, Eff.bind.
    now rewrite new_without_key.
  - unfold Handlers.handleListAttestations, Eff.tryCatch, Eff.bind.
    now rewrite new_without_key.
  - unfold Handlers.handleCreateSchema, Eff.tryCatch, Eff.bind.
    now rewrite new_without_key.
  - unfold Handlers.handleRevokeAttestation, Eff.tryCatch, Eff.bind.
    now rewrite new_without_key.
Qed.

(** Witness of X2: the sample platform with an empty [PRIVATE_KEY]. *)
Lemma missing_private_key_blocks_every_tool_witness :
  Handlers.handleRevokeAttestation (withKey samplePlatform (Some ""))
    Sample.revokeInput [] =
    (JS.Ok (Handlers.mkResult false
       "Failed to revoke attestation: PRIVATE_KEY environment variable not set"
       None), []).
Proof.
  apply (missing_private_key_blocks_every_tool
           (withKey samplePlatform (Some "")) [] eq_refl).
Defined.

Section Prefixes.

(** What a method closed by [catch (error) { throw new Error(prefix + ...) }]
    throws is an [Error] whose message starts with the prefix. *)
Lemma rethrown_prefixed {A} (body : Eff.M A) (prefix fallback : string)
  (log l : list Call) (e : JS.thrown) :
  Eff.tryCatch body
    (fun error => Eff.throw (JS.ErrorObj (prefix ++ JS.errorMessage error fallback)))
    log = (JS.Throw e, l) ->
  exists m, e = JS.ErrorObj (prefix ++ m).
Proof.
  run_eff. destruct (body log) as [[a | e0] l0]; intros [= <- <-] || intros [=].
  eauto.
Qed.

Lemma handler_after_throw {A D} (P : Platform.t) (network : Network)
  (op : AttestationService.t -> Eff.M A) (k : A -> Eff.M (Handlers.Result D))
  (what : string) (log log1 log2 : list Call) (service : AttestationService.t)
  (e : JS.thrown) :
  AttestationService.new P network log = (JS.Ok service, log1) ->
  op service log1 = (JS.Throw e, log2) ->
  Eff.tryCatch
    (service <- AttestationService.new P network ;; result <- op service ;; k result)
    (Handlers.failure what) log =
    (JS.Ok (Handlers.mkResult false
       (what ++ JS.errorMessage e "Unknown error occurred") None), log2).
Proof.
  intros Enew Eop. unfold Eff.tryCatch, Eff.bind. now rewrite Enew, Eop.
Qed.

End Prefixes.

(** X3.  When the service object is built and the service method throws,
    the handler reports the failure with the prefix twice: the method has
    already wrapped the cause as "Failed to ...: <cause>", and the handler
    wraps that message again. *)
Theorem service_failure_is_prefixed_twice
  (P : Platform.t) (log log1 log2 : list Call) (service : AttestationService.t)
  (e : JS.thrown) :
  (forall args,
     AttestationService.new P (IssueAttestationInput.network args) log
       = (JS.Ok service, log1) ->
     AttestationService.issueAttestation service args log1 = (JS.Throw e, log2) ->
     exists cause,
       Handlers.handleIssueAttestation P args log =
         (JS.Ok (Handlers.mkResult false
            ("Failed to issue attestation: Failed to issue attestation: " ++ cause)
            None), log2)) /\
  (forall args,
     AttestationService.new P (VerifyAttestationInput.network args) log
       = (JS.Ok service, log1) ->
     AttestationService.verifyAttestation service args log1 = (JS.Throw e, log2) ->
     exists cause,
       Handlers.handleVerifyAttestation P args log =
         (JS.Ok (Handlers.mkResult false
            ("Failed to verify attestation: Failed to verify attestation: " ++ cause)
            None), log2)) /\
  (forall args,
     AttestationService.new P (ListAttestationsInput.network args) log
       = (JS.Ok service, log1) ->
     AttestationService.listAttestations service args log1 = (JS.Throw e, log2) ->
     exists cause,
       Handlers.handleListAttestations P args log =
         (JS.Ok (Handlers.mkResult false
            ("Failed to list attestations: Failed to list attestations: GraphQL query failed: "
             ++ cause)
            None), log2)) /\
  (forall args,
     AttestationService.new P (CreateSchemaInput.network args) log
       = (JS.Ok service, log1) ->
     AttestationService.createSchema service args log1 = (JS.Throw e, log2) ->
     exists cause,
       Handlers.handleCreateSchema P args log =
         (JS.Ok (Handlers.mkResult false
            ("Failed to create schema: Failed to create schema: " ++ cause)
            None), log2)) /\
  (forall args,
     AttestationService.new P (RevokeAttestationInput.network args) log
       = (JS.Ok service, log1) ->
     AttestationService.revokeAttestation service args log1 = (JS.Throw e, log2) ->
     exists cause,
       Handlers.handleRevokeAttestation P args log =
         (JS.Ok (Handlers.mkResult false
            ("Failed to revoke attestation: Failed to revoke attestation: " ++ cause)
            None), log2)).
Proof.
  repeat split; intros args Enew Eop.
  - destruct (rethrown_prefixed _ _ _ _ _ _ Eop) as (m & ->). exists m.
    unfold Handlers.handleIssueAttestation.
    now rewrite (handler_after_throw P _ (fun s => AttestationService.issueAttestation s args)
                   _ _ log log1 log2 service _ Enew Eop).
  - destruct (rethrown_prefixed _ _ _ _ _ _ Eop) as (m & ->). exists m.
    unfold Handlers.handleVerifyAttestation, Eff.tryCatch, Eff.bind.
    now rewrite Enew, Eop.
  - assert (exists cause,
              e = JS.ErrorObj
                    ("Failed to list attestations: GraphQL query failed: " ++ cause))
      as (cause & ->).
    { revert Eop. unfold AttestationService.listAttestations, Eff.tryCatch at 1.
      destruct (GraphQLService.queryAttestations _ _ log1) as [[rs | e0] l0] eqn:Eq;
        [discriminate |].
      destruct (rethrown_prefixed _ _ _ _ _ _ Eq) as (cause & ->).
      unfold Eff.throw. cbn [JS.errorMessage]. intros [= <- _].
      exists cause. reflexivity. }
    exists cause.
    unfold Handlers.handleListAttestations.
    now rewrite (handler_after_throw P _ (fun s => AttestationService.listAttestations s args)
                   _ _ log log1 log2 service _ Enew Eop).
  - destruct (rethrown_prefixed _ _ _ _ _ _ Eop) as (m & ->). exists m.
    unfold Handlers.handleCreateSchema.
    now rewrite (handler_after_throw P _ (fun s => AttestationService.createSchema s args)
                   _ _ log log1 log2 service _ Enew Eop).
  - destruct (rethrown_prefixed _ _ _ _ _ _ Eop) as (m & ->). exists m.
    unfold Handlers.handleRevokeAttestation.
    now rewrite (handler_after_throw P _ (fun s => AttestationService.revokeAttestation s args)
                   _ _ log log1 log2 service _ Enew Eop).
Qed.

(** Witness of X3: the ledger rejects the submission with "Transaction
    failed", as in the test suite. *)
Lemma service_failure_is_prefixed_twice_witness :
  exists cause,
    Handlers.handleIssueAttestation
      (Sample.platform (failingEAS (JS.ErrorObj "Transaction failed"))
         (JS.Throw JS.NonError) 0)
      Sample.issueInput [] =
    (JS.Ok (Handlers.mkResult false
       ("Failed to issue attestation: Failed to issue attestation: " ++ cause)
       None),
     [CallAttest
        {| AttestationRequest.schema := "0xmockschema";
           AttestationRequest.recipient := "0x1234567890123456789012345678901234567890";
           AttestationRequest.expirationTime := 0;
           AttestationRequest.revocable := true;
           AttestationRequest.refUID := ZERO_UID;
           AttestationRequest.data := "0xmockdata";
           AttestationRequest.value := 0 |}]).
Proof.
  refine (proj1 (service_failure_is_prefixed_twice
                   (Sample.platform (failingEAS (JS.ErrorObj "Transaction failed"))
                      (JS.Throw JS.NonError) 0)
                   [] [] _ _
                   (JS.ErrorObj "Failed to issue attestation: Transaction failed"))
            Sample.issueInput _ _).
  - reflexivity.
  - vm_compute. reflexivity.
Defined.

(* ===================================================================== *)
(** ** Transactions: order of the calls, and no second submission *)
(* ===================================================================== *)

(** X4.  A revocation of a record the ledger knows reads the record, then
    submits one revocation bound to the schema found on the record and to
    the requested identifier, with value 0, then awaits it, and returns the
    hash of that transaction. *)
Theorem revoke_uses_schema_of_record
  (service : AttestationService.t) (input : RevokeAttestationInput.t)
  (attestation : EASAttestation.t) (tx : EASTransaction.t) (log : list Call) :
  let request :=
    {| RevocationRequest.schema := EASAttestation.schema attestation;
       RevocationRequest.uid := RevokeAttestationInput.uid input;
       RevocationRequest.value := 0 |} in
  EAS.getAttestation (AttestationService.eas service)
    (RevokeAttestationInput.uid input) = JS.Ok (Some attestation) ->
  pointReadAbsent (Some attestation) = false ->
  EAS.revoke (AttestationService.eas service) request = JS.Ok tx ->
  EASTransaction.wait tx = JS.Ok tt ->
  AttestationService.revokeAttestation service input log =
    (JS.Ok {| AttestationService.Revoked.txHash :=
                JS.string_or (Some (EASTransaction.hash tx)) "unknown" |},
     (log ++ [CallGetAttestation (RevokeAttestationInput.uid input);
              CallRevoke request; CallWait])%list).
Proof.
  intros request Eget Habs Erevoke Ewait. cbn [pointReadAbsent] in Habs.
  unfold AttestationService.revokeAttestation. run_eff.
  rewrite Eget, Habs. fold request. rewrite Erevoke, Ewait.
  now rewrite <- !app_assoc.
Qed.

(** Witness of X4: the mocked record and transaction. *)
Lemma revoke_uses_schema_of_record_witness :
  AttestationService.revokeAttestation
    (Sample.service (Some (Sample.ledgerRecord 0 0)) (Sample.transaction None)
       (JS.Throw JS.NonError))
    (RevokeAttestationInput.mk testnet "0xmockattestationuid") [] =
    (JS.Ok {| AttestationService.Revoked.txHash := "0xmocktxhash" |},
     [CallGetAttestation "0xmockattestationuid";
      CallRevoke {| RevocationRequest.schema := "0xmockschema";
                    RevocationRequest.uid := "0xmockattestationuid";
                    RevocationRequest.value := 0 |};
      CallWait]).
Proof.
  apply (revoke_uses_schema_of_record
           (Sample.service (Some (Sample.ledgerRecord 0 0)) (Sample.transaction None)
              (JS.Throw JS.NonError))
           (RevokeAttestationInput.mk testnet "0xmockattestationuid")
           (Sample.ledgerRecord 0 0) (Sample.transaction None) []);
    reflexivity.
Defined.

Ltac added_calls :=
  cbn [snd fst]; rewrite <- ?app_assoc, ?app_nil_r; cbn [app];
  split; [reflexivity | subst; cbn; lia].

(** X5.  No operation of the orchestrator submits more than one
    transaction, whatever the ledger answers: [issueAttestation],
    [createSchema] and [revokeAttestation] add at most one submission to the
    calls made, and [verifyAttestation] and [listAttestations] add none. *)
Theorem at_most_one_submission (service : AttestationService.t) (log : list Call) :
  (forall input,
     exists added,
       snd (AttestationService.issueAttestation service input log)
         = (log ++ added)%list /\ (List.length (writes added) <= 1)%nat) /\
  (forall input,
     exists added,
       snd (AttestationService.createSchema service input log)
         = (log ++ added)%list /\ (List.length (writes added) <= 1)%nat) /\
  (forall input,
     exists added,
       snd (AttestationService.revokeAttestation service input log)
         = (log ++ added)%list /\ (List.length (writes added) <= 1)%nat) /\
  (forall input,
     exists added,
       snd (AttestationService.verifyAttestation service input log)
         = (log ++ added)%list /\ writes added = []) /\
  (forall input,
     exists added,
       snd (AttestationService.listAttestations service input log)
         = (log ++ added)%list /\ writes added = []).
Proof.
  repeat split; intros input.
  - unfold AttestationService.issueAttestation, AttestationService.optionalCall.
    run_eff.
    destruct (AttestationService.attestationOf input) as [request | e];
      [| exists []; added_calls].
    destruct (EAS.attest _ request) as [tx | e];
      [| exists [CallAttest request]; added_calls].
    destruct (EASTransaction.wait tx) as [[] | e];
      [| exists [CallAttest request; CallWait]; added_calls].
    destruct (EASTransaction.getAttestationUID tx) as [[r | e] |];
      [exists [CallAttest request; CallWait; CallGetAttestationUID]
      | exists [CallAttest request; CallWait; CallGetAttestationUID]
      | exists [CallAttest request; CallWait]];
      added_calls.
  - unfold AttestationService.createSchema, AttestationService.optionalCall.
    run_eff.
    destruct (EAS.getSchemaRegistry _) as [registry | e];
      [| exists [CallGetSchemaRegistry]; added_calls].
    match goal with
    | |- context [CallRegister ?s ?r ?b] => set (c := CallRegister s r b)
    end.
    destruct (EASSchemaRegistry.register _ _ _ _) as [tx | e];
      [| exists [CallGetSchemaRegistry; c]; added_calls].
    destruct (EASTransaction.wait tx) as [[] | e];
      [| exists [CallGetSchemaRegistry; c; CallWait]; added_calls].
    destruct (EASTransaction.getSchemaUID tx) as [[r | e] |];
      [exists [CallGetSchemaRegistry; c; CallWait; CallGetSchemaUID]
      | exists [CallGetSchemaRegistry; c; CallWait; CallGetSchemaUID]
      | exists [CallGetSchemaRegistry; c; CallWait]];
      added_calls.
  - unfold AttestationService.revokeAttestation. run_eff.
    set (read := CallGetAttestation (RevokeAttestationInput.uid input)).
    destruct (EAS.getAttestation _ _) as [[attestation |] | e];
      try (exists [read]; added_calls).
    destruct (EASAttestation.uid attestation =? ZERO_UID)%string;
      [exists [read]; added_calls |].
    match goal with
    | |- context [CallRevoke ?r] => set (c := CallRevoke r)
    end.
    destruct (EAS.revoke _ _) as [tx | e];
      [| exists [read; c]; added_calls].
    destruct (EASTransaction.wait tx) as [[] | e];
      exists [read; c; CallWait]; added_calls.
  - unfold AttestationService.verifyAttestation. run_eff.
    exists [CallGetAttestation (VerifyAttestationInput.uid input)].
    split; [| reflexivity].
    destruct (EAS.getAttestation _ _) as [[attestation |] | e]; try reflexivity.
    destruct (EASAttestation.uid attestation =? ZERO_UID)%string; reflexivity.
  - unfold AttestationService.listAttestations, Eff.tryCatch.
    rewrite queryAttestations_run. cbn beta iota.
    match goal with
    | |- context [CallFetch ?e ?b] => exists [CallFetch e b]
    end.
    split; [| reflexivity].
    destruct (listAnswer _ _) as [http | e]; [| reflexivity].
    destruct (GraphQLService.readList http); reflexivity.
Qed.

(** X6.  A confirmed write whose derivation yields a non-empty identifier
    returns that identifier and the transaction hash, after exactly three
    calls in this order: the submission, the confirmation wait, the
    derivation ([createSchema] first fetches the registry). *)
Theorem write_returns_derived_identifier :
  (forall this input request tx c r log,
     AttestationService.attestationOf input = JS.Ok request ->
     EAS.attest (AttestationService.eas this) request = JS.Ok tx ->
     EASTransaction.wait tx = JS.Ok tt ->
     EASTransaction.getAttestationUID tx = Some (JS.Ok (Some (String c r))) ->
     AttestationService.issueAttestation this input log =
       (JS.Ok {| AttestationService.Issued.uid := String c r;
                 AttestationService.Issued.txHash :=
                   JS.string_or (Some (EASTransaction.hash tx)) "unknown" |},
        (log ++ [CallAttest request; CallWait; CallGetAttestationUID])%list)) /\
  (forall this input registry tx c r log,
     EAS.getSchemaRegistry (AttestationService.eas this) = JS.Ok registry ->
     EASSchemaRegistry.register registry (CreateSchemaInput.schema input)
       (JS.string_or (CreateSchemaInput.resolverAddress input) ZERO_ADDRESS)
       (CreateSchemaInput.revocable input) = JS.Ok tx ->
     EASTransaction.wait tx = JS.Ok tt ->
     EASTransaction.getSchemaUID tx = Some (JS.Ok (Some (String c r))) ->
     AttestationService.createSchema this input log =
       (JS.Ok {| AttestationService.Issued.uid := String c r;
                 AttestationService.Issued.txHash :=
                   JS.string_or (Some (EASTransaction.hash tx)) "unknown" |},
        (log ++ [CallGetSchemaRegistry;
                 CallRegister (CreateSchemaInput.schema input)
                   (JS.string_or (CreateSchemaInput.resolverAddress input) ZERO_ADDRESS)
                   (CreateSchemaInput.revocable input);
                 CallWait; CallGetSchemaUID])%list)).
Proof.
  split.
  - intros this input request tx c r log Ereq Eattest Ewait Euid.
    unfold AttestationService.issueAttestation, AttestationService.optionalCall.
    run_eff. rewrite Ereq, Eattest, Ewait, Euid.
    now rewrite <- !app_assoc.
  - intros this input registry tx c r log Eregistry Eregister Ewait Euid.
    unfold AttestationService.createSchema, AttestationService.optionalCall.
    run_eff. rewrite Eregistry, Eregister, Ewait, Euid.
    now rewrite <- !app_assoc.
Qed.

(** Witness of X6: the mocked transactions of the test suite. *)
Lemma write_returns_derived_identifier_witness :
  fst (AttestationService.issueAttestation
         (Sample.service None
            (Sample.transaction (Some (JS.Ok (Some "0xmockattestationuid"))))
            (JS.Throw JS.NonError))
         Sample.issueInput []) =
    JS.Ok {| AttestationService.Issued.uid := "0xmockattestationuid";
             AttestationService.Issued.txHash := "0xmocktxhash" |} /\
  fst (AttestationService.createSchema
         (Sample.service None
            (Sample.transaction (Some (JS.Ok (Some "0xmockschemauid"))))
            (JS.Throw JS.NonError))
         Sample.schemaInput []) =
    JS.Ok {| AttestationService.Issued.uid := "0xmockschemauid";
             AttestationService.Issued.txHash := "0xmocktxhash" |}.
Proof.
  destruct write_returns_derived_identifier as (Hissue & Hschema).
  split.
  - erewrite (fun request tx c r =>
                Hissue (Sample.service None
                          (Sample.transaction (Some (JS.Ok (Some "0xmockattestationuid"))))
                          (JS.Throw JS.NonError))
                  Sample.issueInput request tx c r []);
      [| reflexivity | reflexivity | reflexivity | reflexivity]; reflexivity.
  - erewrite (fun registry tx c r =>
                Hschema (Sample.service None
                           (Sample.transaction (Some (JS.Ok (Some "0xmockschemauid"))))
                           (JS.Throw JS.NonError))
                  Sample.schemaInput registry tx c r []);
      [| reflexivity | reflexivity | reflexivity | reflexivity]; reflexivity.
Defined.

(* ===================================================================== *)
(** ** What a successful read reflects *)
(* ===================================================================== *)

Section Reads.

Lemma toAttestationData_ok (g : GraphQLAttestation.t) (a : AttestationData.t) :
  GraphQLService.toAttestationData g = JS.Ok a ->
  lacksInteger g = false /\ sameIndexRecord g a /\
  AttestationData.time a
    = GraphQLService.clamp (JS.parseInt (GraphQLAttestation.timeCreated g)) /\
  AttestationData.expirationTime a
    = GraphQLService.clamp (JS.parseInt (GraphQLAttestation.expirationTime g)) /\
  AttestationData.revocationTime a
    = GraphQLService.clamp (JS.parseInt (GraphQLAttestation.revocationTime g)).
Proof.
  unfold GraphQLService.toAttestationData, lacksInteger. cbv zeta.
  rewrite <- !isNaN_parseInt.
  destruct (_ || _ || _); [discriminate |].
  intros [= <-]. unfold sameIndexRecord. cbn. repeat split.
Qed.

Lemma mapM_ok (gs : list GraphQLAttestation.t) :
  forall rs,
    Eff.mapM GraphQLService.toAttestationData gs = JS.Ok rs ->
    Forall2 (fun g a => GraphQLService.toAttestationData g = JS.Ok a) gs rs.
Proof.
  induction gs as [| g gs IH]; intros rs; cbn [Eff.mapM].
  - intros [= <-]. constructor.
  - destruct (GraphQLService.toAttestationData g) as [a | e] eqn:Ea; [| discriminate].
    destruct (Eff.mapM GraphQLService.toAttestationData gs) as [ys | e];
      [| discriminate].
    intros [= <-]. constructor; [exact Ea | now apply IH].
Qed.

Lemma mapM_reflects (gs : list GraphQLAttestation.t) (rs : list AttestationData.t) :
  Eff.mapM GraphQLService.toAttestationData gs = JS.Ok rs ->
  Forall (fun g => lacksInteger g = false) gs /\ Forall2 sameIndexRecord gs rs.
Proof.
  intros Hmap. apply mapM_ok in Hmap.
  induction Hmap as [| g a gs l Hg _ [IH1 IH2]]; [split; constructor |].
  apply toAttestationData_ok in Hg. destruct Hg as (Hparse & Hsame & _).
  split; constructor; assumption.
Qed.

(** [readList] succeeds only on a response that carries a list. *)
Lemma readList_ok (http : HttpResponse.t) (rs : list AttestationData.t) :
  GraphQLService.readList http = JS.Ok rs ->
  exists records,
    carriesList http records /\
    Eff.mapM GraphQLService.toAttestationData records = JS.Ok rs.
Proof.
  unfold GraphQLService.readList, GraphQLService.checkStatus, carriesList.
  destruct (HttpResponse.ok http); [| discriminate].
  destruct (HttpResponse.json http) as [response | e]; [| discriminate].
  destruct (GraphQLResponse.errors response) eqn:Eerr; [discriminate |].
  destruct (GraphQLResponse.data response) as [d |] eqn:Edata; [| discriminate].
  destruct (ResponseData.attestations d) as [| | records] eqn:Elist;
    try discriminate.
  intros Hmap. exists records. split; [| exact Hmap].
  split; [reflexivity |]. exists response, d. auto.
Qed.

Lemma clamp_bounded (x : JS.number) :
  JS.isNaN x = false -> boundedTime (GraphQLService.clamp x).
Proof.
  intros Hx. unfold GraphQLService.clamp, boundedTime.
  destruct (JS.le x (JS.Fin JS.MAX_SAFE_INTEGER)) eqn:Hle; auto.
Qed.

Lemma roundMagnitude_nonneg (m v : Z) :
  0 <= m -> JS.roundMagnitude m = Some v -> 0 <= v.
Proof.
  intros Hm. destruct (Z.lt_ge_cases m (2 ^ 53)) as [Hs | Hl].
  - rewrite roundMagnitude_small by assumption. intros [= <-]. exact Hm.
  - intros E. apply roundMagnitude_large in E; lia.
Qed.

Lemma ledger_clamp_bounded (b : Z) : boundedTime (AttestationService.clamp b).
Proof.
  unfold AttestationService.clamp, JS.bigint_le, boundedTime.
  destruct (Z.leb_spec b JS.MAX_SAFE_INTEGER) as [Hle | _]; [| auto].
  unfold JS.Number_of_bigint. destruct (Z.le_gt_cases 0 b) as [Hpos | Hneg].
  - rewrite toDouble_small by (rewrite MAX_SAFE_INTEGER_eq in Hle; lia).
    split; [reflexivity |]. cbn [JS.le JS.lt].
    destruct (Z.ltb_spec JS.MAX_SAFE_INTEGER b); [lia | reflexivity].
  - unfold JS.toDouble.
    destruct (JS.roundMagnitude (Z.abs b)) as [v |] eqn:E.
    + apply roundMagnitude_nonneg in E; [| lia].
      rewrite Z.sgn_neg by lia. split; [reflexivity |]. cbn [JS.le JS.lt].
      destruct (Z.ltb_spec JS.MAX_SAFE_INTEGER (-1 * v)) as [Hlt | _];
        [| reflexivity].
      rewrite MAX_SAFE_INTEGER_eq in Hlt. lia.
    + destruct (Z.ltb_spec b 0); [| lia]. split; reflexivity.
Qed.

End Reads.

(** X8.  [queryAttestations] succeeds only on a response with a success
    status whose body has no error entry and carries a list; every
    timestamp of every record of the list then starts with an integer, and
    the result has the same records in the same order, each with the
    identifier, schema, recipient, attester, revocable flag, reference and
    data of its index record. *)
Theorem list_success_reflects_response
  (this : GraphQLService.t) (filters : GraphQLService.Filters.t)
  (rs : list AttestationData.t) :
  fst (Eff.run (GraphQLService.queryAttestations this filters)) = JS.Ok rs ->
  exists http records,
    listAnswer this filters = JS.Ok http /\
    carriesList http records /\
    Forall (fun g => lacksInteger g = false) records /\
    Forall2 sameIndexRecord records rs.
Proof.
  unfold Eff.run. rewrite queryAttestations_run. cbn [fst].
  destruct (listAnswer this filters) as [http | e]; [| discriminate].
  destruct (GraphQLService.readList http) as [rs' | e] eqn:Eread; [| discriminate].
  intros [= ->].
  destruct (readList_ok http rs Eread) as (records & Hcarries & Hmap).
  destruct (mapM_reflects records rs Hmap) as [Hparse Hsame].
  exists http, records. auto.
Qed.

(** Witness of X8: a list of two records. *)
Lemma list_success_reflects_response_witness :
  exists http records,
    listAnswer
      (Sample.index (JS.Ok (okResponse (Sample.listBody
         [Sample.indexRecord "0xnewer" "1700000000" "0" "0";
          Sample.indexRecord "0xolder" "1640995200" "0" "1641000000"]))))
      (Sample.filters None None) = JS.Ok http /\
    carriesList http records /\
    Forall (fun g => lacksInteger g = false) records /\
    Forall2 sameIndexRecord records
      [ {| AttestationData.uid := "0xnewer";
           AttestationData.schema := "0xmockschema";
           AttestationData.recipient := "0x1234567890123456789012345678901234567890";
           AttestationData.attester := "0x0987654321098765432109876543210987654321";
           AttestationData.revocable := true;
           AttestationData.refUID := ZERO_UID;
           AttestationData.data := "0xmockdata";
           AttestationData.time := JS.Fin 1700000000;
           AttestationData.expirationTime := JS.Fin 0;
           AttestationData.revocationTime := JS.Fin 0 |};
        {| AttestationData.uid := "0xolder";
           AttestationData.schema := "0xmockschema";
           AttestationData.recipient := "0x1234567890123456789012345678901234567890";
           AttestationData.attester := "0x0987654321098765432109876543210987654321";
           AttestationData.revocable := true;
           AttestationData.refUID := ZERO_UID;
           AttestationData.data := "0xmockdata";
           AttestationData.time := JS.Fin 1640995200;
           AttestationData.expirationTime := JS.Fin 0;
           AttestationData.revocationTime := JS.Fin 1641000000 |} ].
Proof.
  apply list_success_reflects_response. vm_compute. reflexivity.
Defined.

(** X9.  Every timestamp that [queryAttestations],
    [queryAttestationsByUID] and [verifyAttestation] return is a number
    (never [NaN]) and at most [Number.MAX_SAFE_INTEGER], whatever the index
    or the ledger answered. *)
Theorem returned_timestamps_bounded :
  (forall this filters rs,
     fst (Eff.run (GraphQLService.queryAttestations this filters)) = JS.Ok rs ->
     Forall boundedTimes rs) /\
  (forall this uid a,
     fst (Eff.run (GraphQLService.queryAttestationsByUID this uid)) = JS.Ok (Some a) ->
     boundedTimes a) /\
  (forall service input log a,
     fst (AttestationService.verifyAttestation service input log) = JS.Ok (Some a) ->
     boundedTimes a).
Proof.
  assert (Hone : forall g a,
            GraphQLService.toAttestationData g = JS.Ok a -> boundedTimes a).
  { intros g a Hg. apply toAttestationData_ok in Hg. unfold boundedTimes.
    destruct Hg as (Hparse & _ & -> & -> & ->).
    unfold lacksInteger in Hparse. rewrite <- !isNaN_parseInt in Hparse.
    apply orb_false_iff in Hparse. destruct Hparse as [Hparse H3].
    apply orb_false_iff in Hparse. destruct Hparse as [H1 H2].
    repeat split; now apply clamp_bounded. }
  split; [| split].
  - intros this filters rs. unfold Eff.run.
    rewrite queryAttestations_run. cbn [fst].
    destruct (listAnswer this filters) as [http | e]; [| discriminate].
    destruct (GraphQLService.readList http) as [rs' | e] eqn:Eread; [| discriminate].
    intros [= ->].
    destruct (readList_ok http rs Eread) as (records & _ & Hmap).
    apply mapM_ok in Hmap. clear Eread.
    induction Hmap as [| g a gs l Hg _ IH]; constructor; eauto.
  - intros this uid a. unfold Eff.run.
    rewrite queryAttestationsByUID_run. cbn [fst].
    destruct (uidAnswer this uid) as [http | e]; [| discriminate].
    unfold GraphQLService.readOne.
    destruct (GraphQLService.checkStatus http); [| discriminate].
    destruct (HttpResponse.json http) as [response | e]; [| discriminate].
    destruct (GraphQLResponse.data response) as [d |]; [| discriminate].
    destruct (ResponseData.attestation d) as [g |]; [| discriminate].
    destruct (GraphQLService.toAttestationData g) as [a' | e] eqn:Eg; [| discriminate].
    intros [= ->]. eauto.
  - intros service input log a.
    unfold AttestationService.verifyAttestation. run_eff.
    destruct (EAS.getAttestation _ _) as [[attestation |] | e]; cbn;
      try discriminate.
    destruct (EASAttestation.uid attestation =? ZERO_UID)%string; cbn;
      [discriminate |].
    intros [= <-]. repeat split; cbn; apply ledger_clamp_bounded.
Qed.

(** Witness of X9: an index record with a timestamp of twenty nines and a
    negative one, and a ledger record revoked at [2^200]. *)
Lemma returned_timestamps_bounded_witness :
  Forall boundedTimes
    [ {| AttestationData.uid := "0xmockattestationuid";
         AttestationData.schema := "0xmockschema";
         AttestationData.recipient := "0x1234567890123456789012345678901234567890";
         AttestationData.attester := "0x0987654321098765432109876543210987654321";
         AttestationData.revocable := true;
         AttestationData.refUID := ZERO_UID;
         AttestationData.data := "0xmockdata";
         AttestationData.time := JS.Fin JS.MAX_SAFE_INTEGER;
         AttestationData.expirationTime := JS.Fin (-5);
         AttestationData.revocationTime := JS.Fin 0 |} ] /\
  boundedTimes
    {| AttestationData.uid := "0xmockattestationuid";
       AttestationData.schema := "0xmockschema";
       AttestationData.recipient := "0x1234567890123456789012345678901234567890";
       AttestationData.attester := "0x0987654321098765432109876543210987654321";
       AttestationData.revocable := true;
       AttestationData.refUID := ZERO_UID;
       AttestationData.data := "0xmockdata";
       AttestationData.time := JS.Fin 1640995200;
       AttestationData.expirationTime := JS.Fin 0;
       AttestationData.revocationTime := JS.Fin JS.MAX_SAFE_INTEGER |}.
Proof.
  destruct returned_timestamps_bounded as (Hlist & _ & Hverify).
  split.
  - apply (Hlist
             (Sample.index (JS.Ok (okResponse (Sample.listBody
                [Sample.indexRecord "0xmockattestationuid" "99999999999999999999"
                   "-5" "0"]))))
             (Sample.filters None None)).
    vm_compute. reflexivity.
  - apply (Hverify
             (Sample.service (Some (Sample.ledgerRecord 0 (2 ^ 200)))
                (Sample.transaction None) (JS.Throw JS.NonError))
             Sample.verifyInput []).
    vm_compute. reflexivity.
Defined.

(** X10.  [verifyAttestation] returns a record exactly when the ledger
    answers a record whose identifier is not the all-zero one, and the
    record returned has the identifier, schema, recipient, attester,
    revocable flag, reference and data of the ledger's; it returns the
    absent signal exactly when the ledger answers nothing or the zero-filled
    record; it throws exactly when the read throws. *)
Theorem verify_reflects_ledger
  (service : AttestationService.t) (input : VerifyAttestationInput.t)
  (log : list Call) :
  let answer :=
    EAS.getAttestation (AttestationService.eas service)
      (VerifyAttestationInput.uid input) in
  let result := fst (AttestationService.verifyAttestation service input log) in
  (forall a,
     result = JS.Ok (Some a) <->
     exists attestation,
       answer = JS.Ok (Some attestation) /\
       pointReadAbsent (Some attestation) = false /\
       sameLedgerRecord attestation a /\
       AttestationData.time a
         = AttestationService.clamp (EASAttestation.time attestation) /\
       AttestationData.expirationTime a
         = AttestationService.clamp (EASAttestation.expirationTime attestation) /\
       AttestationData.revocationTime a
         = AttestationService.clamp (EASAttestation.revocationTime attestation)) /\
  (result = JS.Ok None <->
   exists found, answer = JS.Ok found /\ pointReadAbsent found = true) /\
  (forall e,
     result = JS.Throw e <->
     exists cause,
       answer = JS.Throw cause /\
       e = JS.ErrorObj ("Failed to verify attestation: "
                        ++ JS.errorMessage cause "Unknown error occurred")).
Proof.
  intros answer result. subst answer result.
  unfold AttestationService.verifyAttestation. run_eff.
  destruct (EAS.getAttestation _ _) as [[attestation |] | cause]; cbn [fst].
  - cbn [pointReadAbsent].
    destruct (EASAttestation.uid attestation =? ZERO_UID)%string eqn:Ezero;
      cbn [fst]; repeat split.
    + discriminate.
    + intros (att & [= <-] & Habs & _). congruence.
    + intros _. eauto.
    + discriminate.
    + intros (c & [=] & _).
    + intros [= <-]. exists attestation. unfold sameLedgerRecord. cbn.
      repeat split; assumption.
    + intros (att & [= <-] & _ & Hsame & Ht & He & Hr).
      destruct a; unfold sameLedgerRecord in Hsame; cbn in *.
      destruct Hsame as (-> & -> & -> & -> & -> & -> & ->). subst.
      reflexivity.
    + discriminate.
    + intros (found & [= <-] & Habs). cbn [pointReadAbsent] in Habs. congruence.
    + discriminate.
    + intros (c & [=] & _).
  - repeat split; try discriminate.
    + intros (att & [=] & _).
    + intros _. exists None. auto.
    + intros (c & [=] & _).
  - repeat split; try discriminate.
    + intros (att & [=] & _).
    + intros (found & [=] & _).
    + intros [= <-]. eauto.
    + intros (c & [= <-] & ->). reflexivity.
Qed.

(** Witness of X10: the mocked record is returned with its fields. *)
Lemma verify_reflects_ledger_witness :
  exists attestation,
    EAS.getAttestation
      (AttestationService.eas
         (Sample.service (Some (Sample.ledgerRecord 0 0)) (Sample.transaction None)
            (JS.Throw JS.NonError)))
      (VerifyAttestationInput.uid Sample.verifyInput) = JS.Ok (Some attestation) /\
    pointReadAbsent (Some attestation) = false /\
    sameLedgerRecord attestation
      {| AttestationData.uid := "0xmockattestationuid";
         AttestationData.schema := "0xmockschema";
         AttestationData.recipient := "0x1234567890123456789012345678901234567890";
         AttestationData.attester := "0x0987654321098765432109876543210987654321";
         AttestationData.revocable := true;
         AttestationData.refUID := ZERO_UID;
         AttestationData.data := "0xmockdata";
         AttestationData.time := JS.Fin 1640995200;
         AttestationData.expirationTime := JS.Fin 0;
         AttestationData.revocationTime := JS.Fin 0 |} /\
    JS.Fin 1640995200 = AttestationService.clamp (EASAttestation.time attestation) /\
    JS.Fin 0 = AttestationService.clamp (EASAttestation.expirationTime attestation) /\
    JS.Fin 0 = AttestationService.clamp (EASAttestation.revocationTime attestation).
Proof.
  pose proof (verify_reflects_ledger
                (Sample.service (Some (Sample.ledgerRecord 0 0))
                   (Sample.transaction None) (JS.Throw JS.NonError))
                Sample.verifyInput []) as H.
  cbv zeta in H. destruct H as (Hsome & _).
  match goal with
  | |- exists _, _ /\ _ /\ sameLedgerRecord _ ?a /\ _ =>
      destruct (Hsome a) as [Hfound _]
  end.
  apply Hfound. vm_compute. reflexivity.
Defined.

(* ===================================================================== *)
(** ** The verdict of [handleVerifyAttestation], from ledger values *)
(* ===================================================================== *)

(** X11.  End to end, for a ledger record with non-negative timestamps:
    the tool reports [isRevoked] when the revocation time is positive,
    [isExpired] when the expiration time is positive and the clock, in
    milliseconds, has reached the second after the (normalised) expiration
    time, and [isValid] when neither holds; the message says "is valid"
    exactly when [isValid]. *)
Theorem verdict_from_ledger_values
  (P : Platform.t) (args : VerifyAttestationInput.t)
  (service : AttestationService.t) (attestation : EASAttestation.t)
  (log log1 : list Call) :
  AttestationService.new P (VerifyAttestationInput.network args) log
    = (JS.Ok service, log1) ->
  EAS.getAttestation (AttestationService.eas service)
    (VerifyAttestationInput.uid args) = JS.Ok (Some attestation) ->
  pointReadAbsent (Some attestation) = false ->
  0 <= EASAttestation.expirationTime attestation ->
  0 <= EASAttestation.revocationTime attestation ->
  let e := EASAttestation.expirationTime attestation in
  let revoked := 0 <? EASAttestation.revocationTime attestation in
  let expired := (0 <? e) && ((Spec.normalize e + 1) * 1000 <=? Platform.now P) in
  let valid := negb revoked && negb expired in
  exists a,
    Handlers.handleVerifyAttestation P args log =
      (JS.Ok (Handlers.mkResult true
         (if valid then "Attestation is valid" else "Attestation is invalid/expired")
         (Some {| Handlers.Verified.attestation := a;
                  Handlers.Verified.isValid := valid;
                  Handlers.Verified.isRevoked := revoked;
                  Handlers.Verified.isExpired := expired |})),
       (log1 ++ [CallGetAttestation (VerifyAttestationInput.uid args)])%list) /\
    sameLedgerRecord attestation a.
Proof.
  intros Enew Eget Habs He Hr e revoked expired valid.
  cbn [pointReadAbsent] in Habs.
  unfold Handlers.handleVerifyAttestation, AttestationService.verifyAttestation.
  run_eff. rewrite Enew, Eget, Habs.
  cbn [AttestationData.revocationTime AttestationData.expirationTime].
  rewrite !ledger_clamp_normalizes by assumption.
  unfold Handlers.nowSeconds, JS.gt. cbn [JS.strictEq JS.lt].
  assert (Hrev : (Spec.normalize (EASAttestation.revocationTime attestation) =? 0)
                 = negb revoked).
  { subst revoked. unfold Spec.normalize.
    destruct (Z.leb_spec (EASAttestation.revocationTime attestation)
                JS.MAX_SAFE_INTEGER);
      destruct (Z.eqb_spec (EASAttestation.revocationTime attestation) 0);
      destruct (Z.ltb_spec 0 (EASAttestation.revocationTime attestation));
      try reflexivity; try lia;
      destruct (Z.eqb_spec JS.MAX_SAFE_INTEGER 0); try reflexivity;
      rewrite MAX_SAFE_INTEGER_eq in *; lia. }
  assert (Hrev' : (0 <? Spec.normalize (EASAttestation.revocationTime attestation))
                  = revoked).
  { subst revoked. unfold Spec.normalize.
    destruct (Z.leb_spec (EASAttestation.revocationTime attestation)
                JS.MAX_SAFE_INTEGER); [reflexivity |].
    destruct (Z.ltb_spec 0 (EASAttestation.revocationTime attestation)); [| lia].
    reflexivity. }
  assert (Hexp : (0 <? Spec.normalize e)
                 && (Spec.normalize e <? Platform.now P / 1000) = expired).
  { subst expired. f_equal.
    - unfold Spec.normalize.
      destruct (Z.leb_spec e JS.MAX_SAFE_INTEGER); [reflexivity |].
      destruct (Z.ltb_spec 0 e); [reflexivity | lia].
    - destruct (Z.ltb_spec (Spec.normalize e) (Platform.now P / 1000)) as [Hlt | Hge];
        destruct (Z.leb_spec ((Spec.normalize e + 1) * 1000) (Platform.now P))
          as [Hle | Hgt];
        try reflexivity; exfalso.
      + pose proof (Z.mul_div_le (Platform.now P) 1000 ltac:(lia)). lia.
      + assert (Spec.normalize e + 1 <= Platform.now P / 1000)
          by (apply Z.div_le_lower_bound; lia).
        lia. }
  fold e. rewrite Hrev, Hrev', Hexp. subst valid.
  eexists. split.
  - destruct (negb revoked && negb expired); reflexivity.
  - unfold sameLedgerRecord. cbn. repeat split.
Qed.

(** Witness of X11: a record expiring at second 1700000000, verified at
    the last millisecond before the next second and at that second. *)
Lemma verdict_from_ledger_values_witness :
  (exists a,
     Handlers.handleVerifyAttestation
       (Sample.platform
          (Sample.eas (Some (Sample.ledgerRecord 1700000000 0)) (Sample.transaction None))
          (JS.Throw JS.NonError) 1700000000999)
       Sample.verifyInput [] =
       (JS.Ok (Handlers.mkResult true "Attestation is valid"
          (Some {| Handlers.Verified.attestation := a;
                   Handlers.Verified.isValid := true;
                   Handlers.Verified.isRevoked := false;
                   Handlers.Verified.isExpired := false |})),
        [CallGetAttestation "0xmockattestationuid"]) /\
     sameLedgerRecord (Sample.ledgerRecord 1700000000 0) a) /\
  (exists a,
     Handlers.handleVerifyAttestation
       (Sample.platform
          (Sample.eas (Some (Sample.ledgerRecord 1700000000 0)) (Sample.transaction None))
          (JS.Throw JS.NonError) 1700000001000)
       Sample.verifyInput [] =
       (JS.Ok (Handlers.mkResult true "Attestation is invalid/expired"
          (Some {| Handlers.Verified.attestation := a;
                   Handlers.Verified.isValid := false;
                   Handlers.Verified.isRevoked := false;
                   Handlers.Verified.isExpired := true |})),
        [CallGetAttestation "0xmockattestationuid"]) /\
     sameLedgerRecord (Sample.ledgerRecord 1700000000 0) a).
Proof.
  split.
  - refine (verdict_from_ledger_values
              (Sample.platform
                 (Sample.eas (Some (Sample.ledgerRecord 1700000000 0))
                    (Sample.transaction None))
                 (JS.Throw JS.NonError) 1700000000999)
              Sample.verifyInput _ (Sample.ledgerRecord 1700000000 0) [] []
              _ _ _ _ _);
      [reflexivity | reflexivity | reflexivity
      | vm_compute; discriminate | vm_compute; discriminate].
  - refine (verdict_from_ledger_values
              (Sample.platform
                 (Sample.eas (Some (Sample.ledgerRecord 1700000000 0))
                    (Sample.transaction None))
                 (JS.Throw JS.NonError) 1700000001000)
              Sample.verifyInput _ (Sample.ledgerRecord 1700000000 0) [] []
              _ _ _ _ _);
      [reflexivity | reflexivity | reflexivity
      | vm_compute; discriminate | vm_compute; discriminate].
Defined.

Section Clock.

Lemma lt_clock_monotone (x : JS.number) (n1 n2 : Z) :
  n1 <= n2 ->
  JS.lt x (JS.Fin (n1 / 1000)) = true -> JS.lt x (JS.Fin (n2 / 1000)) = true.
Proof.
  intros Hn. destruct x as [| | | z]; cbn [JS.lt]; try auto.
  intros Hlt. apply Z.ltb_lt in Hlt. apply Z.ltb_lt.
  pose proof (Z.div_le_mono n1 n2 1000 ltac:(lia) Hn). lia.
Qed.

End Clock.

(** X12.  Only the clock moves: if the tool reports an attestation at one
    time, it reports the same record at any later time, with the same
    [isRevoked]; an attestation reported expired stays expired, and one
    reported not valid never becomes valid again. *)
Theorem advancing_clock_never_revalidates
  (P : Platform.t) (args : VerifyAttestationInput.t) (log l1 : list Call)
  (n1 n2 : Z) (r1 : Handlers.Result Handlers.Verified.t)
  (d1 : Handlers.Verified.t) :
  n1 <= n2 ->
  Handlers.handleVerifyAttestation (setNow P n1) args log = (JS.Ok r1, l1) ->
  Handlers.data r1 = Some d1 ->
  exists r2 d2,
    Handlers.handleVerifyAttestation (setNow P n2) args log = (JS.Ok r2, l1) /\
    Handlers.data r2 = Some d2 /\
    Handlers.Verified.attestation d2 = Handlers.Verified.attestation d1 /\
    Handlers.Verified.isRevoked d2 = Handlers.Verified.isRevoked d1 /\
    (Handlers.Verified.isExpired d1 = true -> Handlers.Verified.isExpired d2 = true) /\
    (Handlers.Verified.isValid d1 = false -> Handlers.Verified.isValid d2 = false).
Proof.
  intros Hn.
  unfold Handlers.handleVerifyAttestation, AttestationService.new,
    AttestationService.verifyAttestation, getPrivateKey, Handlers.failure,
    Handlers.nowSeconds.
  run_eff. cbn [setNow Platform.env Platform.connect Platform.now
                AttestationService.eas].
  destruct (JS.truthy_string (Env.PRIVATE_KEY (Platform.env P)));
    [| intros [= <- <-]; discriminate].
  destruct (Platform.connect P _ _) as [sdk | e];
    [| intros [= <- <-]; discriminate].
  cbn [AttestationService.eas].
  destruct (EAS.getAttestation sdk _) as [[attestation |] | e];
    [| intros [= <- <-]; discriminate | intros [= <- <-]; discriminate].
  destruct (EASAttestation.uid attestation =? ZERO_UID)%string;
    [intros [= <- <-]; discriminate |].
  intros [= <- <-]. cbn [Handlers.data]. intros [= <-].
  eexists. eexists. split; [reflexivity |]. split; [reflexivity |].
  cbn [Handlers.Verified.attestation Handlers.Verified.isRevoked
       Handlers.Verified.isExpired Handlers.Verified.isValid
       AttestationData.expirationTime AttestationData.revocationTime].
  split; [reflexivity |]. split; [reflexivity |].
  set (x := AttestationService.clamp (EASAttestation.expirationTime attestation)).
  assert (Hexp : JS.gt x (JS.Fin 0) && JS.lt x (JS.Fin (n1 / 1000)) = true ->
                 JS.gt x (JS.Fin 0) && JS.lt x (JS.Fin (n2 / 1000)) = true).
  { intros H. apply andb_true_iff in H. destruct H as [H0 H1].
    apply andb_true_iff. split; [exact H0 |].
    exact (lt_clock_monotone x n1 n2 Hn H1). }
  split; [exact Hexp |].
  destruct (JS.strictEq _ _); [| reflexivity]. cbn [andb].
  intros H. apply negb_false_iff in H. apply negb_false_iff. auto.
Qed.

(** Witness of X12: the record expiring at second 1700000000, at that
    second plus one and a day later. *)
Lemma advancing_clock_never_revalidates_witness :
  exists r2 d2,
    Handlers.handleVerifyAttestation
      (setNow
         (Sample.platform
            (Sample.eas (Some (Sample.ledgerRecord 1700000000 0))
               (Sample.transaction None))
            (JS.Throw JS.NonError) 0)
         1700086401000)
      Sample.verifyInput [] = (JS.Ok r2, [CallGetAttestation "0xmockattestationuid"]) /\
    Handlers.data r2 = Some d2 /\
    Handlers.Verified.attestation d2 =
      {| AttestationData.uid := "0xmockattestationuid";
         AttestationData.schema := "0xmockschema";
         AttestationData.recipient := "0x1234567890123456789012345678901234567890";
         AttestationData.attester := "0x0987654321098765432109876543210987654321";
         AttestationData.revocable := true;
         AttestationData.refUID := ZERO_UID;
         AttestationData.data := "0xmockdata";
         AttestationData.time := JS.Fin 1640995200;
         AttestationData.expirationTime := JS.Fin 1700000000;
         AttestationData.revocationTime := JS.Fin 0 |} /\
    Handlers.Verified.isRevoked d2 = false /\
    (true = true -> Handlers.Verified.isExpired d2 = true) /\
    (false = false -> Handlers.Verified.isValid d2 = false).
Proof.
  refine (advancing_clock_never_revalidates
            (Sample.platform
               (Sample.eas (Some (Sample.ledgerRecord 1700000000 0))
                  (Sample.transaction None))
               (JS.Throw JS.NonError) 0)
            Sample.verifyInput [] _ 1700000001000 1700086401000 _
            {| Handlers.Verified.attestation :=
                 {| AttestationData.uid := "0xmockattestationuid";
                    AttestationData.schema := "0xmockschema";
                    AttestationData.recipient := "0x1234567890123456789012345678901234567890";
                    AttestationData.attester := "0x0987654321098765432109876543210987654321";
                    AttestationData.revocable := true;
                    AttestationData.refUID := ZERO_UID;
                    AttestationData.data := "0xmockdata";
                    AttestationData.time := JS.Fin 1640995200;
                    AttestationData.expirationTime := JS.Fin 1700000000;
                    AttestationData.revocationTime := JS.Fin 0 |};
               Handlers.Verified.isValid := false;
               Handlers.Verified.isRevoked := false;
               Handlers.Verified.isExpired := true |}
            _ _ _).
  - lia.
  - vm_compute. reflexivity.
  - reflexivity.
Defined.

(* ===================================================================== *)
(** ** The project status of the hackathon workflow *)
(* ===================================================================== *)

Section ProjectStatus.

Lemma find_first {A} (f : A -> bool) (l : list A) (a : A) :
  find f l = Some a <->
  exists before after,
    l = (before ++ a :: after)%list /\ f a = true /\
    Forall (fun x => f x = false) before.
Proof.
  split.
  - induction l as [| x l IH]; cbn [find]; [discriminate |].
    destruct (f x) eqn:Ex.
    + intros [= ->]. exists [], l. auto.
    + intros H. destruct (IH H) as (before & after & -> & Ha & Hbefore).
      exists (x :: before), after. auto.
  - intros (before & after & -> & Ha & Hbefore).
    induction Hbefore as [| x before Hx _ IH]; cbn [app find].
    + now rewrite Ha.
    + now rewrite Hx.
Qed.

Lemma find_nothing {A} (f : A -> bool) (l : list A) :
  find f l = None <-> Forall (fun x => f x = false) l.
Proof.
  induction l as [| x l IH]; cbn [find].
  - split; [constructor | reflexivity].
  - destruct (f x) eqn:Ex; split.
    + discriminate.
    + intros H. inversion H; congruence.
    + intros H. constructor; [exact Ex | now apply IH].
    + intros H. inversion H; subst. now apply IH.
Qed.

End ProjectStatus.

(** X13.  [verifyProjectStatus] never throws.  It asks the index for the
    attestations received by the submitter with limit 100; and when the
    listing fails, for whatever reason, it answers "no submission, not
    approved", as it does for an empty list. *)
Theorem project_status_never_throws
  (this : HackathonAttestationWorkflow.t) (submitterAddress : string)
  (log : list Call) :
  let listing :=
    AttestationService.listAttestations
      (HackathonAttestationWorkflow.attestationService this)
      (HackathonAttestationWorkflow.statusInput this submitterAddress) log in
  (exists status,
     HackathonAttestationWorkflow.verifyProjectStatus this submitterAddress log
       = (JS.Ok status, snd listing)) /\
  (exists endpoint query variables,
     snd listing = (log ++ [CallFetch endpoint (ListQuery query variables)])%list /\
     Variables.recipient variables = Some submitterAddress /\
     Variables.attester variables = None /\
     Variables.schema variables = None /\
     Variables.limit variables = JS.Fin 100) /\
  (forall e,
     fst listing = JS.Throw e ->
     fst (HackathonAttestationWorkflow.verifyProjectStatus this submitterAddress log)
       = JS.Ok (HackathonAttestationWorkflow.Status.mk false false None None)) /\
  (fst listing = JS.Ok [] ->
     fst (HackathonAttestationWorkflow.verifyProjectStatus this submitterAddress log)
       = JS.Ok (HackathonAttestationWorkflow.Status.mk false false None None)).
Proof.
  intros listing. subst listing.
  unfold HackathonAttestationWorkflow.verifyProjectStatus.
  unfold Eff.tryCatch, Eff.bind, Eff.ret.
  repeat split.
  - destruct (AttestationService.listAttestations _ _ log) as [[rs | e] l];
      eexists; reflexivity.
  - unfold AttestationService.listAttestations, Eff.tryCatch.
    rewrite queryAttestations_run. cbn beta iota.
    match goal with
    | |- context [CallFetch ?e (listRequest ?f)] =>
        exists e, (GraphQLService.listQuery f), (GraphQLService.listVariables f)
    end.
    split; [| repeat split].
    destruct (listAnswer _ _) as [http | e]; [| reflexivity].
    destruct (GraphQLService.readList http); reflexivity.
  - intros e.
    destruct (AttestationService.listAttestations _ _ log) as [[rs | e0] l];
      cbn [fst]; [discriminate | reflexivity].
  - destruct (AttestationService.listAttestations _ _ log) as [[rs | e0] l];
      cbn [fst]; [| discriminate].
    intros [= ->]. reflexivity.
Qed.

(** Witness of X13: the index is unreachable. *)
Lemma project_status_never_throws_witness :
  fst (HackathonAttestationWorkflow.verifyProjectStatus
         (HackathonAttestationWorkflow.mk
            (Sample.service None (Sample.transaction None)
               (JS.Throw (JS.ErrorObj "fetch failed")))
            (HackathonAttestationWorkflow.Config.mk "0xprojectschema"
               "0xapprovalschema" testnet))
         "0x1234567890123456789012345678901234567890" [])
    = JS.Ok (HackathonAttestationWorkflow.Status.mk false false None None).
Proof.
  apply (proj1 (proj2 (proj2 (project_status_never_throws
           (HackathonAttestationWorkflow.mk
              (Sample.service None (Sample.transaction None)
                 (JS.Throw (JS.ErrorObj "fetch failed")))
              (HackathonAttestationWorkflow.Config.mk "0xprojectschema"
                 "0xapprovalschema" testnet))
           "0x1234567890123456789012345678901234567890" [])))
           (JS.ErrorObj
              "Failed to list attestations: GraphQL query failed: fetch failed")).
  vm_compute. reflexivity.
Defined.

(** X14.  When the listing succeeds, [verifyProjectStatus] reports a
    submission exactly when some listed attestation has the project schema,
    and an approval exactly when the first listed attestation with the
    approval schema (the newest, as the index orders them) has revocation
    time 0: a revoked newest approval is not made up for by an older one.
    The identifiers reported are those of the first matches. *)
Theorem project_status_reflects_listing
  (this : HackathonAttestationWorkflow.t) (submitterAddress : string)
  (log l : list Call) (rs : list AttestationData.t) :
  let projectSchema :=
    HackathonAttestationWorkflow.Config.projectSchema
      (HackathonAttestationWorkflow.config this) in
  let approvalSchema :=
    HackathonAttestationWorkflow.Config.approvalSchema
      (HackathonAttestationWorkflow.config this) in
  AttestationService.listAttestations
    (HackathonAttestationWorkflow.attestationService this)
    (HackathonAttestationWorkflow.statusInput this submitterAddress) log
    = (JS.Ok rs, l) ->
  exists status,
    HackathonAttestationWorkflow.verifyProjectStatus this submitterAddress log
      = (JS.Ok status, l) /\
    (HackathonAttestationWorkflow.Status.hasSubmission status = true <->
     exists a, In a rs /\ AttestationData.schema a = projectSchema) /\
    (forall a,
       HackathonAttestationWorkflow.Status.submissionUID status = None ->
       In a rs -> AttestationData.schema a <> projectSchema) /\
    (forall uid,
       HackathonAttestationWorkflow.Status.approvalUID status = Some uid <->
       exists before a after,
         rs = (before ++ a :: after)%list /\
         AttestationData.schema a = approvalSchema /\
         Forall (fun x => AttestationData.schema x <> approvalSchema) before /\
         AttestationData.uid a = uid) /\
    (HackathonAttestationWorkflow.Status.isApproved status = true <->
     exists before a after,
       rs = (before ++ a :: after)%list /\
       AttestationData.schema a = approvalSchema /\
       Forall (fun x => AttestationData.schema x <> approvalSchema) before /\
       JS.strictEq (AttestationData.revocationTime a) (JS.Fin 0) = true).
Proof.
  intros projectSchema approvalSchema Elist.
  unfold HackathonAttestationWorkflow.verifyProjectStatus.
  unfold Eff.tryCatch, Eff.bind, Eff.ret. rewrite Elist.
  fold projectSchema approvalSchema.
  eexists. split; [reflexivity |].
  cbn [HackathonAttestationWorkflow.Status.hasSubmission
       HackathonAttestationWorkflow.Status.submissionUID
       HackathonAttestationWorkflow.Status.approvalUID
       HackathonAttestationWorkflow.Status.isApproved].
  set (isProject := fun a => (AttestationData.schema a =? projectSchema)%string).
  set (isApproval := fun a => (AttestationData.schema a =? approvalSchema)%string).
  assert (Hfirst : forall a : AttestationData.t,
            find isApproval rs = Some a <->
            exists before after,
              rs = (before ++ a :: after)%list /\
              AttestationData.schema a = approvalSchema /\
              Forall (fun x => AttestationData.schema x <> approvalSchema) before).
  { intros a. rewrite find_first. subst isApproval. cbn beta.
    split; intros (before & after & -> & Ha & Hbefore); exists before, after;
      (split; [reflexivity |]); split.
    - now apply String.eqb_eq.
    - eapply Forall_impl; [| exact Hbefore]. cbn beta. intros x Hx.
      now apply String.eqb_neq.
    - now apply String.eqb_eq.
    - eapply Forall_impl; [| exact Hbefore]. cbn beta. intros x Hx.
      now apply String.eqb_neq. }
  repeat split.
  - destruct (find isProject rs) as [a |] eqn:Ea; [| discriminate].
    intros _. apply find_some in Ea. destruct Ea as [Hin Ha].
    exists a. split; [exact Hin |]. now apply String.eqb_eq.
  - intros (a & Hin & Ha).
    destruct (find isProject rs) as [a' |] eqn:Ea; [reflexivity |].
    apply (find_none _ _ Ea) in Hin. subst isProject. cbn beta in Hin.
    apply String.eqb_neq in Hin. contradiction.
  - intros a Hnone Hin.
    destruct (find isProject rs) as [a' |] eqn:Ea; [discriminate |].
    apply (find_none _ _ Ea) in Hin. subst isProject. cbn beta in Hin.
    now apply String.eqb_neq.
  - destruct (find isApproval rs) as [a |] eqn:Ea; [| discriminate].
    cbn [option_map]. intros [= <-].
    destruct (proj1 (Hfirst a) eq_refl) as (before & after & Hrs & Ha & Hbefore).
    exists before, a, after. auto.
  - intros (before & a & after & Hrs & Ha & Hbefore & <-).
    rewrite (proj2 (Hfirst a)) by (exists before, after; auto).
    reflexivity.
  - destruct (find isApproval rs) as [a |] eqn:Ea; [| discriminate].
    intros Hrev.
    destruct (proj1 (Hfirst a) eq_refl) as (before & after & Hrs & Ha & Hbefore).
    exists before, a, after. auto.
  - intros (before & a & after & Hrs & Ha & Hbefore & Hrev).
    rewrite (proj2 (Hfirst a)) by (exists before, after; auto).
    exact Hrev.
Qed.

(** Witness of X14: the newest approval is revoked, an older one stands;
    the project is reported as submitted and not approved. *)
Lemma project_status_reflects_listing_witness :
  exists status,
    HackathonAttestationWorkflow.verifyProjectStatus sampleWorkflow
      "0x1234567890123456789012345678901234567890" []
      = (JS.Ok status,
         snd (AttestationService.listAttestations
                (HackathonAttestationWorkflow.attestationService sampleWorkflow)
                (HackathonAttestationWorkflow.statusInput sampleWorkflow
                   "0x1234567890123456789012345678901234567890") [])) /\
    HackathonAttestationWorkflow.Status.hasSubmission status = true /\
    HackathonAttestationWorkflow.Status.isApproved status = false /\
    HackathonAttestationWorkflow.Status.approvalUID status = Some "0xnewerapproval".
Proof.
  destruct (AttestationService.listAttestations
              (HackathonAttestationWorkflow.attestationService sampleWorkflow)
              (HackathonAttestationWorkflow.statusInput sampleWorkflow
                 "0x1234567890123456789012345678901234567890") [])
    as [[rs | e] l] eqn:Elist; [| vm_compute in Elist; discriminate].
  destruct (project_status_reflects_listing sampleWorkflow
              "0x1234567890123456789012345678901234567890" [] l rs Elist)
    as (status & Estatus & _).
  exists status. split; [exact Estatus |].
  vm_compute in Elist. injection Elist as <- <-.
  vm_compute in Estatus. injection Estatus as <-.
  repeat split.
Defined.

(* ===================================================================== *)
(** ** Which endpoint, which record, which schema *)
(* ===================================================================== *)

(** X15.  A service object built for a network sends its list query to the
    index endpoint of that network (the environment's, when set and not
    empty, else the public one of that network) and to no other, in one
    request. *)
Theorem list_goes_to_network_endpoint
  (P : Platform.t) (network : Network) (input : ListAttestationsInput.t)
  (service : AttestationService.t) (log log1 : list Call) :
  AttestationService.new P network log = (JS.Ok service, log1) ->
  exists query variables,
    snd (AttestationService.listAttestations service input log1) =
      (log1 ++ [CallFetch (endpointOf (Platform.env P) network)
                  (ListQuery query variables)])%list.
Proof.
  unfold AttestationService.new, getPrivateKey. run_eff.
  destruct (JS.truthy_string _); [| discriminate].
  destruct (Platform.connect P _ _) as [sdk | e]; [| discriminate].
  intros [= <- <-].
  unfold AttestationService.listAttestations, Eff.tryCatch.
  rewrite queryAttestations_run. cbn beta iota. unfold listRequest.
  do 2 eexists.
  assert (Hendpoint :
    GraphQLService.getGraphQLEndpoint
      {| GraphQLService.config := getNetworkConfig (Platform.env P) network;
         GraphQLService.platform := P |} = endpointOf (Platform.env P) network).
  { unfold GraphQLService.getGraphQLEndpoint, endpointOf, JS.string_or.
    destruct network; reflexivity. }
  cbn [AttestationService.graphqlService]. rewrite Hendpoint.
  destruct (listAnswer _ _) as [http | e]; [| reflexivity].
  destruct (GraphQLService.readList http); reflexivity.
Qed.

(** Witness of X15: the sample platform on mainnet, with no endpoint in the
    environment. *)
Lemma list_goes_to_network_endpoint_witness :
  exists query variables,
    snd (AttestationService.listAttestations
           {| AttestationService.eas :=
                Sample.eas (Some (Sample.ledgerRecord 0 0))
                  (Sample.transaction (Some (JS.Ok (Some "0xmockattestationuid"))));
              AttestationService.config := getNetworkConfig Sample.env mainnet;
              AttestationService.graphqlService :=
                GraphQLService.mk (getNetworkConfig Sample.env mainnet) samplePlatform |}
           (Sample.listInput None) []) =
      [CallFetch "https://easscan.rootstock.io/graphql" (ListQuery query variables)].
Proof.
  apply (list_goes_to_network_endpoint samplePlatform mainnet
           (Sample.listInput None) _ [] [] eq_refl).
Defined.

(** X16.  [queryAttestationsByUID] returns a record only for a response
    with a success status whose body carries a record with three
    timestamps that start with an integer, and the record returned has the
    identifier, schema, recipient, attester, revocable flag, reference and
    data of that index record; it does not compare the identifier with the
    one asked for. *)
Theorem queryOne_success_reflects_response
  (this : GraphQLService.t) (uid : string) (a : AttestationData.t) :
  fst (Eff.run (GraphQLService.queryAttestationsByUID this uid)) = JS.Ok (Some a) ->
  exists http g,
    uidAnswer this uid = JS.Ok http /\
    carriesOne http g /\
    lacksInteger g = false /\
    sameIndexRecord g a.
Proof.
  unfold Eff.run. rewrite queryAttestationsByUID_run. cbn [fst].
  destruct (uidAnswer this uid) as [http | e]; [| discriminate].
  unfold GraphQLService.readOne, GraphQLService.checkStatus, carriesOne.
  destruct (HttpResponse.ok http) eqn:Hok; [| discriminate].
  destruct (HttpResponse.json http) as [response | e] eqn:Ejson; [| discriminate].
  destruct (GraphQLResponse.data response) as [d |] eqn:Edata; [| discriminate].
  destruct (ResponseData.attestation d) as [g |] eqn:Eone; [| discriminate].
  destruct (GraphQLService.toAttestationData g) as [a' | e] eqn:Eg; [| discriminate].
  intros [= ->]. apply toAttestationData_ok in Eg.
  destruct Eg as (Hparse & Hsame & _).
  exists http, g. split; [reflexivity |]. split; [| split; assumption].
  split; [assumption |]. exists response, d. auto.
Qed.

(** Witness of X16: the index answers the record of another identifier
    than the one asked for. *)
Lemma queryOne_success_reflects_response_witness :
  exists http g,
    uidAnswer
      (Sample.index (JS.Ok (okResponse (Sample.oneBody (Some
         (Sample.indexRecord "0xother" "1640995200" "0" "0"))))))
      "0xasked" = JS.Ok http /\
    carriesOne http g /\
    lacksInteger g = false /\
    sameIndexRecord g
      {| AttestationData.uid := "0xother";
         AttestationData.schema := "0xmockschema";
         AttestationData.recipient := "0x1234567890123456789012345678901234567890";
         AttestationData.attester := "0x0987654321098765432109876543210987654321";
         AttestationData.revocable := true;
         AttestationData.refUID := ZERO_UID;
         AttestationData.data := "0xmockdata";
         AttestationData.time := JS.Fin 1640995200;
         AttestationData.expirationTime := JS.Fin 0;
         AttestationData.revocationTime := JS.Fin 0 |}.
Proof.
  apply queryOne_success_reflects_response. vm_compute. reflexivity.
Defined.

(** X17.  The two schemas of the workflow: when the registry is reachable,
    [createProjectSubmissionSchema] submits exactly one registration, of
    the project definition, without resolver and not revocable, and
    [createApprovalSchema] exactly one, of the approval definition, without
    resolver and revocable. *)
Theorem workflow_schema_registrations
  (this : HackathonAttestationWorkflow.t) (registry : EASSchemaRegistry.t)
  (log : list Call) :
  EAS.getSchemaRegistry
    (AttestationService.eas (HackathonAttestationWorkflow.attestationService this))
    = JS.Ok registry ->
  (exists added,
     snd (HackathonAttestationWorkflow.createProjectSubmissionSchema this log)
       = (log ++ added)%list /\
     writes added =
       [CallRegister
          "string projectName,string submitterAddress,string repositoryUrl,string description,uint256 submissionTime"
          ZERO_ADDRESS false]) /\
  (exists added,
     snd (HackathonAttestationWorkflow.createApprovalSchema this log)
       = (log ++ added)%list /\
     writes added =
       [CallRegister
          "string projectId,bool approved,string reviewerAddress,string comments,uint256 reviewTime"
          ZERO_ADDRESS true]).
Proof.
  intros Eregistry. split.
  - unfold HackathonAttestationWorkflow.createProjectSubmissionSchema,
      AttestationService.createSchema, AttestationService.optionalCall.
    run_eff. rewrite Eregistry.
    cbn [CreateSchemaInput.schema CreateSchemaInput.resolverAddress
         CreateSchemaInput.revocable JS.string_or].
    match goal with
    | |- context [CallRegister ?s ?r ?b] => set (c := CallRegister s r b)
    end.
    destruct (EASSchemaRegistry.register _ _ _ _) as [tx | e];
      [| exists [CallGetSchemaRegistry; c]; cbn [snd];
         rewrite <- !app_assoc; split; reflexivity].
    destruct (EASTransaction.wait tx) as [[] | e];
      [| exists [CallGetSchemaRegistry; c; CallWait]; cbn [snd];
         rewrite <- !app_assoc; split; reflexivity].
    destruct (EASTransaction.getSchemaUID tx) as [[r | e] |];
      [exists [CallGetSchemaRegistry; c; CallWait; CallGetSchemaUID]
      | exists [CallGetSchemaRegistry; c; CallWait; CallGetSchemaUID]
      | exists [CallGetSchemaRegistry; c; CallWait]];
      cbn [snd]; rewrite <- !app_assoc; split; reflexivity.
  - unfold HackathonAttestationWorkflow.createApprovalSchema,
      AttestationService.createSchema, AttestationService.optionalCall.
    run_eff. rewrite Eregistry.
    cbn [CreateSchemaInput.schema CreateSchemaInput.resolverAddress
         CreateSchemaInput.revocable JS.string_or].
    match goal with
    | |- context [CallRegister ?s ?r ?b] => set (c := CallRegister s r b)
    end.
    destruct (EASSchemaRegistry.register _ _ _ _) as [tx | e];
      [| exists [CallGetSchemaRegistry; c]; cbn [snd];
         rewrite <- !app_assoc; split; reflexivity].
    destruct (EASTransaction.wait tx) as [[] | e];
      [| exists [CallGetSchemaRegistry; c; CallWait]; cbn [snd];
         rewrite <- !app_assoc; split; reflexivity].
    destruct (EASTransaction.getSchemaUID tx) as [[r | e] |];
      [exists [CallGetSchemaRegistry; c; CallWait; CallGetSchemaUID]
      | exists [CallGetSchemaRegistry; c; CallWait; CallGetSchemaUID]
      | exists [CallGetSchemaRegistry; c; CallWait]];
      cbn [snd]; rewrite <- !app_assoc; split; reflexivity.
Qed.

(** Witness of X17: the sample workflow. *)
Lemma workflow_schema_registrations_witness :
  exists added,
    snd (HackathonAttestationWorkflow.createApprovalSchema sampleWorkflow [])
      = added /\
    writes added =
      [CallRegister
         "string projectId,bool approved,string reviewerAddress,string comments,uint256 reviewTime"
         ZERO_ADDRESS true].
Proof.
  destruct (workflow_schema_registrations sampleWorkflow _ [] eq_refl)
    as (_ & added & Eadded & Hwrites).
  exists added. split; [exact Eadded | exact Hwrites].
Defined.

(* ===================================================================== *)
(** ** The tool server *)
(* ===================================================================== *)

Section ToolServer.

Context {Args : Type} (schemas : Server.Schemas Args) (P : Platform.t).

(** A tool whose input is accepted: the answer is the handler's result,
    not flagged as an error. *)
Lemma accepted_call {I D} (parse : JS.outcome I)
  (handler : I -> Eff.M (Handlers.Result D))
  (wrap : Handlers.Result D -> Server.ToolOutput)
  (h : JS.thrown -> Eff.M Server.CallToolResult)
  (input : I) (result : Handlers.Result D) (log l : list Call) :
  parse = JS.Ok input ->
  handler input log = (JS.Ok result, l) ->
  Eff.tryCatch
    (parsedArgs <- Eff.lift parse ;;
     result <- handler parsedArgs ;;
     Eff.ret (Server.mkCallToolResult (wrap result) false)) h log
  = (JS.Ok (Server.mkCallToolResult (wrap result) false), l).
Proof. intros -> E. run_eff. now rewrite E. Qed.

(** A tool whose input is rejected: the failure envelope, and no call. *)
Lemma rejected_call {I D} (parse : JS.outcome I)
  (handler : I -> Eff.M (Handlers.Result D))
  (wrap : Handlers.Result D -> Server.ToolOutput)
  (e : JS.thrown) (log : list Call) :
  parse = JS.Throw e ->
  Eff.tryCatch
    (parsedArgs <- Eff.lift parse ;;
     result <- handler parsedArgs ;;
     Eff.ret (Server.mkCallToolResult (wrap result) false))
    (fun error =>
       Eff.ret (Server.mkCallToolResult
         (Server.FailureOutput
            ("Tool execution failed: "
             ++ JS.errorMessage error "Unknown error occurred"))
         true)) log
  = (JS.Ok (Server.mkCallToolResult
       (Server.FailureOutput
          ("Tool execution failed: " ++ JS.errorMessage e "Unknown error occurred"))
       true), log).
Proof. intros ->. reflexivity. Qed.

End ToolServer.

(** X18.  A tool call never throws.  A name that is none of the five tools
    is answered with [isError: true] and the message "Tool execution
    failed: Unknown tool: <name>", and an input its schema rejects with
    [isError: true] and the schema's message; in both cases no handler runs
    and nothing is sent to the ledger or to the index. *)
Theorem tool_call_rejections {Args : Type}
  (schemas : Server.Schemas Args) (P : Platform.t) (name : string) (args : Args)
  (log : list Call) :
  (exists r l, Server.callTool schemas P name args log = (JS.Ok r, l)) /\
  (~ In name Server.toolNames ->
   Server.callTool schemas P name args log =
     (JS.Ok (Server.mkCallToolResult
        (Server.FailureOutput ("Tool execution failed: Unknown tool: " ++ name))
        true), log)) /\
  (forall e,
     (name = "issue-attestation" /\ Server.IssueAttestationSchema schemas args = JS.Throw e) \/
     (name = "verify-attestation" /\ Server.VerifyAttestationSchema schemas args = JS.Throw e) \/
     (name = "list-attestations" /\ Server.ListAttestationsSchema schemas args = JS.Throw e) \/
     (name = "create-schema" /\ Server.CreateSchemaSchema schemas args = JS.Throw e) \/
     (name = "revoke-attestation" /\ Server.RevokeAttestationSchema schemas args = JS.Throw e) ->
     Server.callTool schemas P name args log =
       (JS.Ok (Server.mkCallToolResult
          (Server.FailureOutput
             ("Tool execution failed: " ++ JS.errorMessage e "Unknown error occurred"))
          true), log)).
Proof.
  split; [| split].
  - destruct (handlers_return P log) as (Hi & Hv & Hl & Hs & Hr).
    unfold Server.callTool.
    destruct (name =? "issue-attestation")%string.
    { destruct (Server.IssueAttestationSchema schemas args) as [input | e] eqn:E.
      - destruct (Hi input) as (r & l & Er).
        rewrite (accepted_call _ _ Server.IssueOutput _ input r log l eq_refl Er).
        eauto.
      - run_eff. eauto. }
    destruct (name =? "verify-attestation")%string.
    { destruct (Server.VerifyAttestationSchema schemas args) as [input | e] eqn:E.
      - destruct (Hv input) as (r & l & Er).
        rewrite (accepted_call _ _ Server.VerifyOutput _ input r log l eq_refl Er).
        eauto.
      - run_eff. eauto. }
    destruct (name =? "list-attestations")%string.
    { destruct (Server.ListAttestationsSchema schemas args) as [input | e] eqn:E.
      - destruct (Hl input) as (r & l & Er).
        rewrite (accepted_call _ _ Server.ListOutput _ input r log l eq_refl Er).
        eauto.
      - run_eff. eauto. }
    destruct (name =? "create-schema")%string.
    { destruct (Server.CreateSchemaSchema schemas args) as [input | e] eqn:E.
      - destruct (Hs input) as (r & l & Er).
        rewrite (accepted_call _ _ Server.SchemaOutput _ input r log l eq_refl Er).
        eauto.
      - run_eff. eauto. }
    destruct (name =? "revoke-attestation")%string.
    { destruct (Server.RevokeAttestationSchema schemas args) as [input | e] eqn:E.
      - destruct (Hr input) as (r & l & Er).
        rewrite (accepted_call _ _ Server.RevokeOutput _ input r log l eq_refl Er).
        eauto.
      - run_eff. eauto. }
    run_eff. eauto.
  - intros Hname. unfold Server.callTool, Server.toolNames in *.
    repeat match goal with
           | |- context [(name =? ?t)%string] =>
               destruct (String.eqb_spec name t) as [-> | _];
               [exfalso; apply Hname; cbn; tauto |]
           end.
    reflexivity.
  - intros e Hrejected. unfold Server.callTool.
    destruct Hrejected as [[-> E] | [[-> E] | [[-> E] | [[-> E] | [-> E]]]]];
      cbn [String.eqb Ascii.eqb Bool.eqb andb];
      now apply rejected_call.
Qed.

(** Witness of X18: an unknown tool, and a revocation without input. *)
Lemma tool_call_rejections_witness :
  Server.callTool sampleSchemas samplePlatform "delete-attestation" OtherArgs [] =
    (JS.Ok (Server.mkCallToolResult
       (Server.FailureOutput
          "Tool execution failed: Unknown tool: delete-attestation")
       true), []) /\
  Server.callTool sampleSchemas samplePlatform "revoke-attestation" OtherArgs [] =
    (JS.Ok (Server.mkCallToolResult
       (Server.FailureOutput "Tool execution failed: Required")
       true), []).
Proof.
  split.
  - apply (proj1 (proj2 (tool_call_rejections sampleSchemas samplePlatform
                           "delete-attestation" OtherArgs []))).
    cbn. intros [H | [H | [H | [H | [H | []]]]]]; discriminate H.
  - apply (proj2 (proj2 (tool_call_rejections sampleSchemas samplePlatform
                           "revoke-attestation" OtherArgs []))
             (JS.ErrorObj "Required")).
    right. right. right. right. split; reflexivity.
Defined.

(** X19.  A tool call whose input is accepted answers with the result of
    its handler and never sets [isError], also when the operation itself
    failed and the result is [{success: false, ...}]. *)
Theorem accepted_tool_call_is_never_flagged {Args : Type}
  (schemas : Server.Schemas Args) (P : Platform.t) (args : Args) (log : list Call) :
  (forall input,
     Server.IssueAttestationSchema schemas args = JS.Ok input ->
     exists result l,
       Handlers.handleIssueAttestation P input log = (JS.Ok result, l) /\
       Server.callTool schemas P "issue-attestation" args log =
         (JS.Ok (Server.mkCallToolResult (Server.IssueOutput result) false), l)) /\
  (forall input,
     Server.VerifyAttestationSchema schemas args = JS.Ok input ->
     exists result l,
       Handlers.handleVerifyAttestation P input log = (JS.Ok result, l) /\
       Server.callTool schemas P "verify-attestation" args log =
         (JS.Ok (Server.mkCallToolResult (Server.VerifyOutput result) false), l)) /\
  (forall input,
     Server.ListAttestationsSchema schemas args = JS.Ok input ->
     exists result l,
       Handlers.handleListAttestations P input log = (JS.Ok result, l) /\
       Server.callTool schemas P "list-attestations" args log =
         (JS.Ok (Server.mkCallToolResult (Server.ListOutput result) false), l)) /\
  (forall input,
     Server.CreateSchemaSchema schemas args = JS.Ok input ->
     exists result l,
       Handlers.handleCreateSchema P input log = (JS.Ok result, l) /\
       Server.callTool schemas P "create-schema" args log =
         (JS.Ok (Server.mkCallToolResult (Server.SchemaOutput result) false), l)) /\
  (forall input,
     Server.RevokeAttestationSchema schemas args = JS.Ok input ->
     exists result l,
       Handlers.handleRevokeAttestation P input log = (JS.Ok result, l) /\
       Server.callTool schemas P "revoke-attestation" args log =
         (JS.Ok (Server.mkCallToolResult (Server.RevokeOutput result) false), l)).
Proof.
  destruct (handlers_return P log) as (Hi & Hv & Hl & Hs & Hr).
  repeat split; intros input Eparse.
  - destruct (Hi input) as (r & l & Er). exists r, l. split; [exact Er |].
    unfold Server.callTool. cbn [String.eqb Ascii.eqb Bool.eqb andb].
    eapply accepted_call; eassumption.
  - destruct (Hv input) as (r & l & Er). exists r, l. split; [exact Er |].
    unfold Server.callTool. cbn [String.eqb Ascii.eqb Bool.eqb andb].
    eapply accepted_call; eassumption.
  - destruct (Hl input) as (r & l & Er). exists r, l. split; [exact Er |].
    unfold Server.callTool. cbn [String.eqb Ascii.eqb Bool.eqb andb].
    eapply accepted_call; eassumption.
  - destruct (Hs input) as (r & l & Er). exists r, l. split; [exact Er |].
    unfold Server.callTool. cbn [String.eqb Ascii.eqb Bool.eqb andb].
    eapply accepted_call; eassumption.
  - destruct (Hr input) as (r & l & Er). exists r, l. split; [exact Er |].
    unfold Server.callTool. cbn [String.eqb Ascii.eqb Bool.eqb andb].
    eapply accepted_call; eassumption.
Qed.

(** Witness of X19: verifying an identifier the ledger does not know is a
    failed operation, answered without [isError]. *)
Lemma accepted_tool_call_is_never_flagged_witness :
  exists result l,
    Handlers.handleVerifyAttestation
      (Sample.platform (Sample.eas (Some Sample.zeroRecord) (Sample.transaction None))
         (JS.Throw JS.NonError) 0)
      Sample.verifyInput [] = (JS.Ok result, l) /\
    Server.callTool sampleSchemas
      (Sample.platform (Sample.eas (Some Sample.zeroRecord) (Sample.transaction None))
         (JS.Throw JS.NonError) 0)
      "verify-attestation" (VerifyArgs Sample.verifyInput) [] =
      (JS.Ok (Server.mkCallToolResult (Server.VerifyOutput result) false), l).
Proof.
  apply (proj1 (proj2 (accepted_tool_call_is_never_flagged sampleSchemas
                         (Sample.platform
                            (Sample.eas (Some Sample.zeroRecord) (Sample.transaction None))
                            (JS.Throw JS.NonError) 0)
                         (VerifyArgs Sample.verifyInput) []))
           Sample.verifyInput eq_refl).
Defined.

(* ===================================================================== *)
(** ** The hackathon workflow: what is attested *)
(* ===================================================================== *)

Section WorkflowAttestations.

(** The calls of [issueAttestation] for an input whose conversions
    succeed: the submission first, and no other submission after it. *)
Lemma issue_submits_first (this : AttestationService.t)
  (input : IssueAttestationInput.t) (request : AttestationRequest.t)
  (log : list Call) :
  AttestationService.attestationOf input = JS.Ok request ->
  exists rest,
    snd (AttestationService.issueAttestation this input log)
      = (log ++ CallAttest request :: rest)%list /\ writes rest = [].
Proof.
  intros Ereq.
  unfold AttestationService.issueAttestation, AttestationService.optionalCall.
  run_eff. rewrite Ereq.
  destruct (EAS.attest _ request) as [tx | e]; [| exists []; split; reflexivity].
  destruct (EASTransaction.wait tx) as [[] | e];
    [| exists [CallWait]; rewrite <- app_assoc; split; reflexivity].
  destruct (EASTransaction.getAttestationUID tx) as [[r | e] |];
    [exists [CallWait; CallGetAttestationUID]
    | exists [CallWait; CallGetAttestationUID]
    | exists [CallWait]];
    rewrite <- ?app_assoc; split; reflexivity.
Qed.

Lemma snd_bind_ret {A B} (m : Eff.M A) (f : A -> B) (log : list Call) :
  snd ((x <- m ;; Eff.ret (f x)) log) = snd (m log).
Proof. run_eff. destruct (m log) as [[a | e] l]; reflexivity. Qed.

End WorkflowAttestations.

(** X20.  What the workflow attests.  A project submission is attested to
    the submitter under the project schema, not revocable, without
    expiration and without reference; an approval is attested to the
    submitter under the approval schema, revocable, and refers to the
    submission identifier it is given (to the all-zero identifier when that
    is empty).  Each makes that one submission and no other; and when the
    encoding fails nothing is sent and the encoder's error is thrown as it
    is. *)
Theorem workflow_attestation_requests
  (encoder : SchemaEncoder) (P : Platform.t)
  (this : HackathonAttestationWorkflow.t) (project : HackathonProject.t)
  (log : list Call) :
  (forall data,
     encoder HackathonDemo.projectDefinition (HackathonDemo.submissionItems P project)
       = JS.Ok data ->
     exists rest,
       snd (HackathonDemo.attestProjectSubmission encoder P this project log)
         = (log ++ CallAttest (submissionRequest this project data) :: rest)%list /\
       writes rest = []) /\
  (forall uid data,
     encoder HackathonDemo.approvalDefinition (HackathonDemo.approvalItems P project)
       = JS.Ok data ->
     exists rest,
       snd (HackathonDemo.attestProjectApproval encoder P this project uid log)
         = (log ++ CallAttest (approvalRequest this project uid data) :: rest)%list /\
       writes rest = []) /\
  (forall e,
     encoder HackathonDemo.projectDefinition (HackathonDemo.submissionItems P project)
       = JS.Throw e ->
     HackathonDemo.attestProjectSubmission encoder P this project log
       = (JS.Throw e, log)) /\
  (forall uid e,
     encoder HackathonDemo.approvalDefinition (HackathonDemo.approvalItems P project)
       = JS.Throw e ->
     HackathonDemo.attestProjectApproval encoder P this project uid log
       = (JS.Throw e, log)).
Proof.
  repeat split.
  - intros data Edata.
    unfold HackathonDemo.attestProjectSubmission.
    unfold Eff.bind at 1. unfold Eff.lift. rewrite Edata.
    rewrite snd_bind_ret. now apply issue_submits_first.
  - intros uid data Edata.
    unfold HackathonDemo.attestProjectApproval.
    unfold Eff.bind at 1. unfold Eff.lift. rewrite Edata.
    rewrite snd_bind_ret. apply issue_submits_first.
    unfold approvalRequest. destruct uid; reflexivity.
  - intros e Ee. unfold HackathonDemo.attestProjectSubmission.
    unfold Eff.bind at 1. unfold Eff.lift. now rewrite Ee.
  - intros uid e Ee. unfold HackathonDemo.attestProjectApproval.
    unfold Eff.bind at 1. unfold Eff.lift. now rewrite Ee.
Qed.

(** Witness of X20: the approval of the demo project, referring to a
    submission. *)
Lemma workflow_attestation_requests_witness :
  exists rest,
    snd (HackathonDemo.attestProjectApproval sampleEncoder samplePlatform
           sampleWorkflow HackathonDemo.demoProject "0xsubmission" [])
      = CallAttest
          {| AttestationRequest.schema := "0xapprovalschema";
             AttestationRequest.recipient := "0x1234567890123456789012345678901234567890";
             AttestationRequest.expirationTime := 0;
             AttestationRequest.revocable := true;
             AttestationRequest.refUID := "0xsubmission";
             AttestationRequest.data := "0xencoded";
             AttestationRequest.value := 0 |} :: rest /\
    writes rest = [].
Proof.
  apply (proj1 (proj2 (workflow_attestation_requests sampleEncoder samplePlatform
                         sampleWorkflow HackathonDemo.demoProject []))
           "0xsubmission" "0xencoded" eq_refl).
Defined.

Section Demo.

Lemma bind_ok {A B} (m : Eff.M A) (k : A -> Eff.M B) (log l : list Call) (a : A) :
  m log = (JS.Ok a, l) -> Eff.bind m k log = k a l.
Proof. intros E. unfold Eff.bind. now rewrite E. Qed.

Lemma tryCatch_ok {A} (m : Eff.M A) (h : JS.thrown -> Eff.M A)
  (log l : list Call) (a : A) :
  m log = (JS.Ok a, l) -> Eff.tryCatch m h log = (JS.Ok a, l).
Proof. intros E. unfold Eff.tryCatch. now rewrite E. Qed.

Lemma new_ok (P : Platform.t) (network : Network) (sdk : EAS.t) (log : list Call) :
  JS.truthy_string (Env.PRIVATE_KEY (Platform.env P)) = true ->
  Platform.connect P (getNetworkConfig (Platform.env P) network)
    (JS.string_or (Env.PRIVATE_KEY (Platform.env P)) "") = JS.Ok sdk ->
  AttestationService.new P network log =
    (JS.Ok {| AttestationService.eas := sdk;
              AttestationService.config := getNetworkConfig (Platform.env P) network;
              AttestationService.graphqlService :=
                GraphQLService.mk (getNetworkConfig (Platform.env P) network) P |},
     log).
Proof.
  intros Hkey Hconnect. unfold AttestationService.new, getPrivateKey. run_eff.
  now rewrite Hkey, Hconnect.
Qed.

Lemma createSchema_placeholder (this : AttestationService.t)
  (input : CreateSchemaInput.t) (log : list Call) :
  alwaysConfirms (AttestationService.eas this) ->
  withoutDerivation (AttestationService.eas this) ->
  exists txHash,
    AttestationService.createSchema this input log =
      (JS.Ok {| AttestationService.Issued.uid := "unknown";
                AttestationService.Issued.txHash := txHash |},
       (log ++ [CallGetSchemaRegistry;
                CallRegister (CreateSchemaInput.schema input)
                  (JS.string_or (CreateSchemaInput.resolverAddress input) ZERO_ADDRESS)
                  (CreateSchemaInput.revocable input);
                CallWait])%list).
Proof.
  intros (_ & registry & Eregistry & Hregister) (_ & Hnone).
  destruct (Hregister (CreateSchemaInput.schema input)
              (JS.string_or (CreateSchemaInput.resolverAddress input) ZERO_ADDRESS)
              (CreateSchemaInput.revocable input)) as (tx & Etx & Ewait).
  pose proof (Hnone _ _ _ _ _ Eregistry Etx) as Euid.
  unfold AttestationService.createSchema, AttestationService.optionalCall.
  run_eff. rewrite Eregistry, Etx, Ewait, Euid.
  eexists. now rewrite <- !app_assoc.
Qed.

Lemma issue_placeholder (this : AttestationService.t)
  (input : IssueAttestationInput.t) (request : AttestationRequest.t)
  (log : list Call) :
  alwaysConfirms (AttestationService.eas this) ->
  withoutDerivation (AttestationService.eas this) ->
  AttestationService.attestationOf input = JS.Ok request ->
  exists txHash,
    AttestationService.issueAttestation this input log =
      (JS.Ok {| AttestationService.Issued.uid := "unknown";
                AttestationService.Issued.txHash := txHash |},
       (log ++ [CallAttest request; CallWait])%list).
Proof.
  intros (Hattest & _) (Hnone & _) Ereq.
  destruct (Hattest request) as (tx & Etx & Ewait).
  pose proof (Hnone _ _ Etx) as Euid.
  unfold AttestationService.issueAttestation, AttestationService.optionalCall.
  run_eff. rewrite Ereq, Etx, Ewait, Euid.
  eexists. now rewrite <- !app_assoc.
Qed.

Lemma projectSchema_placeholder (this : HackathonAttestationWorkflow.t)
  (log : list Call) :
  alwaysConfirms
    (AttestationService.eas (HackathonAttestationWorkflow.attestationService this)) ->
  withoutDerivation
    (AttestationService.eas (HackathonAttestationWorkflow.attestationService this)) ->
  HackathonAttestationWorkflow.createProjectSubmissionSchema this log =
    (JS.Ok "unknown",
     (log ++ [CallGetSchemaRegistry;
              CallRegister HackathonDemo.projectDefinition ZERO_ADDRESS false;
              CallWait])%list).
Proof.
  intros Hconfirms Hnone.
  unfold HackathonAttestationWorkflow.createProjectSubmissionSchema.
  match goal with
  | |- context [AttestationService.createSchema ?s ?i] =>
      destruct (createSchema_placeholder s i log Hconfirms Hnone) as (h & E)
  end.
  erewrite bind_ok by exact E. reflexivity.
Qed.

Lemma approvalSchema_placeholder (this : HackathonAttestationWorkflow.t)
  (log : list Call) :
  alwaysConfirms
    (AttestationService.eas (HackathonAttestationWorkflow.attestationService this)) ->
  withoutDerivation
    (AttestationService.eas (HackathonAttestationWorkflow.attestationService this)) ->
  HackathonAttestationWorkflow.createApprovalSchema this log =
    (JS.Ok "unknown",
     (log ++ [CallGetSchemaRegistry;
              CallRegister HackathonDemo.approvalDefinition ZERO_ADDRESS true;
              CallWait])%list).
Proof.
  intros Hconfirms Hnone.
  unfold HackathonAttestationWorkflow.createApprovalSchema.
  match goal with
  | |- context [AttestationService.createSchema ?s ?i] =>
      destruct (createSchema_placeholder s i log Hconfirms Hnone) as (h & E)
  end.
  erewrite bind_ok by exact E. reflexivity.
Qed.

Lemma submission_placeholder (encoder : SchemaEncoder) (P : Platform.t)
  (this : HackathonAttestationWorkflow.t) (project : HackathonProject.t)
  (data : string) (log : list Call) :
  alwaysConfirms
    (AttestationService.eas (HackathonAttestationWorkflow.attestationService this)) ->
  withoutDerivation
    (AttestationService.eas (HackathonAttestationWorkflow.attestationService this)) ->
  encoder HackathonDemo.projectDefinition (HackathonDemo.submissionItems P project)
    = JS.Ok data ->
  HackathonDemo.attestProjectSubmission encoder P this project log =
    (JS.Ok "unknown",
     (log ++ [CallAttest (submissionRequest this project data); CallWait])%list).
Proof.
  intros Hconfirms Hnone Edata.
  unfold HackathonDemo.attestProjectSubmission.
  erewrite bind_ok by (unfold Eff.lift; rewrite Edata; reflexivity).
  match goal with
  | |- context [AttestationService.issueAttestation ?s ?i] =>
      destruct (issue_placeholder s i _ log Hconfirms Hnone eq_refl) as (h & E)
  end.
  erewrite bind_ok by exact E. reflexivity.
Qed.

Lemma approval_placeholder (encoder : SchemaEncoder) (P : Platform.t)
  (this : HackathonAttestationWorkflow.t) (project : HackathonProject.t)
  (uid data : string) (log : list Call) :
  alwaysConfirms
    (AttestationService.eas (HackathonAttestationWorkflow.attestationService this)) ->
  withoutDerivation
    (AttestationService.eas (HackathonAttestationWorkflow.attestationService this)) ->
  encoder HackathonDemo.approvalDefinition (HackathonDemo.approvalItems P project)
    = JS.Ok data ->
  HackathonDemo.attestProjectApproval encoder P this project uid log =
    (JS.Ok "unknown",
     (log ++ [CallAttest (approvalRequest this project uid data); CallWait])%list).
Proof.
  intros Hconfirms Hnone Edata.
  unfold HackathonDemo.attestProjectApproval.
  erewrite bind_ok by (unfold Eff.lift; rewrite Edata; reflexivity).
  assert (Ereq : AttestationService.attestationOf
            {| IssueAttestationInput.network :=
                 HackathonAttestationWorkflow.Config.network
                   (HackathonAttestationWorkflow.config this);
               IssueAttestationInput.recipient := HackathonProject.submitter project;
               IssueAttestationInput.schema :=
                 HackathonAttestationWorkflow.Config.approvalSchema
                   (HackathonAttestationWorkflow.config this);
               IssueAttestationInput.data := data;
               IssueAttestationInput.expirationTime := None;
               IssueAttestationInput.revocable := Some true;
               IssueAttestationInput.refUID := Some uid;
               IssueAttestationInput.value := None |}
            = JS.Ok (approvalRequest this project uid data)).
  { unfold approvalRequest. destruct uid; reflexivity. }
  destruct (issue_placeholder _ _ _ log Hconfirms Hnone Ereq) as (h & E).
  erewrite bind_ok by exact E. reflexivity.
Qed.

End Demo.

(** X21.  The demo on a ledger SDK whose transactions offer no derivation
    method: every write is confirmed, every identifier comes back as the
    placeholder ["unknown"], and the placeholder is carried on: both
    attestations are submitted under the schema identifier ["unknown"], and
    the approval refers to the attestation ["unknown"]. *)
Theorem demo_carries_placeholders
  (encoder : SchemaEncoder) (P : Platform.t) (sdk : EAS.t) :
  JS.truthy_string (Env.PRIVATE_KEY (Platform.env P)) = true ->
  Platform.connect P (getNetworkConfig (Platform.env P) testnet)
    (JS.string_or (Env.PRIVATE_KEY (Platform.env P)) "") = JS.Ok sdk ->
  alwaysConfirms sdk ->
  withoutDerivation sdk ->
  (forall schema items, exists data, encoder schema items = JS.Ok data) ->
  exists data1 data2 calls,
    HackathonDemo.runHackathonDemo encoder P [] =
      (JS.Ok (HackathonDemo.Outcome.mk "unknown" "unknown" "unknown" "unknown"),
       calls) /\
    writes calls =
      [ CallRegister HackathonDemo.projectDefinition ZERO_ADDRESS false;
        CallRegister HackathonDemo.approvalDefinition ZERO_ADDRESS true;
        CallAttest
          {| AttestationRequest.schema := "unknown";
             AttestationRequest.recipient := "0x1234567890123456789012345678901234567890";
             AttestationRequest.expirationTime := 0;
             AttestationRequest.revocable := false;
             AttestationRequest.refUID := ZERO_UID;
             AttestationRequest.data := data1;
             AttestationRequest.value := 0 |};
        CallAttest
          {| AttestationRequest.schema := "unknown";
             AttestationRequest.recipient := "0x1234567890123456789012345678901234567890";
             AttestationRequest.expirationTime := 0;
             AttestationRequest.revocable := true;
             AttestationRequest.refUID := "unknown";
             AttestationRequest.data := data2;
             AttestationRequest.value := 0 |} ].
Proof.
  intros Hkey Hconnect Hconfirms Hnone Hencoder.
  destruct (Hencoder HackathonDemo.projectDefinition
              (HackathonDemo.submissionItems P HackathonDemo.demoProject))
    as (data1 & Edata1).
  destruct (Hencoder HackathonDemo.approvalDefinition
              (HackathonDemo.approvalItems P HackathonDemo.demoProject))
    as (data2 & Edata2).
  exists data1, data2.
  set (service :=
         {| AttestationService.eas := sdk;
            AttestationService.config := getNetworkConfig (Platform.env P) testnet;
            AttestationService.graphqlService :=
              GraphQLService.mk (getNetworkConfig (Platform.env P) testnet) P |}).
  assert (Hnew : forall config log,
            HackathonAttestationWorkflow.new P
              (HackathonAttestationWorkflow.Config.mk
                 (HackathonAttestationWorkflow.Config.projectSchema config)
                 (HackathonAttestationWorkflow.Config.approvalSchema config) testnet) log
            = (JS.Ok (HackathonAttestationWorkflow.mk service
                 (HackathonAttestationWorkflow.Config.mk
                    (HackathonAttestationWorkflow.Config.projectSchema config)
                    (HackathonAttestationWorkflow.Config.approvalSchema config)
                    testnet)), log)).
  { intros config log. unfold HackathonAttestationWorkflow.new.
    cbn [HackathonAttestationWorkflow.Config.network].
    erewrite bind_ok by (apply new_ok; eassumption). reflexivity. }
  unfold HackathonDemo.runHackathonDemo.
  eexists. split.
  - apply tryCatch_ok.
    erewrite bind_ok
      by (apply (Hnew (HackathonAttestationWorkflow.Config.mk "" "" testnet))).
    erewrite bind_ok by (apply projectSchema_placeholder; assumption).
    erewrite bind_ok by (apply approvalSchema_placeholder; assumption).
    erewrite bind_ok
      by (apply (Hnew (HackathonAttestationWorkflow.Config.mk "unknown" "unknown" testnet))).
    erewrite bind_ok by (apply submission_placeholder; eassumption).
    erewrite bind_ok by (apply approval_placeholder; eassumption).
    reflexivity.
  - reflexivity.
Qed.

(** Witness of X21: the mocked ledger with transactions that have no
    derivation method. *)
Lemma demo_carries_placeholders_witness :
  exists data1 data2 calls,
    HackathonDemo.runHackathonDemo sampleEncoder
      (Sample.platform (Sample.eas None (Sample.transaction None))
         (JS.Throw JS.NonError) 1700000000000) [] =
      (JS.Ok (HackathonDemo.Outcome.mk "unknown" "unknown" "unknown" "unknown"),
       calls) /\
    writes calls =
      [ CallRegister HackathonDemo.projectDefinition ZERO_ADDRESS false;
        CallRegister HackathonDemo.approvalDefinition ZERO_ADDRESS true;
        CallAttest
          {| AttestationRequest.schema := "unknown";
             AttestationRequest.recipient := "0x1234567890123456789012345678901234567890";
             AttestationRequest.expirationTime := 0;
             AttestationRequest.revocable := false;
             AttestationRequest.refUID := ZERO_UID;
             AttestationRequest.data := data1;
             AttestationRequest.value := 0 |};
        CallAttest
          {| AttestationRequest.schema := "unknown";
             AttestationRequest.recipient := "0x1234567890123456789012345678901234567890";
             AttestationRequest.expirationTime := 0;
             AttestationRequest.revocable := true;
             AttestationRequest.refUID := "unknown";
             AttestationRequest.data := data2;
             AttestationRequest.value := 0 |} ].
Proof.
  apply (demo_carries_placeholders sampleEncoder
           (Sample.platform (Sample.eas None (Sample.transaction None))
              (JS.Throw JS.NonError) 1700000000000)
           (Sample.eas None (Sample.transaction None))).
  - reflexivity.
  - reflexivity.
  - split.
    + intros request. eexists. split; reflexivity.
    + eexists. split; [reflexivity |].
      intros schema resolver revocable. eexists. split; reflexivity.
  - split.
    + intros request tx [= <-]. reflexivity.
    + intros registry schema resolver revocable tx [= <-] [= <-]. reflexivity.
  - intros schema items. eexists. reflexivity.
Defined.
